(** * O-RANJ: offline sync, reconciliation and dashboard aggregation

    A shallow embedding of the parts of the O-RANJ survey application that
    carry its synchronisation and aggregation logic:

    - [Server]: Backend/models/SurveyResponse.js (schema, indexes) and
      Backend/controllers/surveyResponseController.js ([submitResponse],
      [syncResponses]);
    - [Browser], [DataManager], [App]: the browser state and the
      [DataManager] object of script.js ([apiRequest], [submitSurvey],
      [saveSurveyLocal], [syncOfflineResponses], the sync queue), and the
      handler of the submit button;
    - [SurveyManager]: [handleRatingSelect] and [getTopProblems];
    - [Dashboard]: [processSurveyData] and [loadDashboard];
    - [Templates]: [getTemplate] and [deleteTemplate] of
      Backend/controllers/surveyTemplateController.js and [exportResponses]
      of the response controller;
    - [TeamApp], [DataManagerRest]: [manualSync], [autoSync] and the sync
      timer, [clearData] and the team member list of script.js.

    JavaScript objects are association lists in property order, since the
    code depends on [Object.entries] enumerating in insertion order.
    Mongoose itself is not part of the code: a value that a request
    carries for a path of the schema comes with the outcome of the cast
    to that path ([Server.Sent]), and the model says what the handlers
    do with either outcome.
    Client code runs in a state-and-exception monad over the browser
    state; an [await] is a point where the environment supplies the
    outcome of the request. The definitions come first, the properties
    follow from the section "Reconciliation endpoint" on. *)

From Stdlib Require Import List String Ascii ZArith Bool Arith Lia.
From Stdlib Require Import Sorting.Sorted Sorting.Permutation.
From Stdlib Require Import DecimalString.
Import ListNotations.
Open Scope string_scope.
Open Scope list_scope.

Set Implicit Arguments.

(* ================================================================== *)
(** ** JavaScript values the code relies on *)
(* ================================================================== *)

Module Js.

(** A plain object with string keys, listed in property order. The
    category names that [set] is used with are not array indices, so
    their property order is insertion order; price texts, which may be
    numbers, are added with [assign]. *)
Definition obj (V : Type) := list (string * V).

(** [o[k]] *)
Fixpoint get {V} (o : obj V) (k : string) : option V :=
  match o with
  | [] => None
  | (k', v) :: o' => if String.eqb k' k then Some v else get o' k
  end.

(** [o[k] = v]: an existing key keeps its position, a new one goes last. *)
Fixpoint set {V} (o : obj V) (k : string) (v : V) : obj V :=
  match o with
  | [] => [(k, v)]
  | (k', v') :: o' =>
      if String.eqb k' k then (k', v) :: o' else (k', v') :: set o' k v
  end.

(** [Object.entries(o)] and [Object.keys(o)] *)
Definition entries {V} (o : obj V) : list (string * V) := o.
Definition keys {V} (o : obj V) : list string := map fst o.

(** Truthiness of a value that is either [undefined] or a string. *)
Definition truthy (v : option string) : bool :=
  match v with
  | Some s => negb (String.eqb s EmptyString)
  | None => false
  end.

(** [Array.prototype.sort(cmp)]: the sort is stable; [cmp a b <= 0] keeps
    [a] in front of [b]. *)
Section Sort.
Variable A : Type.
Variable cmp : A -> A -> Z.

Fixpoint insert (x : A) (l : list A) : list A :=
  match l with
  | [] => [x]
  | y :: l' => if (cmp x y <=? 0)%Z then x :: y :: l' else y :: insert x l'
  end.

Fixpoint sort (l : list A) : list A :=
  match l with
  | [] => []
  | x :: l' => insert x (sort l')
  end.
End Sort.

(** [a.slice(0, n)] *)
Definition slice0 {A} (n : nat) (l : list A) : list A := firstn n l.

(** White space stripped by [String.prototype.trim] and skipped by
    [parseInt] (the ASCII part of it). *)
Definition is_space (c : ascii) : bool :=
  let n := nat_of_ascii c in
  ((n =? 32) || (n =? 9) || (n =? 10) || (n =? 11) || (n =? 12) || (n =? 13))%nat.

Fixpoint trim_start (s : string) : string :=
  match s with
  | String c s' => if is_space c then trim_start s' else s
  | EmptyString => EmptyString
  end.

Fixpoint trim_end (s : string) : string :=
  match s with
  | EmptyString => EmptyString
  | String c s' =>
      match trim_end s' with
      | EmptyString => if is_space c then EmptyString else String c EmptyString
      | t => String c t
      end
  end.

Definition trim (s : string) : string := trim_end (trim_start s).

(** [parseInt(s)]: optional white space, optional sign, then the longest
    run of digits (hexadecimal after [0x]); [None] is [NaN]. *)
Definition digit_of (radix : Z) (c : ascii) : option Z :=
  let n := Z.of_nat (nat_of_ascii c) in
  let d := if (48 <=? n)%Z && (n <=? 57)%Z then (n - 48)%Z
           else if (97 <=? n)%Z && (n <=? 122)%Z then (n - 87)%Z
           else if (65 <=? n)%Z && (n <=? 90)%Z then (n - 55)%Z
           else 99%Z in
  if (d <? radix)%Z then Some d else None.

Fixpoint digits (radix : Z) (s : string) (acc : option Z) : option Z :=
  match s with
  | EmptyString => acc
  | String c s' =>
      match digit_of radix c with
      | Some d =>
          digits radix s'
            (Some (match acc with Some a => a * radix + d | None => d end)%Z)
      | None => acc
      end
  end.

Definition parseInt (s : string) : option Z :=
  let s := trim_start s in
  let '(sign, s) :=
    match s with
    | String "-"%char s' => ((-1)%Z, s')
    | String "+"%char s' => (1%Z, s')
    | _ => (1%Z, s)
    end in
  let '(radix, s) :=
    match s with
    | String "0"%char (String "x"%char s') => (16%Z, s')
    | String "0"%char (String "X"%char s') => (16%Z, s')
    | _ => (10%Z, s)
    end in
  option_map (Z.mul sign) (digits radix s None).

(** Text produced by the numeric formatting calls of the dashboard. The
    two quotients are IEEE doubles in the browser; they are kept as the
    pair of integers they are computed from. *)
Inductive text :=
| Lit (s : string)                 (* a string literal *)
| ToFixed1 (num den : Z)           (* (num / den).toFixed(1) *)
| RoundPct (num den : Z).          (* Math.round((num / den) * 100) + '%' *)

(** Decimal rendering of an array length inside a template literal. *)
Definition of_nat (n : nat) : string := NilEmpty.string_of_uint (Nat.to_uint n).

(** [s] between double quotes, as error messages print a value. *)
Definition quoted (s : string) : string :=
  let q := String (ascii_of_nat 34) EmptyString in (q ++ s ++ q)%string.

(** The members every plain object inherits from [Object.prototype]:
    [o[k]] finds them when [o] has no property [k] of its own. *)
Definition prototype_members : list string :=
  [ "constructor"; "hasOwnProperty"; "isPrototypeOf"; "propertyIsEnumerable";
    "toLocaleString"; "toString"; "valueOf"; "__proto__";
    "__defineGetter__"; "__defineSetter__"; "__lookupGetter__"; "__lookupSetter__" ].

Definition inherited (k : string) : bool := existsb (String.eqb k) prototype_members.

(** Is [k] an array index, the decimal text without leading zero of a
    number below 2^32 - 1? Such keys are enumerated first, in ascending
    order, whenever they were added. *)
Fixpoint all_digits (s : string) : bool :=
  match s with
  | EmptyString => true
  | String c s' =>
      let n := nat_of_ascii c in ((48 <=? n) && (n <=? 57))%nat && all_digits s'
  end.

Definition array_index (k : string) : option Z :=
  match k with
  | EmptyString => None
  | String c rest =>
      if all_digits k && (negb (Ascii.eqb c "0"%char) || String.eqb rest EmptyString)
      then
        match digits 10 k None with
        | Some n => if (n <? 4294967295)%Z then Some n else None
        | None => None
        end
      else None
  end.

(** Does a new key [k] come before the existing key [k'] in property
    order? *)
Definition goes_before (k k' : string) : bool :=
  match array_index k, array_index k' with
  | Some i, Some j => (i <? j)%Z
  | Some _, None => true
  | None, _ => false
  end.

Fixpoint add_key {V} (o : obj V) (k : string) (v : V) : obj V :=
  match o with
  | [] => [(k, v)]
  | (k', v') :: o' =>
      if goes_before k k' then (k, v) :: o else (k', v') :: add_key o' k v
  end.

(** [o[k] = v] in full property order: an existing key keeps its
    position; a new array index goes among the array indices, any other
    new key goes last. *)
Definition assign {V} (o : obj V) (k : string) (v : V) : obj V :=
  match get o k with
  | Some _ => set o k v
  | None => add_key o k v
  end.

End Js.

(* ================================================================== *)
(** ** Server: SurveyResponse model and surveyResponseController.js *)
(* ================================================================== *)

Module Server.

Definition ObjectId := string.
(** Pass-through request data ([responses], [location], [metadata]) that
    the controller never inspects, kept as serialized JSON. *)
Definition Json := string.
(** A [Date], in milliseconds since the epoch. *)
Definition Date := Z.

(** A value as a request carries it, seen through the cast that Mongoose
    applies to it when it builds a document or a query. [Fits v] is a
    value that casts, given by its cast [v]. [Misfit value error] is one
    that does not, given by its text and by what Mongoose reports for
    it, path included; for a [location] whose latitude is the word north
    this is [location.latitude: Cast to Number failed ...]. Which values
    cast is decided by Mongoose: the model is handed the outcome. *)
Inductive Sent (T : Type) :=
| Fits (v : T)
| Misfit (value : Json) (error : string).

Arguments Fits {T} v.
Arguments Misfit {T} value error.

(** The cast of a value that was sent, if it has one. *)
Definition cast_of {T} (v : option (Sent T)) : option T :=
  match v with
  | Some (Fits x) => Some x
  | Some (Misfit _ _) | None => None
  end.

(** What Mongoose reports for a value that was sent, if it does not cast. *)
Definition cast_error {T} (v : option (Sent T)) : list string :=
  match v with
  | Some (Misfit _ error) => [error]
  | Some (Fits _) | None => []
  end.

(** *** models/SurveyResponse.js: [responseSchema] *)

Record DeviceInfo := {
  deviceId : option string;
  platform : option string;
  userAgent : option string;
  appVersion : option string
}.

(** [analytics], with the two dates of type [D]: a [Date] in a stored
    document, the value that was sent in a request. *)
Record AnalyticsOf (D : Type) := {
  completionTime : option Z;
  startTime : option D;
  endTime : option D;
  sectionsCompleted : list string
}.

Definition Analytics := AnalyticsOf Date.

Definition with_dates {D E} (f : option D -> option E) (a : AnalyticsOf D) : AnalyticsOf E :=
  {| completionTime := completionTime a;
     startTime := f (startTime a);
     endTime := f (endTime a);
     sectionsCompleted := sectionsCompleted a |}.

Inductive SyncStatus := pending | synced | failed_status.

Record SyncEvent := {
  timestamp : Date;
  status : string;
  message : string
}.

(** A persisted document of the collection. *)
Record SurveyResponse := {
  _id : nat;
  surveyTemplate : ObjectId;
  collectedBy : ObjectId;
  team : ObjectId;
  deviceInfo : option DeviceInfo;
  location : option Json;
  responses : option Json;
  analytics : option Analytics;
  syncStatus : SyncStatus;
  syncHistory : list SyncEvent;
  metadata : option Json;
  createdAt : Date;
  updatedAt : Date
}.

(** The schema paths that occur in index declarations or in the
    controller's filters. *)
Inductive SchemaPath :=
| P_surveyTemplate | P_collectedBy | P_team | P_syncStatus | P_createdAt
| P_deviceId        (* 'deviceInfo.deviceId' *)
| P_startTime.      (* 'analytics.startTime' *)

Record IndexSpec := {
  ix_fields : list (SchemaPath * Z);
  ix_unique : bool
}.

(** The five [responseSchema.index(...)] calls; none passes
    [{ unique: true }]. *)
Definition responseSchema_indexes : list IndexSpec :=
  [ {| ix_fields := [(P_surveyTemplate, 1%Z); (P_createdAt, (-1)%Z)]; ix_unique := false |};
    {| ix_fields := [(P_collectedBy, 1%Z); (P_createdAt, (-1)%Z)]; ix_unique := false |};
    {| ix_fields := [(P_team, 1%Z); (P_syncStatus, 1%Z)]; ix_unique := false |};
    {| ix_fields := [(P_createdAt, (-1)%Z)]; ix_unique := false |};
    {| ix_fields := [(P_deviceId, 1%Z)]; ix_unique := false |} ].

(** The value of a document at a path, as an index or a filter sees it:
    a missing path reads as null. *)
Inductive KeyVal :=
| KId (i : ObjectId)
| KStr (s : option string)
| KDate (d : option Date)
| KStatus (s : SyncStatus).

Definition doc_deviceId (d : SurveyResponse) : option string :=
  match deviceInfo d with Some di => deviceId di | None => None end.

Definition doc_startTime (d : SurveyResponse) : option Date :=
  match analytics d with Some a => startTime a | None => None end.

Definition path_value (p : SchemaPath) (d : SurveyResponse) : KeyVal :=
  match p with
  | P_surveyTemplate => KId (surveyTemplate d)
  | P_collectedBy => KId (collectedBy d)
  | P_team => KId (team d)
  | P_syncStatus => KStatus (syncStatus d)
  | P_createdAt => KDate (Some (createdAt d))
  | P_deviceId => KStr (doc_deviceId d)
  | P_startTime => KDate (doc_startTime d)
  end.

Definition opt_eqb {A} (eqb : A -> A -> bool) (x y : option A) : bool :=
  match x, y with
  | Some a, Some b => eqb a b
  | None, None => true
  | _, _ => false
  end.

Definition status_eqb (a b : SyncStatus) : bool :=
  match a, b with
  | pending, pending | synced, synced | failed_status, failed_status => true
  | _, _ => false
  end.

Definition keyval_eqb (a b : KeyVal) : bool :=
  match a, b with
  | KId i, KId j => String.eqb i j
  | KStr s, KStr t => opt_eqb String.eqb s t
  | KDate d, KDate e => opt_eqb Z.eqb d e
  | KStatus s, KStatus t => status_eqb s t
  | _, _ => false
  end.

Fixpoint keys_eqb (a b : list KeyVal) : bool :=
  match a, b with
  | [], [] => true
  | x :: a', y :: b' => keyval_eqb x y && keys_eqb a' b'
  | _, _ => false
  end.

Definition index_key (ix : IndexSpec) (d : SurveyResponse) : list KeyVal :=
  map (fun f => path_value (fst f) d) (ix_fields ix).

(** *** Server state *)

Record SurveyTemplateDoc := {
  t_id : ObjectId;
  t_team : ObjectId;
  t_status : string
}.

(** The collections, the supply of fresh [_id]s, and the wall clock:
    [clock n] is what the [n]-th [new Date()] of the process reads. *)
Record Db := {
  docs : list SurveyResponse;
  templates : list SurveyTemplateDoc;
  idSupply : nat;
  clock : nat -> Date;
  ticks : nat
}.

Definition with_docs (ds : list SurveyResponse) (db : Db) : Db :=
  {| docs := ds; templates := templates db; idSupply := idSupply db;
     clock := clock db; ticks := ticks db |}.

Definition take_id (db : Db) : nat * Db :=
  (idSupply db,
   {| docs := docs db; templates := templates db; idSupply := S (idSupply db);
      clock := clock db; ticks := ticks db |}).

(** [new Date()] *)
Definition new_Date (db : Db) : Date * Db :=
  (clock db (ticks db),
   {| docs := docs db; templates := templates db; idSupply := idSupply db;
      clock := clock db; ticks := S (ticks db) |}).

(** *** Model methods *)

(** The object handed to [SurveyResponse.create]; [None] is an absent
    property. [collectedBy] and [team] are only ever filled from the
    session, where they are ObjectIds already. *)
Record DocInput := {
  in_surveyTemplate : option (Sent ObjectId);
  in_collectedBy : option ObjectId;
  in_team : option ObjectId;
  in_deviceInfo : option DeviceInfo;
  in_location : option (Sent Json);
  in_responses : option (Sent Json);
  in_analytics : option (AnalyticsOf (Sent Date));
  in_syncStatus : option string;
  in_syncHistory : option (list SyncEvent);
  in_metadata : option (Sent Json)
}.

(** The [enum] of [syncStatus]. *)
Definition parse_status (s : string) : option SyncStatus :=
  if String.eqb s "pending" then Some pending
  else if String.eqb s "synced" then Some synced
  else if String.eqb s "failed" then Some failed_status
  else None.

Definition default_syncStatus : SyncStatus := synced.

(** The status a document gets: the schema default when absent, nothing
    when the value is outside the enum. *)
Definition cast_status (v : option string) : option SyncStatus :=
  match v with
  | Some s => parse_status s
  | None => Some default_syncStatus
  end.

(** The values Mongoose cannot cast to their schema type while it builds
    the document: the ObjectId of [surveyTemplate], the map of
    [responses], the numbers of [location], the dates of [analytics].
    They are listed in the order of the properties of the object literal
    of [submitResponse]; the order in which a sync item has its
    properties is not kept. *)
Definition cast_errors (i : DocInput) : list string :=
  cast_error (in_surveyTemplate i)
  ++ cast_error (in_responses i)
  ++ cast_error (in_location i)
  ++ match in_analytics i with
     | Some a => cast_error (startTime a) ++ cast_error (endTime a)
     | None => []
     end
  ++ cast_error (in_metadata i).

(** The validators of the schema: the [required: true] paths and the
    [enum]. A path that did not cast is not validated again. *)
Definition validator_errors (i : DocInput) : list string :=
  match in_surveyTemplate i with
  | None => ["surveyTemplate: Path `surveyTemplate` is required."]
  | Some _ => []
  end
  ++ match in_collectedBy i with
     | None => ["collectedBy: Path `collectedBy` is required."]
     | Some _ => []
     end
  ++ match in_team i with
     | None => ["team: Path `team` is required."]
     | Some _ => []
     end
  ++ match in_syncStatus i, cast_status (in_syncStatus i) with
     | Some s, None =>
         [("syncStatus: `" ++ s ++ "` is not a valid enum value for path `syncStatus`.")%string]
     | _, _ => []
     end.

(** Validation of a document before it is saved, [None] when it passes.
    The message lists every failing path, the cast errors first. *)
Definition validate (i : DocInput) : option string :=
  match cast_errors i ++ validator_errors i with
  | [] => None
  | errors => Some ("SurveyResponse validation failed: " ++ String.concat ", " errors)%string
  end.

(** Does inserting [d] clash with an existing document on a declared
    unique index? *)
Definition unique_violation (d : SurveyResponse) (ds : list SurveyResponse) : bool :=
  existsb
    (fun ix =>
       ix_unique ix
       && existsb (fun e => keys_eqb (index_key ix e) (index_key ix d)) ds)
    responseSchema_indexes.

(** [SurveyResponse.create(input)]: a rejected promise is [inr message]. *)
Definition create (i : DocInput) (db : Db) : (SurveyResponse + string) * Db :=
  let '(id, db) := take_id db in
  match validate i, cast_of (in_surveyTemplate i), in_collectedBy i, in_team i,
        cast_status (in_syncStatus i) with
  | None, Some tpl, Some by_, Some tm, Some st =>
      let '(now, db) := new_Date db in
      let d :=
        {| _id := id; surveyTemplate := tpl; collectedBy := by_; team := tm;
           deviceInfo := in_deviceInfo i; location := cast_of (in_location i);
           responses := cast_of (in_responses i);
           analytics := option_map (with_dates cast_of) (in_analytics i);
           syncStatus := st;
           syncHistory := match in_syncHistory i with Some h => h | None => [] end;
           metadata := cast_of (in_metadata i);
           createdAt := now; updatedAt := now |} in
      if unique_violation d (docs db)
      then (inr "E11000 duplicate key error collection: surveyresponses", db)
      else (inl d, with_docs (docs db ++ [d]) db)
  | Some msg, _, _, _, _ => (inr msg, db)
  | None, _, _, _, _ => (inr "SurveyResponse validation failed", db)
  end.

(** [SurveyResponse.findOne({'deviceInfo.deviceId': dev,
    'analytics.startTime': t})]. An [undefined] in the filter is sent as
    null, which matches a null or missing path. *)
Definition matches_key (dev : option string) (t : option Date) (d : SurveyResponse) : bool :=
  opt_eqb String.eqb (doc_deviceId d) dev && opt_eqb Z.eqb (doc_startTime d) t.

Definition findOne (dev : option string) (t : option Date) (db : Db) : option SurveyResponse :=
  find (matches_key dev t) (docs db).

(** [SurveyTemplate.findOne({_id, team, status: 'active'})] *)
Definition findActiveTemplate (id : option ObjectId) (tm : ObjectId) (db : Db)
  : option SurveyTemplateDoc :=
  match id with
  | Some id =>
      find (fun t => String.eqb (t_id t) id && String.eqb (t_team t) tm
                     && String.eqb (t_status t) "active")
           (templates db)
  | None => None
  end.

(** *** Requests *)

(** [req.user], set by the auth middleware. *)
Record User := { u_id : ObjectId; u_team : ObjectId }.

(** One element of [req.body.responses] of the sync route. Any of the
    fields may be present; [c_team], [c_collectedBy], [c_syncStatus] and
    [c_syncHistory] are whatever the client chose to send. The template
    reference and the pass-through data are held as they were sent,
    castable or not. The device description and [analytics], which
    carry the two paths of the lookup, are held in cast form: strings,
    a number and dates. *)
Record Candidate := {
  c_surveyTemplate : option (Sent ObjectId);
  c_collectedBy : option ObjectId;
  c_team : option ObjectId;
  c_deviceInfo : option DeviceInfo;
  c_location : option (Sent Json);
  c_responses : option (Sent Json);
  c_analytics : option Analytics;
  c_syncStatus : option string;
  c_syncHistory : option (list SyncEvent);
  c_metadata : option (Sent Json)
}.

(** [responseData.deviceInfo?.deviceId] and
    [responseData.analytics?.startTime] *)
Definition c_deviceId (c : Candidate) : option string :=
  match c_deviceInfo c with Some di => deviceId di | None => None end.

Definition c_startTime (c : Candidate) : option Date :=
  match c_analytics c with Some a => startTime a | None => None end.

Record SyncFailure := { f_deviceId : option string; f_error : string }.

Record SyncResults := {
  successful : list nat;
  failed : list SyncFailure
}.

Definition push_successful (r : SyncResults) (id : nat) : SyncResults :=
  {| successful := successful r ++ [id]; failed := failed r |}.

Definition push_failed (r : SyncResults) (f : SyncFailure) : SyncResults :=
  {| successful := successful r; failed := failed r ++ [f] |}.

Inductive Reply :=
| Reply400 (msg : string)
| Reply404 (msg : string)
| Reply200 (msg : string) (syncResults : SyncResults)
| Reply201 (msg : string) (response : SurveyResponse)
| NextError (msg : string).

(** [{ ...responseData }]: every property the client sent. *)
Definition spread (responseData : Candidate) : DocInput :=
  {| in_surveyTemplate := c_surveyTemplate responseData;
     in_collectedBy := c_collectedBy responseData;
     in_team := c_team responseData;
     in_deviceInfo := c_deviceInfo responseData;
     in_location := c_location responseData;
     in_responses := c_responses responseData;
     in_analytics := option_map (with_dates (option_map Fits)) (c_analytics responseData);
     in_syncStatus := c_syncStatus responseData;
     in_syncHistory := c_syncHistory responseData;
     in_metadata := c_metadata responseData |}.

(** The object literal of lines 101-111: the spread of [responseData]
    followed by the four properties that replace what it carried. *)
Definition sync_input (responseData : Candidate) (user : User) (now : Date) : DocInput :=
  let o := spread responseData in
  {| in_surveyTemplate := in_surveyTemplate o;
     in_deviceInfo := in_deviceInfo o;
     in_location := in_location o;
     in_responses := in_responses o;
     in_analytics := in_analytics o;
     in_metadata := in_metadata o;
     in_collectedBy := Some (u_id user);
     in_team := Some (u_team user);
     in_syncStatus := Some "synced";
     in_syncHistory :=
       Some [ {| timestamp := now; status := "synced";
                 message := "Synced from offline device" |} ] |}.

(** The [for ... of] loop of [syncResponses], one iteration per item. *)
Definition syncOne (user : User) (responseData : Candidate) (st : Db * SyncResults)
  : Db * SyncResults :=
  let '(db, syncResults) := st in
  match findOne (c_deviceId responseData) (c_startTime responseData) db with
  | Some existingResponse =>
      (db, push_failed syncResults
             {| f_deviceId := c_deviceId responseData;
                f_error := "Response already synced" |})
  | None =>
      let '(now, db) := new_Date db in
      match create (sync_input responseData user now) db with
      | (inl response, db) => (db, push_successful syncResults (_id response))
      | (inr error_message, db) =>
          (db, push_failed syncResults
                 {| f_deviceId := c_deviceId responseData;
                    f_error := error_message |})
      end
  end.

Definition syncLoop (user : User) (responses : list Candidate) (st : Db * SyncResults)
  : Db * SyncResults :=
  fold_left (fun st responseData => syncOne user responseData st) responses st.

(** [exports.syncResponses]; [None] is a body whose [responses] is not an
    array. *)
Definition syncResponses (user : User) (responses : option (list Candidate)) (db : Db)
  : Reply * Db :=
  match responses with
  | None => (Reply400 "Responses must be an array", db)
  | Some responses =>
      let '(db, syncResults) :=
        syncLoop user responses (db, {| successful := []; failed := [] |}) in
      (Reply200
         ("Sync completed: " ++ Js.of_nat (List.length (successful syncResults))
          ++ " successful, " ++ Js.of_nat (List.length (failed syncResults)) ++ " failed")
         syncResults,
       db)
  end.

(** A date as the body of a submission carries it: a JSON number of
    milliseconds, or a string, given with the time [new Date] reads from
    it ([None] when the string is no date). *)
Inductive RawDate :=
| DateNumber (ms : Z)
| DateString (text : string) (time : option Date).

(** Is the value true in a condition? Zero and the empty string are not. *)
Definition truthy_date (v : RawDate) : bool :=
  match v with
  | DateNumber ms => negb (ms =? 0)%Z
  | DateString text _ => negb (String.eqb text EmptyString)
  end.

(** The time value of [new Date(v)], [None] for an invalid date: a
    string that is no date, or a number beyond the range of [Date]. *)
Definition time_of (v : RawDate) : option Date :=
  match v with
  | DateNumber ms => if (Z.abs ms <=? 8640000000000000)%Z then Some ms else None
  | DateString _ time => time
  end.

(** [new Date(v)] as [create] receives it at [path]: an invalid date
    does not cast. *)
Definition new_Date_from (path : string) (v : RawDate) : Sent Date :=
  match time_of v with
  | Some t => Fits t
  | None =>
      Misfit "Invalid Date"
        (path ++ ": Cast to date failed for value " ++ Js.quoted "Invalid Date"
         ++ " (type Date) at path " ++ Js.quoted path)%string
  end.

(** [req.body] of the single-submission route. The route's validator
    lets only a Mongo id through as [surveyTemplate], which is held as
    the ObjectId it casts to; [analytics] is held as sent, since the
    controller inspects its dates. *)
Record Submission := {
  s_surveyTemplate : option ObjectId;
  s_responses : option (Sent Json);
  s_deviceInfo : option DeviceInfo;
  s_location : option (Sent Json);
  s_analytics : option (AnalyticsOf RawDate)
}.

(** [exports.submitResponse]; [meta] stands for the [ip] and header
    values copied into [metadata]. *)
Definition submitResponse (user : User) (meta : Json) (body : Submission) (db : Db)
  : Reply * Db :=
  match findActiveTemplate (s_surveyTemplate body) (u_team user) db with
  | None => (Reply404 "Survey template not found or not active", db)
  | Some template =>
      match s_analytics body with
      | None =>
          (NextError "Cannot read properties of undefined (reading 'startTime')", db)
      | Some a =>
          let start :=
            match startTime a with
            | Some v =>
                if truthy_date v then Some (new_Date_from "analytics.startTime" v)
                else None
            | None => None
            end in
          let '(end_, db) :=
            match endTime a with
            | Some v =>
                if truthy_date v then (new_Date_from "analytics.endTime" v, db)
                else let '(now, db) := new_Date db in (Fits now, db)
            | None => let '(now, db) := new_Date db in (Fits now, db)
            end in
          let responseData :=
            {| in_surveyTemplate := option_map Fits (s_surveyTemplate body);
               in_collectedBy := Some (u_id user);
               in_team := Some (u_team user);
               in_responses := s_responses body;
               in_deviceInfo := s_deviceInfo body;
               in_location := s_location body;
               in_analytics :=
                 Some {| completionTime := completionTime a;
                         startTime := start;
                         endTime := Some end_;
                         sectionsCompleted := sectionsCompleted a |};
               in_syncStatus := None;
               in_syncHistory := None;
               in_metadata := Some (Fits meta) |} in
          match create responseData db with
          | (inl response, db) =>
              (Reply201 "Survey response submitted successfully" response, db)
          | (inr error_message, db) => (NextError error_message, db)
          end
      end
  end.

End Server.

(* ================================================================== *)
(** ** Client: browser state and the DataManager of script.js *)
(* ================================================================== *)

Module Survey.

(** An element of [topProblems]. *)
Record Problem := { category : string; rating : Z }.

(** What [SurveyManager.collectSurveyData] returns, as far as the sync
    and aggregation code reads it. Ratings are the integers stored by
    [handleRatingSelect]; the selected options are the [dataset.value]
    strings, [None] when nothing is selected; [freeText] holds the
    remaining text areas. *)
Record Response := {
  problemRatings : option (Js.obj Z);
  topProblems : option (list Problem);
  satisfactionRating : option string;
  likelihoodRating : option string;
  willingnessToPay : option string;
  interestedInTrying : option string;
  surveyTemplate : option string;
  freeText : string
}.

(** The [completeSurvey] object of [saveSurveyLocal]. *)
Record StoredSurvey := {
  data : Response;
  id : string;
  timestamp : string;
  deviceId : string;
  syncStatus : string;
  date : string
}.

End Survey.

Module Browser.

Import Survey.

(** The [localStorage] entries the sync code touches; [None] is an
    absent key. *)
Record LocalStorage := {
  survey_responses : option (list StoredSurvey);
  pending_sync_queue : option (list StoredSurvey);
  ls_deviceId : option string
}.

(** The browser as the code sees it: storage, the notifications shown by
    [TeamApp.showNotification], the console, and how many identifiers
    [generateId] has drawn. *)
Record State := {
  storage : LocalStorage;
  notifications : list (string * string);
  console : list string;
  drawn : nat
}.

(** What the environment answers during one synchronous run of code:
    [navigator.onLine], the identifiers [generateId] produces, and the two
    renderings of the current time. *)
Record Env := {
  onLine : bool;
  idGen : nat -> string;
  nowISO : string;
  nowLocale : string
}.

(** A call either returns or throws. *)
Inductive Result (A : Type) :=
| Return (a : A)
| Throw (error : string).
Arguments Return {A} a.
Arguments Throw {A} error.

Definition M (A : Type) := State -> Result A * State.

Definition ret {A} (a : A) : M A := fun s => (Return a, s).
Definition throw {A} (e : string) : M A := fun s => (Throw e, s).

Definition bind {A B} (m : M A) (k : A -> M B) : M B :=
  fun s =>
    match m s with
    | (Return a, s') => k a s'
    | (Throw e, s') => (Throw e, s')
    end.

(** [try { m } catch (error) { h error }] *)
Definition try_catch {A} (m : M A) (h : string -> M A) : M A :=
  fun s =>
    match m s with
    | (Return a, s') => (Return a, s')
    | (Throw e, s') => h e s'
    end.

Definition get_storage : M LocalStorage := fun s => (Return (storage s), s).

Definition put_storage (ls : LocalStorage) : M unit :=
  fun s =>
    (Return tt,
     {| storage := ls; notifications := notifications s;
        console := console s; drawn := drawn s |}).

Definition console_log (line : string) : M unit :=
  fun s =>
    (Return tt,
     {| storage := storage s; notifications := notifications s;
        console := console s ++ [line]; drawn := drawn s |}).

(** [TeamApp.showNotification(message, type)] *)
Definition showNotification (message type : string) : M unit :=
  fun s =>
    (Return tt,
     {| storage := storage s;
        notifications := notifications s ++ [(message, type)];
        console := console s; drawn := drawn s |}).

(** [Date.now().toString(36) + Math.random().toString(36).substr(2)] *)
Definition generateId (env : Env) : M string :=
  fun s =>
    (Return (idGen env (drawn s)),
     {| storage := storage s; notifications := notifications s;
        console := console s; drawn := S (drawn s) |}).

End Browser.

Declare Scope js_scope.
Delimit Scope js_scope with js.
Notation "x <- m ;; k" := (Browser.bind m (fun x => k))
  (at level 61, m at next level, right associativity) : js_scope.
Notation "m ;;; k" := (Browser.bind m (fun _ => k))
  (at level 61, right associativity) : js_scope.

Module DataManager.

Import Survey Browser.
Local Open Scope js_scope.

(** What [fetch] and [response.json()] deliver for one request. *)
Record ApiData := {
  success : bool;
  message : option string;
  (* data.syncResults: created ids, and (deviceId, error) per failure *)
  syncResults : option (list string * list (option string * string));
  (* data.response.syncStatus *)
  response_syncStatus : option string
}.

Inductive FetchOutcome :=
| FetchRejected (error : string)             (* no response was received *)
| FetchResponse (ok : bool) (body : ApiData). (* response.ok and its JSON *)

(** [getAllSurveys], [getPendingSyncQueue]: [JSON.parse(item || '[]')] *)
Definition getAllSurveys : M (list StoredSurvey) :=
  ls <- get_storage ;;
  ret (match survey_responses ls with Some l => l | None => [] end).

Definition getPendingSyncQueue : M (list StoredSurvey) :=
  ls <- get_storage ;;
  ret (match pending_sync_queue ls with Some l => l | None => [] end).

Definition getPendingSyncCount : M nat :=
  q <- getPendingSyncQueue ;; ret (List.length q).

Definition addToSyncQueue (survey : StoredSurvey) : M unit :=
  queue <- getPendingSyncQueue ;;
  ls <- get_storage ;;
  put_storage {| survey_responses := survey_responses ls;
                 pending_sync_queue := Some (queue ++ [survey]);
                 ls_deviceId := ls_deviceId ls |}.

(** [localStorage.removeItem(PENDING_SYNC)] *)
Definition clearSyncQueue : M unit :=
  ls <- get_storage ;;
  put_storage {| survey_responses := survey_responses ls;
                 pending_sync_queue := None;
                 ls_deviceId := ls_deviceId ls |}.

Definition addToOfflineQueue (endpoint : string) : M unit :=
  console_log ("Added to offline queue: " ++ endpoint).

Definition getDeviceId (env : Env) : M string :=
  ls <- get_storage ;;
  if Js.truthy (ls_deviceId ls)
  then ret (match ls_deviceId ls with Some d => d | None => EmptyString end)
  else
    deviceId <- generateId env ;;
    ls <- get_storage ;;
    put_storage {| survey_responses := survey_responses ls;
                   pending_sync_queue := pending_sync_queue ls;
                   ls_deviceId := Some deviceId |} ;;;
    ret deviceId.

(** [apiRequest(endpoint, options)] from the point where the awaited
    [fetch] settles with [net]; [env] is the environment at that point. *)
Definition apiRequest (env : Env) (endpoint method : string) (net : FetchOutcome)
  : M ApiData :=
  try_catch
    (match net with
     | FetchRejected error => throw error
     | FetchResponse ok body =>
         if negb ok
         then throw (if Js.truthy (message body)
                     then match message body with Some m => m | None => EmptyString end
                     else "API request failed")
         else ret body
     end)
    (fun error =>
       console_log ("API Request failed: " ++ error) ;;;
       (if negb (onLine env) && negb (String.eqb method EmptyString)
           && negb (String.eqb method "GET")
        then addToOfflineQueue endpoint
        else ret tt) ;;;
       throw error).

(** [saveSurveyLocal(response)] *)
Definition saveSurveyLocal (env : Env) (response : Response) : M StoredSurvey :=
  surveys <- getAllSurveys ;;
  surveyId <- generateId env ;;
  dev <- getDeviceId env ;;
  let completeSurvey :=
    {| data := response;
       id := surveyId;
       timestamp := nowISO env;
       deviceId := dev;
       syncStatus := if onLine env then "synced" else "pending";
       date := nowLocale env |} in
  ls <- get_storage ;;
  put_storage {| survey_responses := Some (surveys ++ [completeSurvey]);
                 pending_sync_queue := pending_sync_queue ls;
                 ls_deviceId := ls_deviceId ls |} ;;;
  (if negb (onLine env) then addToSyncQueue completeSurvey else ret tt) ;;;
  ret completeSurvey.

(** What [submitSurvey] resolves to: the server's JSON, or the local
    [{ success: true, data: { response: completeSurvey } }]. *)
Inductive SubmitResult :=
| ServerResult (result : ApiData)
| LocalResult (completeSurvey : StoredSurvey).

(** [submitSurvey(response)]: [env1] is the environment when the call
    starts, [net] what the awaited request settles with, [env2] the
    environment when the call resumes. *)
Definition submitSurvey (response : Response)
    (env1 : Env) (net : FetchOutcome) (env2 : Env) : M SubmitResult :=
  _dev <- getDeviceId env1 ;;
  if onLine env1 then
    try_catch
      (result <- apiRequest env2 "/survey-responses" "POST" net ;;
       saveSurveyLocal env2 response ;;;
       ret (ServerResult result))
      (fun error =>
         console_log ("Failed to submit to backend, saving locally: " ++ error) ;;;
         completeSurvey <- saveSurveyLocal env2 response ;;
         ret (LocalResult completeSurvey))
  else
    completeSurvey <- saveSurveyLocal env1 response ;;
    ret (LocalResult completeSurvey).

Definition no_pending : ApiData :=
  {| success := true; message := Some "No pending responses to sync";
     syncResults := None; response_syncStatus := None |}.

(** [syncOfflineResponses()], with the same staging as [submitSurvey]. *)
Definition syncOfflineResponses
    (env1 : Env) (net : FetchOutcome) (env2 : Env) : M ApiData :=
  pendingResponses <- getPendingSyncQueue ;;
  if (List.length pendingResponses =? 0)%nat || negb (onLine env1) then
    ret no_pending
  else
    try_catch
      (result <- apiRequest env2 "/survey-responses/sync" "POST" net ;;
       (if success result then
          clearSyncQueue ;;;
          match syncResults result with
          | Some (ok_ids, _) =>
              showNotification
                ("Synced " ++ Js.of_nat (List.length ok_ids) ++ " responses") "success"
          | None =>
              throw "Cannot read properties of undefined (reading 'syncResults')"
          end
        else ret tt) ;;;
       ret result)
      (fun error =>
         console_log ("Sync failed: " ++ error) ;;;
         throw error).

End DataManager.


(* ================================================================== *)
(** ** SurveyManager: ratings and the derived top problems *)
(* ================================================================== *)

Module SurveyManager.

Import Survey.

(** [handleRatingSelect(category, value, scale)], the part that stores
    the rating: [this.currentRatings[category] = parseInt(value)], where
    [value] is the integer of the clicked option. *)
Definition handleRatingSelect (category : string) (value : Z) (currentRatings : Js.obj Z)
  : Js.obj Z :=
  Js.set currentRatings category value.

(** The comparator [(a, b) => b.rating - a.rating]. *)
Definition by_rating_desc (a b : Problem) : Z := (rating b - rating a)%Z.

(** [getTopProblems()] *)
Definition getTopProblems (currentRatings : Js.obj Z) : list Problem :=
  Js.slice0 3
    (Js.sort by_rating_desc
       (filter (fun problem => (rating problem >? 0)%Z)
          (map (fun e => {| category := fst e; rating := snd e |})
             (Js.entries currentRatings)))).

End SurveyManager.

(* ================================================================== *)
(** ** Dashboard: processSurveyData and loadDashboard *)
(* ================================================================== *)

Module Dashboard.

Import Survey.

Record EarlyAdopter := { yes : Z; no : Z }.

(** A bucket of [willingnessToPay]. The price text is free text, and for
    one that names a member that [{}] inherits, [(o[price] || 0) + 1]
    finds the member and appends the digit 1 to its text: [Garbled m n]
    is the text of the member [m] followed by [n] digits 1. Any other
    price text gets a count. *)
Inductive Bucket :=
| Counted (n : Z)
| Garbled (member : string) (ones : nat).

(** The state the [responses.forEach] callback mutates: the containers of
    [processedData] and the two running totals. [severityByCategory]
    holds [{ sum, count }] pairs until the final pass. *)
Record Agg := {
  a_problemDistribution : Js.obj Z;
  a_topProblems : Js.obj Z;
  a_severityByCategory : Js.obj (Z * Z);
  a_satisfaction : Js.obj Z;
  a_adoptionLikelihood : Js.obj Z;
  a_willingnessToPay : Js.obj Bucket;
  a_earlyAdopter : EarlyAdopter;
  totalSeverity : Z;
  severityCount : Z
}.

Record ProcessedData := {
  totalResponses : nat;
  completionRate : Z;
  problemDistribution : Js.obj Z;
  topProblems : Js.obj Z;
  severityByCategory : Js.obj Js.text;
  satisfaction : Js.obj Z;
  adoptionLikelihood : Js.obj Z;
  willingnessToPay : Js.obj Bucket;
  earlyAdopter : EarlyAdopter;
  avgProblemSeverity : Js.text;
  topProblem : string;
  solutionInterest : Js.text
}.

(** [{1: 0, 2: 0, 3: 0, 4: 0, 5: 0}] *)
Definition five_buckets : Js.obj Z :=
  [("1", 0%Z); ("2", 0%Z); ("3", 0%Z); ("4", 0%Z); ("5", 0%Z)].

Definition initial : Agg :=
  {| a_problemDistribution := [];
     a_topProblems := [];
     a_severityByCategory := [];
     a_satisfaction := five_buckets;
     a_adoptionLikelihood := five_buckets;
     a_willingnessToPay := [];
     a_earlyAdopter := {| yes := 0; no := 0 |};
     totalSeverity := 0;
     severityCount := 0 |}.

(** [o[k] || 0] for a counter whose keys are category names or the five
    ratings, none of which names a member that [{}] inherits. *)
Definition or0 (o : Js.obj Z) (k : string) : Z :=
  match Js.get o k with Some n => n | None => 0%Z end.

(** [o[k] = (o[k] || 0) + 1] *)
Definition bump (o : Js.obj Z) (k : string) : Js.obj Z :=
  Js.set o k (or0 o k + 1)%Z.

(** One [[category, rating]] entry of [response.problemRatings]. *)
Definition rateOne (a : Agg) (e : string * Z) : Agg :=
  let '(category, rating) := e in
  if (rating >? 0)%Z then
    let sev :=
      match Js.get (a_severityByCategory a) category with
      | Some (sum, count) => Js.set (a_severityByCategory a) category (sum + rating, count + 1)%Z
      | None => Js.set (a_severityByCategory a) category (0 + rating, 0 + 1)%Z
      end in
    {| a_problemDistribution := bump (a_problemDistribution a) category;
       a_topProblems := a_topProblems a;
       a_severityByCategory := sev;
       a_satisfaction := a_satisfaction a;
       a_adoptionLikelihood := a_adoptionLikelihood a;
       a_willingnessToPay := a_willingnessToPay a;
       a_earlyAdopter := a_earlyAdopter a;
       totalSeverity := (totalSeverity a + rating)%Z;
       severityCount := (severityCount a + 1)%Z |}
  else a.

(** One element of [response.topProblems]: counted in [topProblems], then
    "ensured" in [problemDistribution] and incremented there as well. *)
Definition topOne (a : Agg) (problem : Problem) : Agg :=
  let problemCategory := category problem in
  let dist := a_problemDistribution a in
  let dist :=
    match Js.get dist problemCategory with
    | Some n => if (n =? 0)%Z then Js.set dist problemCategory 0%Z else dist
    | None => Js.set dist problemCategory 0%Z
    end in
  let dist := Js.set dist problemCategory (or0 dist problemCategory + 1)%Z in
  {| a_problemDistribution := dist;
     a_topProblems := bump (a_topProblems a) problemCategory;
     a_severityByCategory := a_severityByCategory a;
     a_satisfaction := a_satisfaction a;
     a_adoptionLikelihood := a_adoptionLikelihood a;
     a_willingnessToPay := a_willingnessToPay a;
     a_earlyAdopter := a_earlyAdopter a;
     totalSeverity := totalSeverity a;
     severityCount := severityCount a |}.

(** [hist[rating]++] when the parsed rating lies in 1..5. *)
Definition histogram (hist : Js.obj Z) (v : option string) : Js.obj Z :=
  if Js.truthy v then
    match Js.parseInt (match v with Some s => s | None => EmptyString end) with
    | Some rating =>
        if (1 <=? rating)%Z && (rating <=? 5)%Z
        then
          let k := Js.of_nat (Z.to_nat rating) in
          Js.set hist k (or0 hist k + 1)%Z
        else hist
    | None => hist
    end
  else hist.

(** [wtp[price] = (wtp[price] || 0) + 1] on the plain object [wtp]. An
    own bucket is incremented, or gets one more digit when it is text. A
    price that is new to [wtp] starts at 1, unless it names an inherited
    member: then the member is found and the bucket becomes text. The
    assignment to [__proto__] sets no property. *)
Definition payBucket (wtp : Js.obj Bucket) (price : string) : Js.obj Bucket :=
  match Js.get wtp price with
  | Some (Counted n) => Js.assign wtp price (Counted (n + 1))
  | Some (Garbled member ones) => Js.assign wtp price (Garbled member (S ones))
  | None =>
      if String.eqb price "__proto__" then wtp
      else if Js.inherited price then Js.assign wtp price (Garbled price 1)
      else Js.assign wtp price (Counted 1)
  end.

Definition payOne (wtp : Js.obj Bucket) (v : option string) : Js.obj Bucket :=
  match v with
  | Some s =>
      if negb (String.eqb s EmptyString) && negb (String.eqb (Js.trim s) EmptyString)
      then payBucket wtp (Js.trim s)
      else wtp
  | None => wtp
  end.

Definition adoptOne (ea : EarlyAdopter) (v : option string) : EarlyAdopter :=
  if Js.truthy v then
    if String.eqb (match v with Some s => s | None => EmptyString end) "yes"
    then {| yes := yes ea + 1; no := no ea |}
    else {| yes := yes ea; no := no ea + 1 |}
  else ea.

(** The body of the [responses.forEach] callback. *)
Definition processOne (a : Agg) (response : Response) : Agg :=
  let a :=
    match problemRatings response with
    | Some ratings => fold_left rateOne (Js.entries ratings) a
    | None => a
    end in
  let a :=
    match Survey.topProblems response with
    | Some tops =>
        if (0 <? List.length tops)%nat then fold_left topOne tops a else a
    | None => a
    end in
  {| a_problemDistribution := a_problemDistribution a;
     a_topProblems := a_topProblems a;
     a_severityByCategory := a_severityByCategory a;
     a_satisfaction := histogram (a_satisfaction a) (satisfactionRating response);
     a_adoptionLikelihood := histogram (a_adoptionLikelihood a) (likelihoodRating response);
     a_willingnessToPay := payOne (a_willingnessToPay a) (Survey.willingnessToPay response);
     a_earlyAdopter := adoptOne (a_earlyAdopter a) (interestedInTrying response);
     totalSeverity := totalSeverity a;
     severityCount := severityCount a |}.

(** The two "find the maximum" loops: a strictly larger count replaces
    the current candidate. *)
Definition pickMax (st : Z * string) (e : string * Z) : Z * string :=
  let '(maxCount, top) := st in
  let '(problem, count) := e in
  if (count >? maxCount)%Z then (count, problem) else (maxCount, top).

Definition findTopProblem (tops dist : Js.obj Z) : string :=
  let '(maxCount, top) := fold_left pickMax (Js.entries tops) (0%Z, EmptyString) in
  let '(_, top) :=
    if String.eqb top EmptyString
    then fold_left pickMax (Js.entries dist) (maxCount, top)
    else (maxCount, top) in
  if String.eqb top EmptyString then "No data" else top.

Definition finishSeverity (e : string * (Z * Z)) : string * Js.text :=
  let '(category, (sum, count)) := e in
  (category, if (count >? 0)%Z then Js.ToFixed1 sum count else Js.Lit "0.0").

(** [processSurveyData(responses)]; [None] is [null]. *)
Definition processSurveyData (responses : list Response) : option ProcessedData :=
  if (List.length responses =? 0)%nat then None
  else
    let a := fold_left processOne responses initial in
    let totalInterest := (yes (a_earlyAdopter a) + no (a_earlyAdopter a))%Z in
    Some
      {| totalResponses := List.length responses;
         completionRate := 100;
         problemDistribution := a_problemDistribution a;
         topProblems := a_topProblems a;
         severityByCategory := map finishSeverity (a_severityByCategory a);
         satisfaction := a_satisfaction a;
         adoptionLikelihood := a_adoptionLikelihood a;
         willingnessToPay := a_willingnessToPay a;
         earlyAdopter := a_earlyAdopter a;
         avgProblemSeverity :=
           if (severityCount a >? 0)%Z
           then Js.ToFixed1 (totalSeverity a) (severityCount a)
           else Js.Lit "0.0";
         topProblem := findTopProblem (a_topProblems a) (a_problemDistribution a);
         solutionInterest :=
           if (totalInterest >? 0)%Z
           then Js.RoundPct (yes (a_earlyAdopter a)) totalInterest
           else Js.Lit "0%" |}.

(** The text [loadDashboard] writes into the statistics elements
    [total-responses], [completion-rate], [avg-problem-severity],
    [top-problem] and [solution-interest]. *)
Record Statistics := {
  total_responses : nat;
  completion_rate : string;
  avg_problem_severity : Js.text;
  top_problem : string;
  solution_interest : Js.text
}.

(** [loadDashboard()], given what [DataManager.getAllSurveys()] returned.
    [processSurveyData] is only called on a non-empty array, where it
    never returns [null]; both remaining cases show the empty state. *)
Definition loadDashboard (responses : list Response) : Statistics :=
  let completion := if (0 <? List.length responses)%nat then "100%" else "0%" in
  match
    (if (0 <? List.length responses)%nat then processSurveyData responses else None)
  with
  | Some processedData =>
      {| total_responses := List.length responses;
         completion_rate := completion;
         avg_problem_severity := avgProblemSeverity processedData;
         top_problem := topProblem processedData;
         solution_interest := solutionInterest processedData |}
  | None =>
      {| total_responses := List.length responses;
         completion_rate := completion;
         avg_problem_severity := Js.Lit "0.0";
         top_problem := "-";
         solution_interest := Js.Lit "0%" |}
  end.

End Dashboard.

(* ================================================================== *)
(** ** Vocabulary of the properties *)
(* ================================================================== *)

Module Props.

Import Server.

(** The natural key of a persisted response and of a candidate. *)
Definition natural_key (d : SurveyResponse) : option string * option Date :=
  (doc_deviceId d, doc_startTime d).

Definition candidate_key (c : Candidate) : option string * option Date :=
  (c_deviceId c, c_startTime c).

(** Is there a persisted response with the candidate's key? How many? *)
Definition known (ds : list SurveyResponse) (c : Candidate) : bool :=
  existsb (matches_key (c_deviceId c) (c_startTime c)) ds.

Definition count_key (ds : list SurveyResponse) (c : Candidate) : nat :=
  List.length (filter (matches_key (c_deviceId c) (c_startTime c)) ds).

(** The error with which [create] rejects the document that the endpoint
    builds from a candidate, [None] when it accepts it. Team and
    collector come from the session and the status from the controller,
    so the outcome depends on the candidate alone. *)
Definition rejection (c : Candidate) : option string :=
  validate (sync_input c {| u_id := EmptyString; u_team := EmptyString |} 0%Z).

(** A candidate passes schema validation when [create] accepts its
    document: it carries a template reference, and the reference and
    the pass-through data can all be cast to the schema. *)
Definition persistable (c : Candidate) : bool :=
  match rejection c with None => true | Some _ => false end.

Definition duplicate_failure (c : Candidate) : SyncFailure :=
  {| f_deviceId := c_deviceId c; f_error := "Response already synced" |}.

(** How an item that fails validation is reported. *)
Definition validation_failure (c : Candidate) : SyncFailure :=
  {| f_deviceId := c_deviceId c;
     f_error := match rejection c with Some msg => msg | None => EmptyString end |}.


(** The synchronisation event written by the endpoint. *)
Definition sync_event (t : Date) : SyncEvent :=
  {| timestamp := t; status := "synced"; message := "Synced from offline device" |}.


(** Ownership and sync bookkeeping of a record, whatever it came from. *)
Definition owned_by (user : User) (db : Db) (d : SurveyResponse) : Prop :=
  team d = u_team user
  /\ collectedBy d = u_id user
  /\ syncStatus d = synced
  /\ exists n, (ticks db <= n)%nat /\ syncHistory d = [sync_event (clock db n)].

(** A candidate with the client-supplied ownership fields removed. *)
Definition erase_owner (c : Candidate) : Candidate :=
  {| c_surveyTemplate := c_surveyTemplate c;
     c_collectedBy := None;
     c_team := None;
     c_deviceInfo := c_deviceInfo c;
     c_location := c_location c;
     c_responses := c_responses c;
     c_analytics := c_analytics c;
     c_syncStatus := c_syncStatus c;
     c_syncHistory := c_syncHistory c;
     c_metadata := c_metadata c |}.

(** The record written for a persistable candidate. *)
Definition written (user : User) (c : Candidate) (tpl : ObjectId) (db : Db) : SurveyResponse :=
  {| _id := idSupply db; surveyTemplate := tpl;
     collectedBy := u_id user; team := u_team user;
     deviceInfo := c_deviceInfo c; location := cast_of (c_location c);
     responses := cast_of (c_responses c); analytics := c_analytics c;
     syncStatus := synced;
     syncHistory := [sync_event (clock db (ticks db))];
     metadata := cast_of (c_metadata c);
     createdAt := clock db (S (ticks db)); updatedAt := clock db (S (ticks db)) |}.

(** Two candidates with the same natural key. *)
Definition same_key (c c0 : Candidate) : bool :=
  opt_eqb String.eqb (c_deviceId c) (c_deviceId c0)
  && opt_eqb Z.eqb (c_startTime c) (c_startTime c0).

(** The three ways one iteration can go. *)
Inductive step_kind (user : User) (c : Candidate) (db db' : Db)
          (res res' : SyncResults) : Prop :=
| step_duplicate :
    known (docs db) c = true -> db' = db ->
    res' = push_failed res (duplicate_failure c) ->
    step_kind user c db db' res res'
| step_rejected :
    known (docs db) c = false -> persistable c = false ->
    docs db' = docs db ->
    res' = push_failed res (validation_failure c) ->
    step_kind user c db db' res res'
| step_created tpl :
    known (docs db) c = false -> persistable c = true ->
    c_surveyTemplate c = Some (Fits tpl) ->
    docs db' = docs db ++ [written user c tpl db] ->
    res' = push_successful res (idSupply db) ->
    step_kind user c db db' res res'.

(** The results carried by a reply of the sync endpoint. *)
Definition results_of (r : Reply) : SyncResults :=
  match r with
  | Reply200 _ syncResults => syncResults
  | _ => {| successful := []; failed := [] |}
  end.

End Props.

(* ================================================================== *)
(** ** The submit button *)
(* ================================================================== *)

Module App.

Import Survey Browser DataManager.

(** The [.then(result => ...)] handler of the top-level [submitSurvey()]:
    the notification tells the user whether the survey is synced, read
    from [result.data.response?.syncStatus]. *)
Definition onSubmitted (result : SubmitResult) : M unit :=
  let status :=
    match result with
    | ServerResult r => response_syncStatus r
    | LocalResult completeSurvey => Some (syncStatus completeSurvey)
    end in
  let syncStatus :=
    match status with
    | Some s => if String.eqb s "synced" then "and synced" else "(pending sync)"
    | None => "(pending sync)"
    end in
  showNotification ("Survey submitted successfully " ++ syncStatus ++ "!") "success".

End App.

(* ================================================================== *)
(** ** Vocabulary of the client properties *)
(* ================================================================== *)

Module ClientProps.

Import Survey Browser DataManager.

(** No successful response came back: the request was rejected, or the
    server answered with an error status. *)
Definition no_success (net : FetchOutcome) : Prop :=
  match net with
  | FetchRejected _ => True
  | FetchResponse ok _ => ok = false
  end.

(** The error [apiRequest] throws in that case. *)
Definition failure_of (net : FetchOutcome) : string :=
  match net with
  | FetchRejected error => error
  | FetchResponse _ body =>
      if Js.truthy (message body)
      then match message body with Some m => m | None => EmptyString end
      else "API request failed"
  end.

Definition queue_of (s : State) : list StoredSurvey :=
  match pending_sync_queue (storage s) with Some q => q | None => [] end.

Definition surveys_of (s : State) : list StoredSurvey :=
  match survey_responses (storage s) with Some l => l | None => [] end.

(** An environment in which [navigator.onLine] is [true]. *)
Definition online (gen : nat -> string) (iso locale : string) : Env :=
  {| onLine := true; idGen := gen; nowISO := iso; nowLocale := locale |}.

Definition offline (gen : nat -> string) (iso locale : string) : Env :=
  {| onLine := false; idGen := gen; nowISO := iso; nowLocale := locale |}.

(** A browser with one survey waiting in the queue. *)
Definition queued_survey : StoredSurvey :=
  {| data := {| problemRatings := Some [("Transport", 4%Z)];
                Survey.topProblems := Some [ {| category := "Transport"; rating := 4 |} ];
                satisfactionRating := Some "2";
                likelihoodRating := Some "4";
                willingnessToPay := Some "R30";
                interestedInTrying := Some "yes";
                surveyTemplate := Some "6650a1b2c3d4e5f6a7b8e001";
                freeText := "Offline test response" |};
     id := "id-7"; timestamp := "2024-01-01T10:00:00.000Z";
     deviceId := "device-a"; syncStatus := "pending"; date := "Jan 1, 2024, 10:00 AM" |}.

Definition browser1 : State :=
  {| storage := {| survey_responses := Some [queued_survey];
                   pending_sync_queue := Some [queued_survey];
                   ls_deviceId := Some "device-a" |};
     notifications := []; console := []; drawn := 8 |}.

Definition env_online : Env :=
  online (fun n => ("id-" ++ Js.of_nat n)%string) "2024-01-01T11:00:00.000Z" "Jan 1, 2024, 11:00 AM".

End ClientProps.

(* ================================================================== *)
(** ** Vocabulary of the survey and dashboard properties *)
(* ================================================================== *)

Module SurveyProps.

Import Survey SurveyManager Dashboard.

Definition as_problem (e : string * Z) : Problem :=
  {| category := fst e; rating := snd e |}.

Definition has_rating (v : Z) (p : Problem) : bool := (rating p =? v)%Z.

Definition rated_positive (p : Problem) : bool := (rating p >? 0)%Z.

(** Descending order of rating. *)
Definition rating_ge (a b : Problem) : Prop := (rating a >= rating b)%Z.

(** Ratings A:5, B:5, C:3, D:5 clicked in that order. *)
Definition ratings_ABCD : Js.obj Z :=
  handleRatingSelect "D" 5
    (handleRatingSelect "C" 3
       (handleRatingSelect "B" 5
          (handleRatingSelect "A" 5 []))).

(** Number of responses satisfying [p], as the counters hold it. *)
Definition count (p : Response -> bool) (responses : list Response) : Z :=
  Z.of_nat (List.length (filter p responses)).

(** The response gave [category] a non-zero rating. *)
Definition rated (category : string) (r : Response) : bool :=
  match problemRatings r with
  | Some ratings =>
      match Js.get ratings category with
      | Some v => (v >? 0)%Z
      | None => false
      end
  | None => false
  end.

(** The response answered the early-adopter question at all; with 'yes';
    with anything else. *)
Definition answered (r : Response) : bool := Js.truthy (interestedInTrying r).

Definition said_yes (r : Response) : bool :=
  match interestedInTrying r with
  | Some s => String.eqb s "yes"
  | None => false
  end.

Definition said_other (r : Response) : bool := answered r && negb (said_yes r).

(** A response that answers none of the aggregated questions. *)
Definition blank (r : Response) : bool :=
  match problemRatings r, Survey.topProblems r, satisfactionRating r,
        likelihoodRating r, Survey.willingnessToPay r, interestedInTrying r with
  | None, None, None, None, None, None => true
  | _, _, _, _, _, _ => false
  end.

(** The aggregate with every counter at zero. *)
Definition zero_state (n : nat) : ProcessedData :=
  {| totalResponses := n;
     completionRate := 100;
     problemDistribution := [];
     topProblems := [];
     severityByCategory := [];
     satisfaction := five_buckets;
     adoptionLikelihood := five_buckets;
     willingnessToPay := [];
     earlyAdopter := {| yes := 0; no := 0 |};
     avgProblemSeverity := Js.Lit "0.0";
     topProblem := "No data";
     solutionInterest := Js.Lit "0%" |}.

(** The offline response of the repository's flow test: one category,
    rated 4, which is therefore also its top problem. *)
Definition transport_response : Response :=
  {| problemRatings := Some [("Transport", 4%Z)];
     Survey.topProblems := Some (getTopProblems [("Transport", 4%Z)]);
     satisfactionRating := Some "2";
     likelihoodRating := Some "4";
     Survey.willingnessToPay := Some "R30";
     interestedInTrying := Some "yes";
     surveyTemplate := Some "6650a1b2c3d4e5f6a7b8e001";
     freeText := "Offline test response" |}.

(** A response that names its template and answers nothing. *)
Definition blank_response : Response :=
  {| problemRatings := None;
     Survey.topProblems := None;
     satisfactionRating := None;
     likelihoodRating := None;
     Survey.willingnessToPay := None;
     interestedInTrying := None;
     surveyTemplate := Some "6650a1b2c3d4e5f6a7b8e001";
     freeText := EmptyString |}.

(** A response that answers only the early-adopter question. *)
Definition interest_only (answer : string) : Response :=
  {| problemRatings := None;
     Survey.topProblems := None;
     satisfactionRating := None;
     likelihoodRating := None;
     Survey.willingnessToPay := None;
     interestedInTrying := Some answer;
     surveyTemplate := None;
     freeText := EmptyString |}.

End SurveyProps.

(* ================================================================== *)
(** ** Sample data *)
(* ================================================================== *)

Module Sample.

Import Server.

Definition user0 : User := {| u_id := "6650a1b2c3d4e5f6a7b8c001"; u_team := "6650a1b2c3d4e5f6a7b8d001" |}.

(** An empty collection, one active template of the session's team. *)
Definition db0 : Db :=
  {| docs := [];
     templates := [ {| t_id := "6650a1b2c3d4e5f6a7b8e001"; t_team := "6650a1b2c3d4e5f6a7b8d001"; t_status := "active" |} ];
     idSupply := 0;
     clock := fun n => (1000 + Z.of_nat n)%Z;
     ticks := 0 |}.

(** A candidate from device [dev], started at [t], naming template
    [tpl], and claiming another team and collector for itself. *)
Definition candidate (dev : string) (t : Date) (tpl : option ObjectId) : Candidate :=
  {| c_surveyTemplate := option_map Fits tpl;
     c_collectedBy := Some "6650a1b2c3d4e5f6a7b8c009";
     c_team := Some "6650a1b2c3d4e5f6a7b8d008";
     c_deviceInfo :=
       Some {| deviceId := Some dev; platform := Some "Offline Platform";
               userAgent := Some "Offline Agent"; appVersion := Some "1.0.0" |};
     c_location := None;
     c_responses := Some (Fits "{}");
     c_analytics :=
       Some {| completionTime := Some 600%Z; startTime := Some t;
               endTime := Some (t + 600000)%Z;
               sectionsCompleted := ["1"; "2"; "3"; "4"] |};
     c_syncStatus := Some "pending";
     c_syncHistory := None;
     c_metadata := None |}.

Definition item_a : Candidate := candidate "device-a" 100%Z (Some "6650a1b2c3d4e5f6a7b8e001").
Definition item_b : Candidate := candidate "device-b" 200%Z (Some "6650a1b2c3d4e5f6a7b8e001").

(** The same response as [item_a] with other ownership claims. *)
Definition item_a' : Candidate :=
  {| c_surveyTemplate := c_surveyTemplate item_a;
     c_collectedBy := None;
     c_team := Some "6650a1b2c3d4e5f6a7b8d009";
     c_deviceInfo := c_deviceInfo item_a;
     c_location := c_location item_a;
     c_responses := c_responses item_a;
     c_analytics := c_analytics item_a;
     c_syncStatus := c_syncStatus item_a;
     c_syncHistory := c_syncHistory item_a;
     c_metadata := c_metadata item_a |}.


(** The collection after [item_b] has been synchronised once. *)
Definition db_b : Db := snd (syncResponses user0 (Some [item_b]) db0).

(** A direct submission from device [device-a], started at 100, with
    the dates as the ISO strings that [JSON.stringify] makes of them. *)
Definition submission_a : Submission :=
  {| s_surveyTemplate := Some "6650a1b2c3d4e5f6a7b8e001";
     s_responses := Some (Fits "{}");
     s_deviceInfo := c_deviceInfo item_a;
     s_location := None;
     s_analytics :=
       Some {| completionTime := Some 600%Z;
               startTime := Some (DateString "1970-01-01T00:00:00.100Z" (Some 100%Z));
               endTime := Some (DateString "1970-01-01T00:10:00.100Z" (Some 600100%Z));
               sectionsCompleted := ["1"; "2"; "3"; "4"] |} |}.

End Sample.

(* ================================================================== *)
(** ** Server: template lookup and deletion, export *)
(* ================================================================== *)

Module Templates.

Import Server.

(** [SurveyTemplate.findOne({ _id: id, team })], with [id] the [:id] of
    the route, which no validator has looked at. For a string that is no
    ObjectId the query is rejected with the cast error, [inr]. *)
Definition findTeamTemplate (id : Sent ObjectId) (tm : ObjectId) (db : Db)
  : option SurveyTemplateDoc + string :=
  match id with
  | Fits id =>
      inl (find (fun t => String.eqb (t_id t) id && String.eqb (t_team t) tm)
                (templates db))
  | Misfit _ error => inr error
  end.

(** [SurveyResponse.countDocuments({ surveyTemplate: id })] *)
Definition countResponses (id : ObjectId) (db : Db) : nat :=
  List.length (filter (fun d => String.eqb (surveyTemplate d) id) (docs db)).

(** [SurveyTemplate.findByIdAndDelete(id)]: the first template with that
    [_id] goes. *)
Fixpoint remove_by_id (id : ObjectId) (ts : list SurveyTemplateDoc)
  : list SurveyTemplateDoc :=
  match ts with
  | [] => []
  | t :: ts' => if String.eqb (t_id t) id then ts' else t :: remove_by_id id ts'
  end.

(** The replies of the template handlers; [TNext] is [next(error)]. *)
Inductive TemplateReply :=
| T404 (msg : string)
| T400 (msg : string)
| T200 (msg : string)
| T200_template (template : SurveyTemplateDoc)
| TNext (error : string).

(** [exports.getTemplate], with [id] the [:id] of the route. *)
Definition getTemplate (user : User) (id : Sent ObjectId) (db : Db) : TemplateReply :=
  match findTeamTemplate id (u_team user) db with
  | inr error => TNext error
  | inl None => T404 "Survey template not found"
  | inl (Some template) => T200_template template
  end.

(** [exports.deleteTemplate]. Past the lookup [id] is an ObjectId, the
    one of the template that was found. *)
Definition deleteTemplate (user : User) (id : Sent ObjectId) (db : Db)
  : TemplateReply * Db :=
  match findTeamTemplate id (u_team user) db with
  | inr error => (TNext error, db)
  | inl None => (T404 "Survey template not found", db)
  | inl (Some template) =>
      let responseCount := countResponses (t_id template) db in
      if (0 <? responseCount)%nat
      then (T400 "Cannot delete template with existing responses. Archive it instead.", db)
      else
        (T200 "Survey template deleted successfully",
         {| docs := docs db; templates := remove_by_id (t_id template) (templates db);
            idSupply := idSupply db; clock := clock db; ticks := ticks db |})
  end.







End Templates.

(* ================================================================== *)
(** ** Client: manual and automatic sync, clearing, team members *)
(* ================================================================== *)

Module TeamApp.

Import Survey Browser DataManager.
Local Open Scope js_scope.

(** [results.data?.syncResults?.successful?.length || 0] *)
Definition synced_count (results : ApiData) : nat :=
  match syncResults results with
  | Some (ok_ids, _) => List.length ok_ids
  | None => 0
  end.

(** [TeamApp.manualSync()], staged like [syncOfflineResponses].
    [DataManager.updateFileSection()] and [loadDashboard()] only redraw
    the page. *)
Definition manualSync (env1 : Env) (net : FetchOutcome) (env2 : Env) : M unit :=
  pendingCount <- getPendingSyncCount ;;
  if (pendingCount =? 0)%nat && onLine env1 then
    showNotification "All data is already synced!" "success"
  else if negb (onLine env1) then
    showNotification "Cannot sync - no internet connection" "error"
  else
    showNotification "Syncing data with team..." "info" ;;;
    try_catch
      (results <- syncOfflineResponses env1 net env2 ;;
       showNotification
         ("Successfully synced " ++ Js.of_nat (synced_count results) ++ " surveys")
         "success")
      (fun error => showNotification ("Sync failed: " ++ error) "error").

(** [TeamApp.autoSync()] *)
Definition autoSync (env1 : Env) (net : FetchOutcome) (env2 : Env) : M unit :=
  try_catch
    (syncOfflineResponses env1 net env2 ;;;
     console_log "Auto-sync completed successfully")
    (fun error => console_log ("Auto-sync failed: " ++ error)).

(** The callback [startSyncMonitoring] runs every 30 seconds. *)
Definition syncTick (env1 : Env) (net : FetchOutcome) (env2 : Env) : M unit :=
  pendingCount <- getPendingSyncCount ;;
  if onLine env1 && (0 <? pendingCount)%nat
  then autoSync env1 net env2
  else ret tt.

End TeamApp.

Module DataManagerRest.

Import Survey Browser DataManager.
Local Open Scope js_scope.

(** [clearData()]; [confirmed] is the answer to the [confirm] dialog. *)
Definition clearData (confirmed : bool) : M unit :=
  if confirmed then
    ls <- get_storage ;;
    put_storage {| survey_responses := None;
                   pending_sync_queue := pending_sync_queue ls;
                   ls_deviceId := ls_deviceId ls |} ;;;
    ls <- get_storage ;;
    put_storage {| survey_responses := survey_responses ls;
                   pending_sync_queue := None;
                   ls_deviceId := ls_deviceId ls |} ;;;
    showNotification "All data cleared successfully" "success"
  else ret tt.

(** A team member record of the [team_members] entry. *)
Record Member := {
  m_id : option string;
  m_deviceId : option string;
  m_name : option string;
  m_role : option string;
  m_isOnline : option bool;
  m_joined : option string;
  m_lastSeen : option string
}.

(** [m.deviceId === deviceId] *)
Definition same_device (deviceId : option string) (m : Member) : bool :=
  Server.opt_eqb String.eqb (m_deviceId m) deviceId.

(** [addTeamMember(member)] on the parsed [team_members] entry [team];
    [now] is [new Date().toISOString()]. The result is the array it
    returns, which is also what it stores when it stores anything. *)
Definition addTeamMember (now : string) (member : Member) (team : list Member)
  : list Member :=
  match find (same_device (m_deviceId member)) team with
  | Some existingMember => team
  | None =>
      team ++ [ {| m_id := m_id member; m_deviceId := m_deviceId member;
                   m_name := m_name member; m_role := m_role member;
                   m_isOnline := m_isOnline member;
                   m_joined := Some now; m_lastSeen := Some now |} ]
  end.

(** [updateTeamMemberPresence(deviceId, isOnline)]: the first member of
    that device is updated in place; the result is the stored array. *)
Fixpoint updateTeamMemberPresence (now : string) (deviceId : option string)
         (isOnline : bool) (team : list Member) : list Member :=
  match team with
  | [] => []
  | m :: team' =>
      if same_device deviceId m
      then {| m_id := m_id m; m_deviceId := m_deviceId m; m_name := m_name m;
              m_role := m_role m; m_isOnline := Some isOnline;
              m_joined := m_joined m; m_lastSeen := Some now |} :: team'
      else m :: updateTeamMemberPresence now deviceId isOnline team'
  end.

End DataManagerRest.

(* ================================================================== *)
(** ** Vocabulary of the further properties *)
(* ================================================================== *)

Module MoreProps.

Import Server Survey Browser DataManager.

(** The outcomes of two runs, one after the other. *)
Definition append_results (a b : SyncResults) : SyncResults :=
  {| successful := successful a ++ successful b;
     failed := failed a ++ failed b |}.

(** Every queued survey is among the stored surveys and is labelled
    'pending'. *)
Definition queue_consistent (s : State) : Prop :=
  forall q,
    In q (ClientProps.queue_of s) ->
    In q (ClientProps.surveys_of s) /\ Survey.syncStatus q = "pending".

(** Submitting a list of responses one after the other while offline. *)
Fixpoint submit_offline (env : Env) (net : FetchOutcome) (responses : list Response)
         (s : State) : State :=
  match responses with
  | [] => s
  | r :: rest => submit_offline env net rest (snd (submitSurvey r env net env s))
  end.

(** A successful answer of the sync endpoint. *)
Definition sync_ok (ok_ids : list string) (failures : list (option string * string))
  : FetchOutcome :=
  FetchResponse true
    {| success := true; DataManager.message := Some "Sync completed";
       syncResults := Some (ok_ids, failures); response_syncStatus := None |}.

(** The ratings object after a sequence of clicks on rating options. *)
Definition ratings_after (clicks : list (string * Z)) : Js.obj Z :=
  fold_left (fun r click => SurveyManager.handleRatingSelect (fst click) (snd click) r)
            clicks [].

(** The last rating clicked for a category. *)
Fixpoint last_click (clicks : list (string * Z)) (category : string) : option Z :=
  match clicks with
  | [] => None
  | (c, v) :: rest =>
      match last_click rest category with
      | Some v' => Some v'
      | None => if String.eqb c category then Some v else None
      end
  end.

(** Sum of the counters of an object. *)
Definition total (o : Js.obj Z) : Z := fold_right (fun e acc => (snd e + acc)%Z) 0%Z o.

(** Sum of a list of ratings. *)
Definition sumZ (l : list Z) : Z := fold_right Z.add 0%Z l.

(** The keys of a five-bucket histogram. *)
Definition bucket_keys : list string := ["1"; "2"; "3"; "4"; "5"].

(** Does a rating string fall into one of the five buckets? *)
Definition in_buckets (v : option string) : bool :=
  if Js.truthy v then
    match Js.parseInt (match v with Some s => s | None => EmptyString end) with
    | Some rating => (1 <=? rating)%Z && (rating <=? 5)%Z
    | None => false
    end
  else false.

(** The positive ratings of a response. *)
Definition positive_ratings (r : Response) : list Z :=
  match problemRatings r with
  | Some ratings => filter (fun v => (v >? 0)%Z) (map snd (Js.entries ratings))
  | None => []
  end.






(** The date the controller takes from a value of the body: none from a
    value that is false in a condition. *)
Definition date_taken (v : option RawDate) : option Date :=
  match v with
  | Some v => if truthy_date v then time_of v else None
  | None => None
  end.

(** A value of the body that the controller takes for a date is one. *)
Definition readable (v : option RawDate) : Prop :=
  forall raw, v = Some raw -> truthy_date raw = true -> time_of raw <> None.

(** A submission whose start and end time are the number zero. *)
Definition submission_zero : Submission :=
  {| s_surveyTemplate := s_surveyTemplate Sample.submission_a;
     s_responses := s_responses Sample.submission_a;
     s_deviceInfo := s_deviceInfo Sample.submission_a;
     s_location := None;
     s_analytics :=
       Some {| completionTime := Some 600%Z;
               startTime := Some (DateNumber 0);
               endTime := Some (DateNumber 0);
               sectionsCompleted := ["1"; "2"; "3"; "4"] |} |}.

(** Sample data: a template of another team, a member list. *)
Definition other_user : User := {| u_id := "6650a1b2c3d4e5f6a7b8c002"; u_team := "6650a1b2c3d4e5f6a7b8d002" |}.

(** A server with one template for each of two teams and no response. *)
Definition db_teams : Db :=
  {| docs := [];
     templates := [ {| t_id := "6650a1b2c3d4e5f6a7b8e001"; t_team := "6650a1b2c3d4e5f6a7b8d001"; t_status := "active" |};
                    {| t_id := "6650a1b2c3d4e5f6a7b8e002"; t_team := "6650a1b2c3d4e5f6a7b8d002"; t_status := "active" |} ];
     idSupply := 0;
     clock := fun n => (5000 + Z.of_nat n)%Z;
     ticks := 0 |}.

Definition db_two : Db :=
  snd (syncResponses Sample.user0 (Some [Sample.item_a; Sample.item_b]) Sample.db0).

Definition env_offline : Env :=
  ClientProps.offline (fun n => ("id-" ++ Js.of_nat n)%string)
    "2024-01-01T09:00:00.000Z" "Jan 1, 2024, 09:00 AM".

Definition member_a : DataManagerRest.Member :=
  {| DataManagerRest.m_id := Some "m-1";
     DataManagerRest.m_deviceId := Some "device-a";
     DataManagerRest.m_name := Some "Primary Researcher";
     DataManagerRest.m_role := Some "lead";
     DataManagerRest.m_isOnline := Some true;
     DataManagerRest.m_joined := None;
     DataManagerRest.m_lastSeen := None |}.

End MoreProps.

(* ================================================================== *)
(** ** Reconciliation endpoint: one iteration *)
(* ================================================================== *)

Import Server Props.

Lemma opt_eqb_string_spec (x y : option string) :
  opt_eqb String.eqb x y = true <-> x = y.
Proof.
  destruct x as [a|], y as [b|]; simpl; split; intro H;
    try discriminate; try reflexivity.
  - apply String.eqb_eq in H. now subst.
  - inversion H. apply String.eqb_refl.
Qed.

Lemma opt_eqb_Z_spec (x y : option Z) :
  opt_eqb Z.eqb x y = true <-> x = y.
Proof.
  destruct x as [a|], y as [b|]; simpl; split; intro H;
    try discriminate; try reflexivity.
  - apply Z.eqb_eq in H. now subst.
  - inversion H. apply Z.eqb_refl.
Qed.

Lemma matches_key_spec dev t d :
  matches_key dev t d = true <-> natural_key d = (dev, t).
Proof.
  unfold matches_key, natural_key.
  rewrite andb_true_iff, opt_eqb_string_spec, opt_eqb_Z_spec.
  split; [intros [-> ->]; reflexivity | intro H; inversion H; auto].
Qed.

Lemma known_spec ds c :
  known ds c = true <-> In (candidate_key c) (map natural_key ds).
Proof.
  unfold known. rewrite existsb_exists, in_map_iff. split.
  - intros (d & Hin & Hm). exists d. split; [|assumption].
    now apply matches_key_spec.
  - intros (d & Hk & Hin). exists d. split; [assumption|].
    now apply matches_key_spec.
Qed.

Lemma findOne_known db c :
  findOne (c_deviceId c) (c_startTime c) db = None <-> known (docs db) c = false.
Proof.
  unfold findOne, known. split; intro H.
  - apply not_true_is_false. intro E. apply existsb_exists in E.
    destruct E as (d & Hin & Hm).
    now apply (find_none _ _ H) in Hin; congruence.
  - destruct (find _ _) eqn:F; [|reflexivity].
    apply find_some in F. destruct F as [Hin Hm].
    assert (E : existsb (matches_key (c_deviceId c) (c_startTime c)) (docs db) = true)
      by (apply existsb_exists; eauto).
    congruence.
Qed.

(** No index is declared unique, so an insertion is never rejected for a
    key clash. *)
Lemma unique_violation_never d ds : unique_violation d ds = false.
Proof. reflexivity. Qed.

Lemma syncOne_known user c db res :
  known (docs db) c = true ->
  syncOne user c (db, res) = (db, push_failed res (duplicate_failure c)).
Proof.
  intro K. unfold syncOne.
  destruct (findOne _ _ db) eqn:F; [reflexivity|].
  apply findOne_known in F. congruence.
Qed.

Lemma validate_sync_input user c now :
  validate (sync_input c user now) = rejection c.
Proof. reflexivity. Qed.

Lemma cast_error_fits {T} (x : option T) : cast_error (option_map Fits x) = [].
Proof. now destruct x. Qed.

Lemma cast_of_fits {T} (x : option T) : cast_of (option_map Fits x) = x.
Proof. now destruct x. Qed.

Lemma analytics_as_sent (a : option Analytics) :
  option_map (with_dates cast_of) (option_map (with_dates (option_map Fits)) a) = a.
Proof.
  destruct a as [[ct st et sc]|]; [|reflexivity].
  unfold with_dates. simpl. now rewrite !cast_of_fits.
Qed.

(** What it takes for [create] to accept the document of a candidate. *)
Lemma rejection_none c :
  rejection c = None <->
  (exists tpl, c_surveyTemplate c = Some (Fits tpl))
  /\ c_location c = option_map Fits (cast_of (c_location c))
  /\ c_responses c = option_map Fits (cast_of (c_responses c))
  /\ c_metadata c = option_map Fits (cast_of (c_metadata c)).
Proof.
  unfold rejection, validate, cast_errors, validator_errors, sync_input, spread.
  cbn [in_surveyTemplate in_location in_responses in_analytics in_metadata
       in_collectedBy in_team in_syncStatus cast_status parse_status].
  assert (A : match option_map (with_dates (option_map Fits)) (c_analytics c) with
              | Some a => cast_error (startTime a) ++ cast_error (endTime a)
              | None => []
              end = (@nil string)).
  { destruct (c_analytics c) as [[ct st et sc]|]; [|reflexivity].
    simpl. now rewrite !cast_error_fits. }
  rewrite A. clear A.
  destruct (c_surveyTemplate c) as [[tpl|v0 e0]|];
    destruct (c_responses c) as [[r|v2 e2]|];
    destruct (c_location c) as [[l|v1 e1]|];
    destruct (c_metadata c) as [[m|v3 e3]|];
    cbn [cast_error cast_of option_map app String.eqb Ascii.eqb Bool.eqb];
    split;
    try (intro H; discriminate H);
    try (intros (H0 & H1 & H2 & H3); try discriminate; destruct H0; discriminate);
    try (intros _; repeat split; eauto; fail);
    try reflexivity.
Qed.


Lemma persistable_true c : persistable c = true <-> rejection c = None.
Proof.
  unfold persistable. destruct (rejection c); split; intro H; congruence.
Qed.

Lemma persistable_false c :
  persistable c = false -> exists msg, rejection c = Some msg.
Proof.
  unfold persistable. destruct (rejection c) as [msg|]; [eauto|discriminate].
Qed.

Lemma create_rejects i db msg :
  validate i = Some msg -> create i db = (inr msg, snd (take_id db)).
Proof. intro V. unfold create, take_id. now rewrite V. Qed.

Lemma syncOne_invalid user c db res :
  known (docs db) c = false -> persistable c = false ->
  exists db',
    syncOne user c (db, res) = (db', push_failed res (validation_failure c))
    /\ docs db' = docs db /\ clock db' = clock db /\ (ticks db <= ticks db')%nat.
Proof.
  intros K P. apply findOne_known in K. unfold syncOne. rewrite K.
  destruct (persistable_false _ P) as (msg & R).
  unfold new_Date.
  rewrite (@create_rejects (sync_input c user (clock db (ticks db))) _ msg R).
  eexists. split.
  - unfold validation_failure. rewrite R. reflexivity.
  - simpl. repeat split. lia.
Qed.

Lemma syncOne_valid user c db res tpl :
  known (docs db) c = false -> persistable c = true ->
  c_surveyTemplate c = Some (Fits tpl) ->
  exists db',
    syncOne user c (db, res) = (db', push_successful res (idSupply db))
    /\ docs db' = docs db ++ [written user c tpl db]
    /\ clock db' = clock db /\ (ticks db <= ticks db')%nat.
Proof.
  intros K P V. apply findOne_known in K. unfold syncOne. rewrite K.
  apply persistable_true in P.
  unfold create, new_Date, take_id. rewrite validate_sync_input, P.
  cbn [sync_input spread in_surveyTemplate in_collectedBy in_team in_syncStatus
       in_deviceInfo in_location in_responses in_analytics in_metadata in_syncHistory].
  rewrite V, analytics_as_sent. simpl.
  eexists. split; [reflexivity|]. simpl. repeat split. lia.
Qed.

Lemma same_key_spec c c0 :
  same_key c c0 = true <-> candidate_key c = candidate_key c0.
Proof.
  unfold same_key, candidate_key.
  rewrite andb_true_iff, opt_eqb_string_spec, opt_eqb_Z_spec.
  split; [intros [-> ->]; reflexivity | intro H; inversion H; auto].
Qed.

Lemma written_key user c tpl db :
  natural_key (written user c tpl db) = candidate_key c.
Proof. reflexivity. Qed.

Lemma syncOne_step user c db res :
  exists db' res',
    syncOne user c (db, res) = (db', res')
    /\ clock db' = clock db /\ (ticks db <= ticks db')%nat
    /\ step_kind user c db db' res res'.
Proof.
  destruct (known (docs db) c) eqn:K.
  - exists db, (push_failed res (duplicate_failure c)).
    rewrite (syncOne_known user c db res K).
    repeat split; auto. now apply step_duplicate.
  - destruct (persistable c) eqn:P.
    + destruct (proj1 (rejection_none c) (proj1 (persistable_true c) P))
        as ((tpl & V) & _).
      destruct (syncOne_valid user c db res K P V) as (db' & E & D & C & T).
      exists db', (push_successful res (idSupply db)).
      repeat split; auto. now apply step_created with tpl.
    + destruct (syncOne_invalid user c db res K P) as (db' & E & D & C & T).
      exists db', (push_failed res (validation_failure c)).
      repeat split; auto. apply step_rejected; auto.
Qed.

Lemma syncLoop_cons user c batch st :
  syncLoop user (c :: batch) st = syncLoop user batch (syncOne user c st).
Proof. reflexivity. Qed.

Ltac sync_step user c db res :=
  let db1 := fresh "db1" in
  let res1 := fresh "res1" in
  let E := fresh "E" in
  let Hc := fresh "Hclock" in
  let Ht := fresh "Hticks" in
  let K := fresh "Hstep" in
  rewrite syncLoop_cons;
  destruct (syncOne_step user c db res) as (db1 & res1 & E & Hc & Ht & K);
  rewrite E.

Lemma known_app ds d c :
  known (ds ++ [d]) c = known ds c || matches_key (c_deviceId c) (c_startTime c) d.
Proof.
  unfold known. rewrite existsb_app. simpl. now rewrite orb_false_r.
Qed.

Lemma known_written user c tpl db ds c0 :
  known (ds ++ [written user c tpl db]) c0 = known ds c0 || same_key c c0.
Proof.
  rewrite known_app. f_equal.
Qed.

Lemma count_key_app ds d c :
  count_key (ds ++ [d]) c =
  (count_key ds c + if matches_key (c_deviceId c) (c_startTime c) d then 1 else 0)%nat.
Proof.
  unfold count_key. rewrite filter_app, length_app. simpl.
  now destruct (matches_key _ _ d).
Qed.

Lemma count_key_known ds c :
  known ds c = false <-> count_key ds c = 0%nat.
Proof.
  unfold known, count_key. induction ds as [|d ds IH]; simpl.
  - tauto.
  - destruct (matches_key _ _ d); simpl.
    + split; intro H; discriminate.
    + exact IH.
Qed.

Lemma same_key_known ds c c0 :
  same_key c c0 = true -> known ds c = known ds c0.
Proof.
  intro H. apply same_key_spec in H. unfold candidate_key in H.
  inversion H as [[H1 H2]]. unfold known. now rewrite H1, H2.
Qed.

(** *** Invariants of the loop *)

(** Everything the loop adds is owned by the session and marked synced. *)
Lemma syncLoop_created user batch :
  forall db res,
  exists db' res' created,
    syncLoop user batch (db, res) = (db', res')
    /\ docs db' = docs db ++ created
    /\ Forall (owned_by user db) created
    /\ successful res' = successful res ++ map _id created
    /\ clock db' = clock db /\ (ticks db <= ticks db')%nat.
Proof.
  induction batch as [|c batch IH]; intros db res.
  - exists db, res, []. simpl. rewrite !app_nil_r. repeat split; auto.
  - sync_step user c db res.
    destruct (IH db1 res1) as (db' & res' & created & EL & D & O & S & C & T).
    assert (Oweak : Forall (owned_by user db) created).
    { eapply Forall_impl; [|exact O].
      intros d (H1 & H2 & H3 & n & Hn & H4). repeat split; auto.
      exists n. split; [lia|]. now rewrite <- Hclock. }
    destruct Hstep as [K -> -> | K V D1 -> | tpl K P V D1 ->].
    + exists db', res', created. repeat split; auto.
    + exists db', res', created. rewrite D, D1 in *. simpl in S.
      repeat split; auto; try congruence; lia.
    + exists db', res', (written user c tpl db :: created).
      rewrite EL, D, D1, <- app_assoc. simpl.
      repeat split; auto; try congruence; try lia.
      * constructor; [|exact Oweak].
        repeat split. exists (ticks db). split; [lia|reflexivity].
      * rewrite S. simpl. now rewrite <- app_assoc.
Qed.


(** How many records carry a given key after a pass. *)
Lemma syncLoop_count user batch :
  forall db res c0,
    count_key (docs (fst (syncLoop user batch (db, res)))) c0 =
    if known (docs db) c0 then count_key (docs db) c0
    else if existsb (fun c => persistable c && same_key c c0) batch then 1%nat
         else 0%nat.
Proof.
  induction batch as [|c batch IH]; intros db res c0.
  - simpl. destruct (known (docs db) c0) eqn:K; [reflexivity|].
    now apply count_key_known.
  - sync_step user c db res. rewrite IH. simpl existsb.
    destruct Hstep as [K -> -> | K V D1 -> | tpl K P V D1 ->].
    + destruct (known (docs db) c0) eqn:K0; [reflexivity|].
      destruct (same_key c c0) eqn:S.
      * rewrite (same_key_known (docs db) c c0 S) in K. congruence.
      * now rewrite andb_false_r.
    + rewrite D1, V. reflexivity.
    + rewrite D1, known_written, count_key_app, P. simpl andb.
      change (matches_key (c_deviceId c0) (c_startTime c0) (written user c tpl db))
        with (same_key c c0).
      destruct (same_key c c0) eqn:S.
      * rewrite <- (same_key_known (docs db) c c0 S), K. simpl.
        rewrite (same_key_known (docs db) c c0 S) in K.
        apply count_key_known in K. now rewrite K.
      * rewrite orb_false_r, Nat.add_0_r. reflexivity.
Qed.


(** The lookup before the insert keeps natural keys distinct. *)
Lemma syncLoop_keys_distinct user batch :
  forall db res,
    NoDup (map natural_key (docs db)) ->
    NoDup (map natural_key (docs (fst (syncLoop user batch (db, res))))).
Proof.
  induction batch as [|c batch IH]; intros db res H.
  - exact H.
  - sync_step user c db res. apply IH.
    destruct Hstep as [K -> -> | K V D1 -> | tpl K P V D1 ->].
    + exact H.
    + now rewrite D1.
    + rewrite D1, map_app. simpl. rewrite written_key.
      apply NoDup_app; [exact H | repeat constructor; auto | ].
      intros k Hin [<-|[]].
      apply known_spec in Hin. congruence.
Qed.

(* ================================================================== *)
(** ** Reconciliation endpoint: the handler *)
(* ================================================================== *)

Lemma syncResponses_loop user batch db :
  snd (syncResponses user (Some batch) db)
    = fst (syncLoop user batch (db, {| successful := []; failed := [] |}))
  /\ results_of (fst (syncResponses user (Some batch) db))
    = snd (syncLoop user batch (db, {| successful := []; failed := [] |})).
Proof.
  unfold syncResponses.
  destruct (syncLoop user batch _) as [db' res]. simpl. auto.
Qed.

Lemma syncOne_erase_owner user c st :
  syncOne user (erase_owner c) st = syncOne user c st.
Proof. destruct c, st. reflexivity. Qed.

Lemma syncLoop_erase_owner user batch :
  forall st, syncLoop user (map erase_owner batch) st = syncLoop user batch st.
Proof.
  induction batch as [|c batch IH]; intro st; [reflexivity|].
  simpl map. rewrite !syncLoop_cons, syncOne_erase_owner. apply IH.
Qed.






(** C4 (amended). The schema declares no unique index: [create] never
    rejects an insertion for a key clash, and the natural key is kept
    distinct only by the lookup that [syncResponses] makes before each
    insert, which preserves distinctness of the natural keys of the
    collection. *)
Theorem natural_key_kept_by_lookup :
  Forall (fun ix => ix_unique ix = false) responseSchema_indexes
  /\ (forall d ds, unique_violation d ds = false)
  /\ (forall user batch db,
         NoDup (map natural_key (docs db)) ->
         NoDup (map natural_key (docs (snd (syncResponses user batch db))))).
Proof.
  split; [repeat constructor|]. split; [exact unique_violation_never|].
  intros user [batch|] db H; [|exact H].
  destruct (syncResponses_loop user batch db) as [E _]. rewrite E.
  now apply syncLoop_keys_distinct.
Qed.

Lemma natural_key_kept_by_lookup_witness :
  NoDup (map natural_key
           (docs (snd (syncResponses Sample.user0
                         (Some [Sample.item_a; Sample.item_b; Sample.item_a])
                         Sample.db_b)))).
Proof.
  apply (proj2 (proj2 natural_key_kept_by_lookup)).
  vm_compute. repeat constructor; intros [].
Defined.

(** C4, as stated, fails: two direct submissions of the same response
    are both inserted, giving two persisted records with the same
    (deviceId, startTime) pair. *)
Lemma natural_key_unique_counterexample :
  let db1 := snd (submitResponse Sample.user0 "{}" Sample.submission_a Sample.db0) in
  let db2 := snd (submitResponse Sample.user0 "{}" Sample.submission_a db1) in
  exists d1 d2,
    docs db2 = [d1; d2]
    /\ _id d1 <> _id d2
    /\ natural_key d1 = (Some "device-a", Some 100%Z)
    /\ natural_key d2 = (Some "device-a", Some 100%Z)
    /\ ~ NoDup (map natural_key (docs db2)).
Proof.
  vm_compute. eexists. eexists. split; [reflexivity|].
  repeat split; try discriminate.
  intro H. inversion H as [|k ks Hnotin _ Heq]. apply Hnotin. now left.
Qed.

(** C8. Two runs of the endpoint on batches that differ only in the
    [team] and [collectedBy] fields sent by the client give the same
    reply and the same collection; every record a run writes carries the
    session's team and user, [syncStatus = synced], and a single history
    entry "Synced from offline device" stamped by the server clock, and
    the reply lists exactly the identifiers of the records written. *)
Theorem sync_ownership_from_session user db batch1 batch2 :
  map erase_owner batch1 = map erase_owner batch2 ->
  syncResponses user (Some batch1) db = syncResponses user (Some batch2) db
  /\ exists created,
       docs (snd (syncResponses user (Some batch1) db)) = docs db ++ created
       /\ Forall (owned_by user db) created
       /\ successful (results_of (fst (syncResponses user (Some batch1) db)))
          = map _id created.
Proof.
  intro H. split.
  - unfold syncResponses.
    rewrite <- (syncLoop_erase_owner user batch1), <- (syncLoop_erase_owner user batch2).
    now rewrite H.
  - destruct (syncLoop_created user batch1 db {| successful := []; failed := [] |})
      as (db' & res' & created & EL & D & O & S & _).
    destruct (syncResponses_loop user batch1 db) as [E R].
    exists created. rewrite E, R, EL. simpl. auto.
Qed.

Lemma sync_ownership_from_session_witness :
  syncResponses Sample.user0 (Some [Sample.item_a; Sample.item_b]) Sample.db0
  = syncResponses Sample.user0 (Some [Sample.item_a'; Sample.item_b]) Sample.db0
  /\ exists created,
       docs (snd (syncResponses Sample.user0 (Some [Sample.item_a; Sample.item_b])
                    Sample.db0)) = docs Sample.db0 ++ created
       /\ Forall (owned_by Sample.user0 Sample.db0) created
       /\ successful (results_of (fst (syncResponses Sample.user0
                                         (Some [Sample.item_a; Sample.item_b]) Sample.db0)))
          = map _id created.
Proof.
  apply (sync_ownership_from_session Sample.user0 Sample.db0
           [Sample.item_a; Sample.item_b] [Sample.item_a'; Sample.item_b]).
  reflexivity.
Defined.

(* ================================================================== *)
(** ** Client: submission and queue replay *)
(* ================================================================== *)

Import Survey Browser DataManager ClientProps.

(** Running a sequence whose first part is known. *)
Lemma bind_return {A B} (m : M A) (k : A -> M B) s a s' :
  m s = (Return a, s') -> bind m k s = k a s'.
Proof. intro E. unfold bind. now rewrite E. Qed.

Lemma bind_throw {A B} (m : M A) (k : A -> M B) s e s' :
  m s = (Throw e, s') -> bind m k s = (Throw e, s').
Proof. intro E. unfold bind. now rewrite E. Qed.

Lemma try_catch_throw {A} (m : M A) (h : string -> M A) s e s' :
  m s = (Throw e, s') -> try_catch m h s = h e s'.
Proof. intro E. unfold try_catch. now rewrite E. Qed.

Lemma getPendingSyncQueue_run s :
  getPendingSyncQueue s = (Return (queue_of s), s).
Proof. reflexivity. Qed.

(** When no successful response comes back, [apiRequest] throws the
    failure and leaves storage and notifications alone. *)
Lemma apiRequest_failure env endpoint method net s :
  no_success net ->
  exists s',
    apiRequest env endpoint method net s = (Throw (failure_of net), s')
    /\ storage s' = storage s
    /\ notifications s' = notifications s.
Proof.
  intro H. unfold apiRequest, try_catch, bind, throw, console_log, addToOfflineQueue, ret.
  destruct net as [e | ok body]; simpl in *.
  - destruct (negb (onLine env) && _ && _); simpl; eauto.
  - subst ok. simpl.
    destruct (negb (onLine env) && _ && _); simpl; eauto.
Qed.

(** C9. When the sync request gets no successful response, the pending
    queue, and all of local storage, is exactly what it was before the
    call, nothing is announced to the user, and, whenever the request was
    actually made (non-empty queue, browser online), the call throws the
    failure to its caller. *)
Theorem syncOffline_failure_keeps_queue env1 env2 net s :
  no_success net ->
  let run := syncOfflineResponses env1 net env2 s in
  storage (snd run) = storage s
  /\ queue_of (snd run) = queue_of s
  /\ notifications (snd run) = notifications s
  /\ (queue_of s <> [] -> onLine env1 = true -> fst run = Throw (failure_of net)).
Proof.
  intros H run.
  assert (G : storage (snd run) = storage s
              /\ notifications (snd run) = notifications s
              /\ (queue_of s <> [] -> onLine env1 = true ->
                  fst run = Throw (failure_of net))).
  { unfold run, syncOfflineResponses.
    rewrite (bind_return _ _ s (getPendingSyncQueue_run s)).
    destruct (queue_of s) as [|q qs] eqn:Q.
    - cbn [List.length Nat.eqb orb]. unfold ret. cbn [fst snd].
      repeat split. intro X. now contradiction X.
    - cbn [List.length Nat.eqb orb].
      destruct (onLine env1) eqn:O; cbn [negb].
      + destruct (apiRequest_failure env2 "/survey-responses/sync" "POST" net s H)
          as (s' & E & St & N).
        rewrite (try_catch_throw _ _ s (bind_throw _ _ s E)).
        unfold bind, console_log, throw. cbn [fst snd storage notifications].
        auto.
      + unfold ret. cbn [fst snd]. repeat split. discriminate. }
  destruct G as (G1 & G2 & G3). repeat split; auto.
  unfold queue_of. now rewrite G1.
Qed.

Lemma syncOffline_failure_keeps_queue_witness :
  let run := syncOfflineResponses env_online (FetchRejected "Failed to fetch")
               env_online browser1 in
  storage (snd run) = storage browser1
  /\ queue_of (snd run) = [queued_survey]
  /\ notifications (snd run) = []
  /\ fst run = Throw "Failed to fetch".
Proof.
  destruct (syncOffline_failure_keeps_queue env_online env_online
              (FetchRejected "Failed to fetch") browser1 I) as (H1 & H2 & H3 & H4).
  split; [exact H1 | split; [exact H2 | split; [exact H3 |]]].
  apply H4; [discriminate | reflexivity].
Defined.

(** [getDeviceId] always returns and touches only the [deviceId] entry. *)
Lemma getDeviceId_effect env s :
  exists d s',
    getDeviceId env s = (Return d, s')
    /\ survey_responses (storage s') = survey_responses (storage s)
    /\ pending_sync_queue (storage s') = pending_sync_queue (storage s)
    /\ notifications s' = notifications s.
Proof.
  unfold getDeviceId, bind, get_storage, generateId, put_storage, ret. simpl.
  destruct (Js.truthy (ls_deviceId (storage s))); simpl; eauto 10.
Qed.

(** [saveSurveyLocal] appends the survey, labelled by [navigator.onLine]
    alone, and queues it only when offline. *)
Lemma saveSurveyLocal_effect env response s :
  exists completeSurvey s',
    saveSurveyLocal env response s = (Return completeSurvey, s')
    /\ syncStatus completeSurvey = (if onLine env then "synced" else "pending")
    /\ surveys_of s' = surveys_of s ++ [completeSurvey]
    /\ queue_of s' = (if onLine env then queue_of s else queue_of s ++ [completeSurvey])
    /\ notifications s' = notifications s.
Proof.
  unfold saveSurveyLocal.
  rewrite (bind_return _ _ s (eq_refl : getAllSurveys s = (Return (surveys_of s), s))).
  rewrite (bind_return _ _ s (eq_refl : generateId env s = (Return _, _))).
  set (s1 := {| storage := storage s; notifications := notifications s;
                console := console s; drawn := S (drawn s) |}).
  destruct (getDeviceId_effect env s1) as (d & s2 & E & H1 & H2 & H3).
  rewrite (bind_return _ _ s1 E).
  rewrite (bind_return _ _ s2 (eq_refl : get_storage s2 = (Return (storage s2), s2))).
  unfold bind at 1. unfold put_storage at 1.
  set (completeSurvey := {| data := response; id := _; timestamp := _; deviceId := d;
                            syncStatus := _; date := _ |}).
  exists completeSurvey.
  assert (S1 : surveys_of s2 = surveys_of s)
    by (unfold surveys_of; now rewrite H1).
  assert (Q1 : queue_of s2 = queue_of s)
    by (unfold queue_of; now rewrite H2).
  destruct (onLine env) eqn:O; cbn [negb].
  - eexists. split; [reflexivity|]. cbn [snd fst notifications storage].
    unfold surveys_of, queue_of in *. cbn [storage survey_responses pending_sync_queue].
    repeat split; auto.
  - eexists. split; [reflexivity|]. cbn.
    unfold surveys_of, queue_of in *. cbn.
    rewrite Q1.
    repeat split; auto.
Qed.

(** What [submitSurvey] does when the browser reports being online and
    the request gets no successful response. *)
Lemma submitSurvey_online_failure response s net gen1 iso1 loc1 gen2 iso2 loc2 :
  no_success net ->
  let run := submitSurvey response (online gen1 iso1 loc1) net
               (online gen2 iso2 loc2) s in
  exists completeSurvey,
    fst run = Return (LocalResult completeSurvey)
    /\ syncStatus completeSurvey = "synced"
    /\ surveys_of (snd run) = surveys_of s ++ [completeSurvey]
    /\ queue_of (snd run) = queue_of s
    /\ notifications (snd (App.onSubmitted (LocalResult completeSurvey) (snd run)))
       = notifications s ++ [("Survey submitted successfully and synced!", "success")].
Proof.
  intros Hnet run.
  destruct (getDeviceId_effect (online gen1 iso1 loc1) s) as (d & s1 & E & H1 & H2 & H3).
  destruct (apiRequest_failure (online gen2 iso2 loc2) "/survey-responses" "POST"
              net s1 Hnet) as (s2 & R & St & N).
  set (line := ("Failed to submit to backend, saving locally: "
                ++ failure_of net)%string).
  set (s3 := {| storage := storage s2; notifications := notifications s2;
                console := console s2 ++ [line]; drawn := drawn s2 |}).
  destruct (saveSurveyLocal_effect (online gen2 iso2 loc2) response s3)
    as (cs & s4 & ES & HS & HL & HQ & HN).
  assert (Erun : run = (Return (LocalResult cs), s4)).
  { unfold run, submitSurvey.
    rewrite (bind_return _ _ s E).
    change (onLine (online gen1 iso1 loc1)) with true. cbv iota.
    rewrite (try_catch_throw _ _ s1 (bind_throw _ _ s1 R)).
    rewrite (bind_return _ _ s2 (eq_refl : console_log line s2 = (Return tt, s3))).
    rewrite (bind_return _ _ s3 ES). reflexivity. }
  rewrite Erun. cbn [fst snd]. exists cs.
  assert (Q3 : queue_of s3 = queue_of s)
    by (unfold queue_of, s3; cbn [storage]; now rewrite St, H2).
  assert (L3 : surveys_of s3 = surveys_of s)
    by (unfold surveys_of, s3; cbn [storage]; now rewrite St, H1).
  change (onLine (online gen2 iso2 loc2)) with true in HS, HQ. cbv iota in HS, HQ.
  split; [reflexivity|]. split; [exact HS|].
  split; [congruence|]. split; [congruence|].
  unfold App.onSubmitted, showNotification. rewrite HS.
  cbn [snd notifications String.eqb Ascii.eqb Bool.eqb].
  rewrite HN. unfold s3. cbn [notifications]. now rewrite N, H3.
Qed.

(** C5, at the failing input. The browser reports being online and the
    backend request fails, either rejected outright or answered with an
    error status: [submitSurvey] stores the response with
    [syncStatus = 'synced'], leaves it out of the pending queue, and the
    submit handler announces "and synced". *)
Theorem submitSurvey_unacknowledged_marked_synced
        response s gen1 iso1 loc1 gen2 iso2 loc2 :
  let failed_submission net :=
    let run := submitSurvey response (online gen1 iso1 loc1) net
                 (online gen2 iso2 loc2) s in
    exists completeSurvey,
      fst run = Return (LocalResult completeSurvey)
      /\ syncStatus completeSurvey = "synced"
      /\ In completeSurvey (surveys_of (snd run))
      /\ queue_of (snd run) = queue_of s
      /\ notifications (snd (App.onSubmitted (LocalResult completeSurvey) (snd run)))
         = notifications s ++ [("Survey submitted successfully and synced!", "success")] in
  (forall error, failed_submission (FetchRejected error))
  /\ (forall body, failed_submission (FetchResponse false body)).
Proof.
  intro failed_submission.
  assert (G : forall net, no_success net -> failed_submission net).
  { intros net Hnet.
    destruct (submitSurvey_online_failure response s net gen1 iso1 loc1 gen2 iso2 loc2 Hnet)
      as (cs & H1 & H2 & H3 & H4 & H5).
    exists cs. repeat split; try assumption.
    rewrite H3. apply in_or_app. right. now left. }
  split; intros; apply G; [exact I | reflexivity].
Qed.

(* ================================================================== *)
(** ** Top problems: the stable sort *)
(* ================================================================== *)

Import SurveyManager SurveyProps.

Section SortFacts.

Variable A : Type.
Variable cmp : A -> A -> Z.

Lemma insert_perm x l : Permutation (Js.insert cmp x l) (x :: l).
Proof.
  induction l as [|y l IH]; simpl; [reflexivity|].
  destruct (cmp x y <=? 0)%Z; [reflexivity|].
  rewrite IH. apply perm_swap.
Qed.

Lemma sort_perm l : Permutation (Js.sort cmp l) l.
Proof.
  induction l as [|x l IH]; simpl; [reflexivity|].
  rewrite insert_perm. now constructor.
Qed.

End SortFacts.

Lemma insert_sorted x l :
  StronglySorted rating_ge l ->
  StronglySorted rating_ge (Js.insert by_rating_desc x l).
Proof.
  induction 1 as [|y l Hs IH Hy]; simpl.
  - repeat constructor.
  - unfold by_rating_desc at 1.
    destruct (rating y - rating x <=? 0)%Z eqn:C.
    + apply Z.leb_le in C. constructor; [now constructor|].
      constructor; [unfold rating_ge; lia|].
      eapply Forall_impl; [|exact Hy]. unfold rating_ge. intros; lia.
    + apply Z.leb_gt in C. constructor; [exact IH|].
      apply (Permutation_Forall (Permutation_sym (insert_perm by_rating_desc x l))).
      constructor; [unfold rating_ge; lia|exact Hy].
Qed.

Lemma sort_sorted l : StronglySorted rating_ge (Js.sort by_rating_desc l).
Proof.
  induction l as [|x l IH]; simpl; [constructor|]. now apply insert_sorted.
Qed.

(** Stability: among equally rated entries the sort changes nothing. *)
Lemma insert_stable v x l :
  filter (has_rating v) (Js.insert by_rating_desc x l)
  = filter (has_rating v) (x :: l).
Proof.
  induction l as [|y l IH]; [reflexivity|].
  simpl Js.insert. unfold by_rating_desc at 1.
  destruct (rating y - rating x <=? 0)%Z eqn:C; [reflexivity|].
  apply Z.leb_gt in C.
  change (filter (has_rating v) (y :: Js.insert by_rating_desc x l))
    with (if has_rating v y then y :: filter (has_rating v) (Js.insert by_rating_desc x l)
          else filter (has_rating v) (Js.insert by_rating_desc x l)).
  rewrite IH. simpl. unfold has_rating.
  destruct (rating x =? v)%Z eqn:Ex, (rating y =? v)%Z eqn:Ey; try reflexivity.
  apply Z.eqb_eq in Ex, Ey. lia.
Qed.

Lemma sort_stable v l :
  filter (has_rating v) (Js.sort by_rating_desc l) = filter (has_rating v) l.
Proof.
  induction l as [|x l IH]; [reflexivity|].
  simpl Js.sort. rewrite insert_stable. simpl. now rewrite IH.
Qed.

Lemma sorted_app_inv (l1 l2 : list Problem) :
  StronglySorted rating_ge (l1 ++ l2) ->
  StronglySorted rating_ge l1
  /\ Forall (fun q => Forall (fun p => (rating q <= rating p)%Z) l1) l2.
Proof.
  induction l1 as [|a l1 IH]; simpl; intro H.
  - split; [constructor|]. apply Forall_forall. intros; constructor.
  - inversion H as [|? ? Hs Ha]; subst. destruct (IH Hs) as [S1 F].
    apply Forall_app in Ha. destruct Ha as [Ha1 Ha2].
    split; [now constructor|].
    apply Forall_forall. intros q Hq. constructor.
    + rewrite Forall_forall in Ha2. specialize (Ha2 q Hq). unfold rating_ge in Ha2. lia.
    + rewrite Forall_forall in F. now apply F.
Qed.

Lemma filter_rating_positive v l :
  (0 < v)%Z ->
  filter (has_rating v) (filter rated_positive l) = filter (has_rating v) l.
Proof.
  intro V. induction l as [|c l IH]; [reflexivity|].
  simpl. unfold rated_positive at 1, has_rating at 2.
  destruct (rating c =? v)%Z eqn:E.
  - apply Z.eqb_eq in E.
    assert (P : (rating c >? 0)%Z = true) by (apply Z.gtb_lt; lia).
    rewrite P. simpl. unfold has_rating at 1.
    apply Z.eqb_eq in E. now rewrite E, IH.
  - destruct (rating c >? 0)%Z; simpl; [|exact IH].
    unfold has_rating at 1. now rewrite E.
Qed.

Lemma filter_rating_none v l :
  (v <= 0)%Z -> Forall (fun p => (rating p > 0)%Z) l ->
  filter (has_rating v) l = [].
Proof.
  intros V H. induction H as [|p l Hp _ IH]; [reflexivity|].
  simpl. unfold has_rating at 1.
  destruct (rating p =? v)%Z eqn:E; [|exact IH].
  apply Z.eqb_eq in E. lia.
Qed.

(** C7. For every ratings object, [getTopProblems] returns at most three
    entries, all rated above zero, in descending order of rating; among
    entries of equal rating it keeps the order of the object's entries
    and takes them from the front; every positively rated entry it leaves
    out is rated no higher than any entry it returns. For A:5, B:5, C:3,
    D:5 entered in that order the result is A, B, D. *)
Theorem getTopProblems_top3_stable (currentRatings : Js.obj Z) :
  let candidates := map as_problem (Js.entries currentRatings) in
  let top := getTopProblems currentRatings in
  (List.length top <= 3)%nat
  /\ Forall (fun p => (rating p > 0)%Z) top
  /\ StronglySorted rating_ge top
  /\ (forall v, exists later,
         filter (has_rating v) candidates = filter (has_rating v) top ++ later)
  /\ (exists rest,
         Permutation (top ++ rest) (filter rated_positive candidates)
         /\ Forall (fun q => Forall (fun p => (rating q <= rating p)%Z) top) rest)
  /\ getTopProblems ratings_ABCD
     = [ {| category := "A"; rating := 5 |};
         {| category := "B"; rating := 5 |};
         {| category := "D"; rating := 5 |} ].
Proof.
  intros candidates top.
  set (positive := filter rated_positive candidates).
  set (sorted := Js.sort by_rating_desc positive).
  assert (Etop : top = firstn 3 sorted) by reflexivity.
  assert (Esplit : sorted = top ++ skipn 3 sorted)
    by (rewrite Etop; symmetry; apply firstn_skipn).
  assert (Hsorted : StronglySorted rating_ge (top ++ skipn 3 sorted))
    by (rewrite <- Esplit; apply sort_sorted).
  destruct (sorted_app_inv _ _ Hsorted) as [Stop Hrest].
  assert (Hperm : Permutation (top ++ skipn 3 sorted) positive)
    by (rewrite <- Esplit; apply sort_perm).
  assert (Hpos : Forall (fun p => (rating p > 0)%Z) top).
  { apply Forall_forall. intros p Hp.
    assert (Hin : In p positive)
      by (apply (Permutation_in _ Hperm); apply in_or_app; now left).
    apply filter_In in Hin. destruct Hin as [_ Hin].
    unfold rated_positive in Hin. apply Z.gtb_lt in Hin. lia. }
  split; [rewrite Etop; apply firstn_le_length|].
  split; [exact Hpos|]. split; [exact Stop|].
  split; [|split; [exists (skipn 3 sorted); split; assumption | reflexivity]].
  intro v.
  assert (Hst : filter (has_rating v) positive
                = filter (has_rating v) top ++ filter (has_rating v) (skipn 3 sorted)).
  { rewrite <- filter_app, <- Esplit. symmetry. apply sort_stable. }
  destruct (Z_lt_le_dec 0 v) as [V|V].
  - exists (filter (has_rating v) (skipn 3 sorted)). rewrite <- Hst.
    unfold positive. symmetry. now apply filter_rating_positive.
  - exists (filter (has_rating v) candidates).
    now rewrite (filter_rating_none V Hpos).
Qed.

(* ================================================================== *)
(** ** Dashboard aggregation *)
(* ================================================================== *)

Import Dashboard.

Lemma rateOne_earlyAdopter l :
  forall a, a_earlyAdopter (fold_left rateOne l a) = a_earlyAdopter a.
Proof.
  induction l as [|[category r] l IH]; intro a; [reflexivity|].
  simpl fold_left. rewrite IH. unfold rateOne.
  destruct (r >? 0)%Z; reflexivity.
Qed.

Lemma topOne_earlyAdopter l :
  forall a, a_earlyAdopter (fold_left topOne l a) = a_earlyAdopter a.
Proof.
  induction l as [|p l IH]; intro a; [reflexivity|].
  simpl fold_left. now rewrite IH.
Qed.

(** The early-adopter counters only depend on the answers to that
    question. *)
Lemma processOne_earlyAdopter a r :
  a_earlyAdopter (processOne a r)
  = adoptOne (a_earlyAdopter a) (interestedInTrying r).
Proof.
  unfold processOne. cbn [a_earlyAdopter]. f_equal.
  destruct (Survey.topProblems r) as [tops|].
  - destruct (0 <? List.length tops)%nat; [rewrite topOne_earlyAdopter|];
      destruct (problemRatings r); try rewrite rateOne_earlyAdopter; reflexivity.
  - destruct (problemRatings r); try rewrite rateOne_earlyAdopter; reflexivity.
Qed.

Lemma adoptOne_counts ea r :
  adoptOne ea (interestedInTrying r)
  = {| yes := yes ea + (if said_yes r then 1 else 0);
       no := no ea + (if said_other r then 1 else 0) |}.
Proof.
  unfold adoptOne, said_other, answered, said_yes.
  destruct (interestedInTrying r) as [s|]; simpl.
  - destruct (String.eqb s EmptyString) eqn:E; simpl.
    + apply String.eqb_eq in E. subst s. simpl.
      destruct ea; simpl; f_equal; lia.
    + destruct (String.eqb s "yes"); simpl; f_equal; lia.
  - destruct ea; simpl; f_equal; lia.
Qed.

Lemma count_cons p r l :
  count p (r :: l) = ((if p r then 1 else 0) + count p l)%Z.
Proof.
  unfold count. simpl. destruct (p r); simpl List.length; lia.
Qed.

Lemma fold_earlyAdopter responses :
  forall a,
    yes (a_earlyAdopter (fold_left processOne responses a))
    = (yes (a_earlyAdopter a) + count said_yes responses)%Z
    /\ no (a_earlyAdopter (fold_left processOne responses a))
       = (no (a_earlyAdopter a) + count said_other responses)%Z.
Proof.
  induction responses as [|r l IH]; intro a.
  - unfold count. simpl. lia.
  - simpl fold_left. destruct (IH (processOne a r)) as [Hy Hn].
    rewrite Hy, Hn, processOne_earlyAdopter, adoptOne_counts, !count_cons.
    simpl. lia.
Qed.

Lemma count_answered responses :
  count answered responses
  = (count said_yes responses + count said_other responses)%Z.
Proof.
  induction responses as [|r l IH]; [reflexivity|].
  rewrite !count_cons, IH. unfold said_other, said_yes, answered.
  destruct (interestedInTrying r) as [s|]; cbn [Js.truthy]; [|cbn [andb]; lia].
  destruct (String.eqb s "yes") eqn:Y, (String.eqb s EmptyString) eqn:E;
    cbn [negb andb]; try lia.
  apply String.eqb_eq in Y, E. congruence.
Qed.

(** C10. In the aggregate of a non-empty response set, the 'no' counter
    is the number of responses whose [interestedInTrying] is present and
    differs from 'yes', the 'yes' counter the number of those answering
    'yes', and the denominator of the solution-interest percentage is the
    number of responses with any non-empty [interestedInTrying]. *)
Theorem earlyAdopter_no_counts_every_other_answer responses :
  responses <> [] ->
  exists processedData,
    processSurveyData responses = Some processedData
    /\ yes (earlyAdopter processedData) = count said_yes responses
    /\ no (earlyAdopter processedData) = count said_other responses
    /\ (yes (earlyAdopter processedData) + no (earlyAdopter processedData))%Z
       = count answered responses
    /\ solutionInterest processedData
       = if (count answered responses >? 0)%Z
         then Js.RoundPct (count said_yes responses) (count answered responses)
         else Js.Lit "0%".
Proof.
  intro H. unfold processSurveyData.
  destruct responses as [|r l]; [now contradiction H|].
  cbn [List.length Nat.eqb]. eexists. split; [reflexivity|].
  cbn [earlyAdopter solutionInterest].
  destruct (fold_earlyAdopter (r :: l) initial) as [Hy Hn].
  cbn [initial a_earlyAdopter yes no] in Hy, Hn.
  rewrite Hy, Hn, count_answered. simpl Z.add. auto.
Qed.

Lemma earlyAdopter_no_counts_every_other_answer_witness :
  exists processedData,
    processSurveyData
      [interest_only "yes"; interest_only "maybe"; interest_only "no"]
    = Some processedData
    /\ yes (earlyAdopter processedData) = 1%Z
    /\ no (earlyAdopter processedData) = 2%Z
    /\ (yes (earlyAdopter processedData) + no (earlyAdopter processedData))%Z = 3%Z
    /\ solutionInterest processedData = Js.RoundPct 1 3.
Proof.
  apply (@earlyAdopter_no_counts_every_other_answer
           [interest_only "yes"; interest_only "maybe"; interest_only "no"]).
  discriminate.
Defined.

(** C6, at the failing input. One response rates "Transport" 4, which
    makes it that response's top problem: the aggregate counts the
    category twice, although a single response rated it. *)
Theorem problemDistribution_counts_top_problem_again :
  option_map problemDistribution (processSurveyData [transport_response])
  = Some [("Transport", 2%Z)]
  /\ count (rated "Transport") [transport_response] = 1%Z
  /\ Survey.topProblems transport_response
     = Some [ {| category := "Transport"; rating := 4 |} ].
Proof. vm_compute. auto. Qed.

Lemma processOne_blank a r : blank r = true -> processOne a r = a.
Proof.
  unfold blank, processOne. intro H.
  destruct (problemRatings r); [discriminate|].
  destruct (Survey.topProblems r); [discriminate|].
  destruct (satisfactionRating r); [discriminate|].
  destruct (likelihoodRating r); [discriminate|].
  destruct (Survey.willingnessToPay r); [discriminate|].
  destruct (interestedInTrying r); [discriminate|].
  destruct a. reflexivity.
Qed.

Lemma fold_blank responses :
  forallb blank responses = true ->
  forall a, fold_left processOne responses a = a.
Proof.
  induction responses as [|r l IH]; intros H a; [reflexivity|].
  simpl in H. apply andb_true_iff in H. destruct H as [Hr Hl].
  simpl. rewrite (processOne_blank a r Hr). now apply IH.
Qed.

(** C2 (amended). On an empty list [processSurveyData] returns [null]:
    no aggregate and no histogram is built. The zero-state is what
    [loadDashboard] shows for an empty response set (total 0, average
    severity "0.0", top problem "-", solution interest "0%") and what
    [processSurveyData] returns for a non-empty set of responses that
    answer nothing: average "0.0", top problem "No data", solution
    interest "0%", both histograms with all five buckets at zero. *)
Theorem aggregation_empty_input :
  processSurveyData [] = None
  /\ loadDashboard []
     = {| total_responses := 0; completion_rate := "0%";
          avg_problem_severity := Js.Lit "0.0"; top_problem := "-";
          solution_interest := Js.Lit "0%" |}
  /\ (forall responses,
         responses <> [] -> forallb blank responses = true ->
         processSurveyData responses = Some (zero_state (List.length responses))).
Proof.
  split; [reflexivity|]. split; [reflexivity|].
  intros responses Hne Hb. unfold processSurveyData.
  destruct responses as [|r l]; [now contradiction Hne|].
  cbn [List.length Nat.eqb]. now rewrite (fold_blank (r :: l) Hb).
Qed.

Lemma aggregation_empty_input_witness :
  processSurveyData [blank_response] = Some (zero_state 1).
Proof.
  apply (proj2 (proj2 aggregation_empty_input)); [discriminate|reflexivity].
Defined.

(** C2, as stated, fails: the empty list yields [null], not an
    aggregate. *)
Lemma aggregation_empty_input_counterexample :
  processSurveyData [] = None
  /\ option_map totalResponses (processSurveyData []) <> Some 0%nat
  /\ option_map satisfaction (processSurveyData []) <> Some five_buckets.
Proof. repeat split; discriminate. Qed.

(* ================================================================== *)
(** ** Further properties of the reconciliation endpoint *)
(* ================================================================== *)

Import Templates MoreProps.

Lemma create_templates i db : templates (snd (create i db)) = templates db.
Proof.
  unfold create, take_id, new_Date.
  destruct (validate i); [reflexivity|].
  destruct (cast_of (in_surveyTemplate i)); [|reflexivity].
  destruct (in_collectedBy i); [|reflexivity].
  destruct (in_team i); [|reflexivity].
  destruct (cast_status (in_syncStatus i)); reflexivity.
Qed.

Lemma syncOne_templates user c db res :
  templates (fst (syncOne user c (db, res))) = templates db.
Proof.
  unfold syncOne. destruct (findOne _ _ db); [reflexivity|].
  unfold new_Date.
  pose proof (create_templates (sync_input c user (clock db (ticks db)))
                {| docs := docs db; templates := templates db;
                   idSupply := idSupply db; clock := clock db;
                   ticks := S (ticks db) |}) as H.
  destruct (create _ _) as [[response|msg] db1]; exact H.
Qed.

Lemma syncLoop_accounting user batch :
  forall db res,
    let out := syncLoop user batch (db, res) in
    (List.length (successful (snd out)) + List.length (failed (snd out))
     = List.length (successful res) + List.length (failed res) + List.length batch)%nat
    /\ (List.length (docs (fst out)) + List.length (successful res)
        = List.length (docs db) + List.length (successful (snd out)))%nat
    /\ templates (fst out) = templates db.
Proof.
  induction batch as [|c batch IH]; intros db res.
  - simpl. repeat split; lia.
  - cbv zeta. rewrite syncLoop_cons.
    pose proof (syncOne_templates user c db res) as HT.
    destruct (syncOne_step user c db res) as (db1 & res1 & E & _ & _ & K).
    rewrite E in *. simpl fst in HT.
    destruct (IH db1 res1) as (H1 & H2 & H3). cbv zeta in H1, H2, H3.
    rewrite H3, HT. split; [|split; [|reflexivity]].
    + rewrite H1.
      destruct K as [_ _ -> | _ _ _ -> | tpl _ _ _ _ ->]; simpl;
        rewrite ?length_app; simpl; lia.
    + destruct K as [_ -> -> | _ _ D -> | tpl _ _ _ D ->]; simpl in *;
        rewrite ?D in *; rewrite ?length_app in *; simpl in *; lia.
Qed.

(** Every item of a batch gets exactly one outcome, a record is written
    for each reported success and for nothing else, and the templates are
    left alone. *)
Theorem sync_accounts_for_every_item user batch db :
  let run := syncResponses user (Some batch) db in
  (List.length (successful (results_of (fst run)))
   + List.length (failed (results_of (fst run))) = List.length batch)%nat
  /\ (List.length (docs (snd run))
      = List.length (docs db) + List.length (successful (results_of (fst run))))%nat
  /\ templates (snd run) = templates db.
Proof.
  intro run. destruct (syncResponses_loop user batch db) as [E R].
  unfold run. rewrite E, R.
  destruct (syncLoop_accounting user batch db {| successful := []; failed := [] |})
    as (H1 & H2 & H3).
  cbv zeta in H1, H2, H3. simpl in H1, H2. repeat split; auto; lia.
Qed.

Lemma syncOne_append user c db res :
  syncOne user c (db, res)
  = (fst (syncOne user c (db, {| successful := []; failed := [] |})),
     append_results res (snd (syncOne user c (db, {| successful := []; failed := [] |})))).
Proof.
  unfold syncOne.
  destruct (findOne _ _ db);
    [|destruct (new_Date db) as [now db1];
      destruct (create _ db1) as [[response|msg] db2]];
    unfold append_results, push_failed, push_successful; simpl;
    rewrite ?app_nil_r; reflexivity.
Qed.

Lemma append_results_assoc a b c :
  append_results a (append_results b c) = append_results (append_results a b) c.
Proof. unfold append_results. simpl. now rewrite !app_assoc. Qed.

Lemma append_results_nil_r a : append_results a {| successful := []; failed := [] |} = a.
Proof. destruct a. unfold append_results. simpl. now rewrite !app_nil_r. Qed.

Lemma append_results_nil_l a : append_results {| successful := []; failed := [] |} a = a.
Proof. now destruct a. Qed.

Lemma syncLoop_append user batch :
  forall db res,
    syncLoop user batch (db, res)
    = (fst (syncLoop user batch (db, {| successful := []; failed := [] |})),
       append_results res
         (snd (syncLoop user batch (db, {| successful := []; failed := [] |})))).
Proof.
  induction batch as [|c batch IH]; intros db res.
  - simpl. now rewrite append_results_nil_r.
  - rewrite !syncLoop_cons, (syncOne_append user c db res).
    destruct (syncOne user c (db, {| successful := []; failed := [] |})) as [db1 r1].
    cbn [fst snd]. rewrite (IH db1 (append_results res r1)), (IH db1 r1).
    cbn [fst snd]. now rewrite append_results_assoc.
Qed.

Lemma syncLoop_app user batch1 batch2 st :
  syncLoop user (batch1 ++ batch2) st = syncLoop user batch2 (syncLoop user batch1 st).
Proof. unfold syncLoop. apply fold_left_app. Qed.

(** Sending a batch in two requests, one after the other, writes the same
    collection and reports the same outcomes, in the same order, as
    sending it in one. *)
Theorem sync_in_two_requests user batch1 batch2 db :
  let whole := syncResponses user (Some (batch1 ++ batch2)) db in
  let first := syncResponses user (Some batch1) db in
  let second := syncResponses user (Some batch2) (snd first) in
  snd whole = snd second
  /\ results_of (fst whole)
     = append_results (results_of (fst first)) (results_of (fst second)).
Proof.
  intros whole first second.
  destruct (syncResponses_loop user (batch1 ++ batch2) db) as [Ew Rw].
  destruct (syncResponses_loop user batch1 db) as [E1 R1].
  destruct (syncResponses_loop user batch2 (snd first)) as [E2 R2].
  fold whole in Ew, Rw. fold first in E1, R1. fold second in E2, R2.
  rewrite Ew, Rw, E2, R2, R1, E1, syncLoop_app.
  destruct (syncLoop user batch1 (db, {| successful := []; failed := [] |})) as [db1 r1].
  rewrite (syncLoop_append user batch2 db1 r1). cbn [fst snd]. auto.
Qed.

(* ================================================================== *)
(** ** Direct submission, templates and export *)
(* ================================================================== *)

Lemma findActiveTemplate_some id tm db t :
  findActiveTemplate id tm db = Some t ->
  id = Some (t_id t) /\ In t (templates db)
  /\ t_team t = tm /\ t_status t = "active".
Proof.
  unfold findActiveTemplate. destruct id as [id|]; [|discriminate].
  intro H. apply find_some in H. destruct H as [Hin H].
  apply andb_true_iff in H. destruct H as [H Hs].
  apply andb_true_iff in H. destruct H as [Hi Ht].
  apply String.eqb_eq in Hi, Ht, Hs. subst. auto.
Qed.

Lemma findActiveTemplate_none id tm db :
  (forall t, In t (templates db) -> id = Some (t_id t) -> t_team t = tm ->
             t_status t <> "active") ->
  findActiveTemplate id tm db = None.
Proof.
  intro H. destruct (findActiveTemplate id tm db) as [t|] eqn:F; [|reflexivity].
  apply findActiveTemplate_some in F. destruct F as (Hi & Hin & Ht & Hs).
  exfalso. exact (H t Hin Hi Ht Hs).
Qed.

(** A submission is refused with 404, and nothing is written, unless the
    session's own team has an active template with the given identifier:
    a template of another team, or a draft or archived one, does not
    count. *)
Theorem submitResponse_needs_active_team_template user meta body db :
  (forall t, In t (templates db) -> s_surveyTemplate body = Some (t_id t) ->
             t_team t = u_team user -> t_status t <> "active") ->
  submitResponse user meta body db
  = (Reply404 "Survey template not found or not active", db).
Proof.
  intro H. unfold submitResponse.
  now rewrite (@findActiveTemplate_none _ _ _ H).
Qed.

Lemma submitResponse_needs_active_team_template_witness :
  submitResponse other_user "{}" Sample.submission_a Sample.db0
  = (Reply404 "Survey template not found or not active", Sample.db0).
Proof.
  apply submitResponse_needs_active_team_template.
  intros t [<-|[]] _ Ht. discriminate Ht.
Defined.

Lemma validate_none i :
  validate i = None -> cast_errors i = [] /\ validator_errors i = [].
Proof.
  unfold validate.
  destruct (cast_errors i ++ validator_errors i) eqn:E; [|discriminate].
  intros _. now apply app_eq_nil in E.
Qed.

Lemma create_inv i db d db1 :
  create i db = (inl d, db1) ->
  cast_errors i = []
  /\ cast_of (in_surveyTemplate i) = Some (Server.surveyTemplate d)
  /\ in_collectedBy i = Some (collectedBy d)
  /\ in_team i = Some (team d)
  /\ cast_status (in_syncStatus i) = Some (Server.syncStatus d)
  /\ deviceInfo d = in_deviceInfo i
  /\ analytics d = option_map (with_dates cast_of) (in_analytics i)
  /\ syncHistory d = match in_syncHistory i with Some h => h | None => [] end
  /\ docs db1 = docs db ++ [d]
  /\ templates db1 = templates db.
Proof.
  unfold create, take_id, new_Date.
  destruct (validate i) eqn:V; [discriminate|].
  apply validate_none in V. destruct V as [V _].
  destruct (cast_of (in_surveyTemplate i)); [|discriminate].
  destruct (in_collectedBy i); [|discriminate].
  destruct (in_team i); [|discriminate].
  destruct (cast_status (in_syncStatus i)); [|discriminate].
  rewrite unique_violation_never. cbn [docs with_docs].
  intro H. inversion H. subst. clear H. cbn. repeat split; auto.
Qed.

Lemma new_Date_from_fits path v :
  cast_error (Some (new_Date_from path v)) = [] ->
  new_Date_from path v = Fits (match time_of v with Some t => t | None => 0%Z end)
  /\ time_of v <> None.
Proof.
  unfold new_Date_from. destruct (time_of v); simpl; intro H.
  - split; [reflexivity|discriminate].
  - discriminate.
Qed.

Lemma submitResponse_inv user meta body db msg d db1 :
  submitResponse user meta body db = (Reply201 msg d, db1) ->
  docs db1 = docs db ++ [d]
  /\ templates db1 = templates db
  /\ team d = u_team user /\ collectedBy d = u_id user
  /\ Server.syncStatus d = synced /\ syncHistory d = []
  /\ deviceInfo d = s_deviceInfo body
  /\ (exists a,
         s_analytics body = Some a
         /\ doc_startTime d = date_taken (startTime a)
         /\ option_map (@endTime Date) (analytics d)
            = Some (Some (match date_taken (endTime a) with
                          | Some e => e
                          | None => clock db (ticks db)
                          end))
         /\ readable (startTime a) /\ readable (endTime a))
  /\ (exists t,
         In t (templates db) /\ t_id t = Server.surveyTemplate d
         /\ t_team t = u_team user /\ t_status t = "active").
Proof.
  unfold submitResponse.
  destruct (findActiveTemplate _ _ db) as [t|] eqn:F; [|discriminate].
  apply findActiveTemplate_some in F. destruct F as (Hi & Hin & Ht & Hs).
  destruct (s_analytics body) as [a|] eqn:A; [|discriminate].
  set (start := match startTime a with
                | Some v =>
                    if truthy_date v then Some (new_Date_from "analytics.startTime" v)
                    else None
                | None => None
                end).
  assert (S0 : cast_error start = [] ->
               cast_of start = date_taken (startTime a) /\ readable (startTime a)).
  { unfold start, date_taken, readable. destruct (startTime a) as [v|].
    - destruct (truthy_date v) eqn:T.
      + intro E. destruct (new_Date_from_fits _ _ E) as [E1 E2]. rewrite E1. simpl.
        split; [destruct (time_of v); [reflexivity|contradiction]|].
        intros raw R _. inversion R. now subst.
      + intros _. split; [reflexivity|]. intros raw R T'. inversion R. subst.
        congruence.
    - intros _. split; [reflexivity|]. intros raw R. discriminate. }
  clearbody start.
  assert (E0 : exists end_ db0,
             match endTime a with
             | Some v =>
                 if truthy_date v then (new_Date_from "analytics.endTime" v, db)
                 else let '(now, db) := new_Date db in (Fits now, db)
             | None => let '(now, db) := new_Date db in (Fits now, db)
             end = (end_, db0)
             /\ docs db0 = docs db /\ templates db0 = templates db
             /\ (cast_error (Some end_) = [] ->
                 cast_of (Some end_)
                 = Some (match date_taken (endTime a) with
                         | Some e => e
                         | None => clock db (ticks db)
                         end)
                 /\ readable (endTime a))).
  { unfold date_taken, readable, new_Date. destruct (endTime a) as [v|].
    - destruct (truthy_date v) eqn:T.
      + eexists. eexists. split; [reflexivity|].
        split; [reflexivity|]. split; [reflexivity|]. intro E.
        destruct (new_Date_from_fits _ _ E) as [E1 E2]. rewrite E1. simpl.
        split; [destruct (time_of v); [reflexivity|contradiction]|].
        intros raw R _. inversion R. now subst.
      + eexists. eexists. split; [reflexivity|].
        split; [reflexivity|]. split; [reflexivity|]. intros _.
        split; [reflexivity|]. intros raw R T'. inversion R. subst. congruence.
    - eexists. eexists. split; [reflexivity|].
      split; [reflexivity|]. split; [reflexivity|]. intros _.
      split; [reflexivity|]. intros raw R. discriminate. }
  destruct E0 as (end_ & db0 & -> & D0 & T0 & E0).
  destruct (create _ db0) as [[response|error_message] db2] eqn:C; [|discriminate].
  intro H. inversion H. subst. clear H.
  apply create_inv in C.
  destruct C as (CE & C1 & C2 & C3 & C4 & C5 & C6 & C7 & C8 & C9).
  cbn [in_surveyTemplate in_collectedBy in_team in_syncStatus in_deviceInfo
       in_analytics in_syncHistory cast_status option_map] in *.
  unfold cast_errors in CE.
  cbn [in_surveyTemplate in_location in_responses in_analytics in_metadata
       startTime endTime] in CE.
  apply app_eq_nil in CE. destruct CE as [_ CE].
  apply app_eq_nil in CE. destruct CE as [_ CE].
  apply app_eq_nil in CE. destruct CE as [_ CE].
  apply app_eq_nil in CE. destruct CE as [CE _].
  apply app_eq_nil in CE. destruct CE as [CS CE].
  destruct (S0 CS) as [S1 S2]. destruct (E0 CE) as [E1 E2].
  rewrite Hi in C1. rewrite cast_of_fits in C1.
  inversion C1. inversion C2. inversion C3. inversion C4.
  split; [now rewrite C8, D0|]. split; [now rewrite C9, T0|].
  split; [reflexivity|]. split; [reflexivity|]. split; [reflexivity|].
  split; [exact C7|]. split; [exact C5|]. split.
  - exists a. split; [reflexivity|].
    unfold doc_startTime. rewrite C6. cbn [with_dates startTime endTime option_map].
    rewrite S1, E1. auto.
  - exists t. auto.
Qed.

(** Every accepted submission is stored exactly once, at the end of the
    collection, under the session's team and user whatever the body
    says, marked synced with an empty history, and names an active
    template of the session's team. It keeps the device it was sent
    with. Its start time is the date read from the body, and none when
    the body has none or one that is false in a condition, such as zero
    or the empty string; its end time is the date read from the body,
    and the server's clock in those cases. A body with a date that
    cannot be read is not accepted. *)
Theorem submitResponse_accepted user meta body db msg d db1 :
  submitResponse user meta body db = (Reply201 msg d, db1) ->
  docs db1 = docs db ++ [d]
  /\ templates db1 = templates db
  /\ team d = u_team user /\ collectedBy d = u_id user
  /\ Server.syncStatus d = synced /\ syncHistory d = []
  /\ deviceInfo d = s_deviceInfo body
  /\ (exists a,
         s_analytics body = Some a
         /\ doc_startTime d = date_taken (startTime a)
         /\ option_map (@endTime Date) (analytics d)
            = Some (Some (match date_taken (endTime a) with
                          | Some e => e
                          | None => clock db (ticks db)
                          end))
         /\ readable (startTime a) /\ readable (endTime a))
  /\ (exists t,
         In t (templates db) /\ t_id t = Server.surveyTemplate d
         /\ t_team t = u_team user /\ t_status t = "active").
Proof.
  intro H. destruct (submitResponse_inv _ _ _ _ H) as (H1 & H2 & H3).
  split; [exact H1|]. split; [exact H2|exact H3].
Qed.

Lemma submitResponse_accepted_witness :
  exists d db1,
    docs db1 = docs Sample.db0 ++ [d]
    /\ team d = "6650a1b2c3d4e5f6a7b8d001" /\ collectedBy d = "6650a1b2c3d4e5f6a7b8c001"
    /\ Server.syncStatus d = synced
    /\ doc_startTime d = None
    /\ option_map (@endTime Date) (analytics d) = Some (Some 1000%Z).
Proof.
  destruct (@submitResponse_accepted Sample.user0 "{}" submission_zero Sample.db0
              _ _ _ eq_refl)
    as (H1 & _ & H3 & H4 & H5 & _ & _ & (a & Ha & Hs & He & _) & _).
  inversion Ha. subst a. eexists. eexists.
  split; [exact H1 | split; [exact H3 | split; [exact H4 | split; [exact H5|]]]].
  split; [exact Hs | exact He].
Defined.

(** A response that was submitted directly and is later replayed from an
    offline queue, with the same device and start time, is not stored a
    second time: a replay of it alone is answered "Response already
    synced" and leaves the server as it is, and whatever batch it is
    replayed in, by whatever user, the number of records with its key
    stays the same. *)
Theorem replay_after_submission_is_duplicate user meta body db msg d db1 c :
  submitResponse user meta body db = (Reply201 msg d, db1) ->
  c_deviceId c = doc_deviceId d -> c_startTime c = doc_startTime d ->
  (forall user', syncResponses user' (Some [c]) db1
     = (Reply200 "Sync completed: 0 successful, 1 failed"
          {| successful := []; failed := [duplicate_failure c] |}, db1))
  /\ (forall user' batch,
         count_key (docs (snd (syncResponses user' (Some batch) db1))) c
         = count_key (docs db1) c).
Proof.
  intros H Hd Ht.
  destruct (submitResponse_inv _ _ _ _ H) as (D & _).
  assert (K : known (docs db1) c = true).
  { apply known_spec. rewrite D, map_app. apply in_or_app. right. left.
    unfold natural_key, candidate_key. now rewrite Hd, Ht. }
  split.
  - intro user'. unfold syncResponses.
    rewrite syncLoop_cons, (syncOne_known user' c db1 _ K). reflexivity.
  - intros user' batch.
    destruct (syncResponses_loop user' batch db1) as [E _].
    now rewrite E, syncLoop_count, K.
Qed.

Lemma replay_after_submission_is_duplicate_witness :
  let db1 := snd (submitResponse Sample.user0 "{}" Sample.submission_a Sample.db0) in
  syncResponses other_user (Some [Sample.item_a]) db1
  = (Reply200 "Sync completed: 0 successful, 1 failed"
       {| successful := []; failed := [duplicate_failure Sample.item_a] |}, db1).
Proof.
  apply (proj1 (@replay_after_submission_is_duplicate
                  Sample.user0 "{}" Sample.submission_a Sample.db0 _ _ _
                  Sample.item_a eq_refl eq_refl eq_refl)).
Defined.

Lemma remove_by_id_keeps id ts t :
  In t ts -> t_id t <> id -> In t (remove_by_id id ts).
Proof.
  induction ts as [|x ts IH]; simpl; [tauto|].
  intros [->|Hin] Hne.
  - destruct (String.eqb (t_id t) id) eqn:E; [|now left].
    apply String.eqb_eq in E. contradiction.
  - destruct (String.eqb (t_id x) id); [assumption|]. right. now apply IH.
Qed.

Lemma remove_by_id_incl id ts t : In t (remove_by_id id ts) -> In t ts.
Proof.
  induction ts as [|x ts IH]; simpl; [tauto|].
  destruct (String.eqb (t_id x) id); [now right|].
  intros [->|H]; [now left|right; now apply IH].
Qed.

Lemma countResponses_zero id db d :
  countResponses id db = 0%nat -> In d (docs db) -> Server.surveyTemplate d <> id.
Proof.
  unfold countResponses. intros H Hin E.
  assert (X : In d (filter (fun d => String.eqb (Server.surveyTemplate d) id) (docs db))).
  { apply filter_In. split; [assumption|]. now apply String.eqb_eq. }
  destruct (filter _ (docs db)); [destruct X|discriminate].
Qed.

Lemma findTeamTemplate_some id tm db t :
  findTeamTemplate id tm db = inl (Some t) ->
  id = Fits (t_id t) /\ In t (templates db) /\ t_team t = tm.
Proof.
  unfold findTeamTemplate. destruct id as [id|value error]; [|discriminate].
  intro H. inversion H as [F]. apply find_some in F. destruct F as [Hin F].
  apply andb_true_iff in F. destruct F as [Hi Ht].
  apply String.eqb_eq in Hi, Ht. subst. auto.
Qed.

Lemma findTeamTemplate_none id tm db :
  (forall t, In t (templates db) -> t_id t = id -> t_team t <> tm) ->
  findTeamTemplate (Fits id) tm db = inl None.
Proof.
  intro H. unfold findTeamTemplate.
  destruct (find _ (templates db)) as [t|] eqn:F; [|reflexivity].
  apply find_some in F. destruct F as [Hin F].
  apply andb_true_iff in F. destruct F as [Hi Ht].
  apply String.eqb_eq in Hi, Ht. exfalso. exact (H t Hin Hi Ht).
Qed.

(** Deleting a template never touches the responses and never removes a
    template that some response refers to, whoever asks and whatever is
    given as identifier: every response that had its template before
    the call still has it afterwards. No template is added either. A
    template with responses is refused with 400 when it belongs to the
    caller's team. *)
Theorem deleteTemplate_keeps_referenced_templates user id db :
  let run := deleteTemplate user id db in
  docs (snd run) = docs db
  /\ (forall d t, In d (docs db) -> In t (templates db) ->
                  t_id t = Server.surveyTemplate d -> In t (templates (snd run)))
  /\ (forall t, In t (templates (snd run)) -> In t (templates db))
  /\ (forall t d, In t (templates db) -> id = Fits (t_id t) ->
                  t_team t = u_team user ->
                  In d (docs db) -> Server.surveyTemplate d = t_id t ->
                  fst run
                  = T400 "Cannot delete template with existing responses. Archive it instead."
                  /\ snd run = db).
Proof.
  cbv zeta. unfold deleteTemplate.
  destruct (findTeamTemplate id (u_team user) db) as [[t0|]|error] eqn:F.
  - destruct (findTeamTemplate_some _ _ _ F) as (Hid & Hin0 & Ht0).
    destruct (0 <? countResponses (t_id t0) db)%nat eqn:C; cbn [fst snd docs templates].
    + repeat split; auto.
    + apply Nat.ltb_ge in C.
      assert (C0 : countResponses (t_id t0) db = 0%nat) by lia.
      split; [reflexivity|]. split; [|split].
      * intros d t Hd Ht E. apply remove_by_id_keeps; [assumption|].
        rewrite E. exact (@countResponses_zero (t_id t0) db d C0 Hd).
      * intros t. apply remove_by_id_incl.
      * intros t d _ Hi _ Hd E. exfalso. rewrite Hid in Hi. inversion Hi as [Hi'].
        rewrite <- Hi' in E. exact (@countResponses_zero (t_id t0) db d C0 Hd E).
  - cbn [fst snd]. split; [reflexivity|]. split; [auto|]. split; [auto|].
    intros t d Hin Hi Ht _ _. exfalso. subst id.
    unfold findTeamTemplate in F. inversion F as [F'].
    apply (find_none _ _ F') in Hin.
    rewrite Ht, !String.eqb_refl in Hin. discriminate.
  - cbn [fst snd]. split; [reflexivity|]. split; [auto|]. split; [auto|].
    intros t d _ Hi _ _ _. subst id. discriminate F.
Qed.

Lemma deleteTemplate_keeps_referenced_templates_witness :
  In {| t_id := "6650a1b2c3d4e5f6a7b8e001"; t_team := "6650a1b2c3d4e5f6a7b8d001";
        t_status := "active" |}
     (templates (snd (deleteTemplate Sample.user0 (Fits "6650a1b2c3d4e5f6a7b8e001") db_two)))
  /\ In {| t_id := "6650a1b2c3d4e5f6a7b8e001"; t_team := "6650a1b2c3d4e5f6a7b8d001";
           t_status := "active" |}
        (templates db_two)
  /\ deleteTemplate Sample.user0 (Fits "6650a1b2c3d4e5f6a7b8e001") db_two
     = (T400 "Cannot delete template with existing responses. Archive it instead.",
        db_two).
Proof.
  destruct (deleteTemplate_keeps_referenced_templates
              Sample.user0 (Fits "6650a1b2c3d4e5f6a7b8e001") db_two)
    as (_ & H2 & H3 & H4).
  assert (Hd : In (written Sample.user0 Sample.item_a "6650a1b2c3d4e5f6a7b8e001" Sample.db0)
                  (docs db_two))
    by (now left).
  assert (Ht : In {| t_id := "6650a1b2c3d4e5f6a7b8e001";
                     t_team := "6650a1b2c3d4e5f6a7b8d001"; t_status := "active" |}
                  (templates db_two)) by (now left).
  assert (Ht' := H2 _ _ Hd Ht eq_refl).
  split; [exact Ht'|]. split; [exact (H3 _ Ht')|].
  destruct (H4 _ _ Ht eq_refl eq_refl Hd eq_refl) as [Hr Hs].
  destruct (deleteTemplate Sample.user0 (Fits "6650a1b2c3d4e5f6a7b8e001") db_two)
    as [r db'].
  simpl in Hr, Hs. now rewrite Hr, Hs.
Defined.

(** Once a submission against a template has been accepted, no user can
    delete that template any more: the call is refused and the server is
    left as it is. *)
Theorem submitted_template_cannot_be_deleted user meta body db msg d db1 user' :
  submitResponse user meta body db = (Reply201 msg d, db1) ->
  snd (deleteTemplate user' (Fits (Server.surveyTemplate d)) db1) = db1
  /\ (fst (deleteTemplate user' (Fits (Server.surveyTemplate d)) db1)
      = T400 "Cannot delete template with existing responses. Archive it instead."
      \/ fst (deleteTemplate user' (Fits (Server.surveyTemplate d)) db1)
         = T404 "Survey template not found").
Proof.
  intro H. destruct (submitResponse_inv _ _ _ _ H) as (D & _).
  unfold deleteTemplate.
  destruct (findTeamTemplate _ (u_team user') db1) as [[t0|]|error] eqn:F;
    [|simpl; auto|discriminate F].
  destruct (findTeamTemplate_some _ _ _ F) as (Hid & _).
  assert (Hid' : Server.surveyTemplate d = t_id t0) by congruence.
  assert (C : (0 <? countResponses (t_id t0) db1)%nat = true).
  { apply Nat.ltb_lt. unfold countResponses. rewrite D, filter_app, length_app.
    simpl. rewrite <- Hid', String.eqb_refl. simpl. lia. }
  rewrite C. simpl. auto.
Qed.

Lemma submitted_template_cannot_be_deleted_witness :
  let db1 := snd (submitResponse Sample.user0 "{}" Sample.submission_a Sample.db0) in
  snd (deleteTemplate Sample.user0 (Fits "6650a1b2c3d4e5f6a7b8e001") db1) = db1.
Proof.
  apply (proj1 (@submitted_template_cannot_be_deleted
                  Sample.user0 "{}" Sample.submission_a Sample.db0 _ _ _
                  Sample.user0 eq_refl)).
Defined.

Lemma unique_id_same_template (ts : list SurveyTemplateDoc) a b :
  NoDup (map t_id ts) -> In a ts -> In b ts -> t_id a = t_id b -> a = b.
Proof.
  induction ts as [|x ts IH]; intros N Ha Hb E; [destruct Ha|].
  simpl in N. inversion N as [|? ? Hnot N']; subst.
  destruct Ha as [Ha|Ha], Hb as [Hb|Hb].
  - congruence.
  - exfalso. apply Hnot. subst x. rewrite E. now apply in_map.
  - exfalso. apply Hnot. subst x. rewrite <- E. now apply in_map.
  - now apply IH.
Qed.

(** Templates are visible per team. When no template of the caller's
    team carries the identifier, [getTemplate] and [deleteTemplate]
    answer 404 and change nothing. A string that is no ObjectId is not
    answered with 404: the lookup fails and both handlers pass the
    cast error on, changing nothing. Identifiers being unique,
    [deleteTemplate] never removes a template of another team, whatever
    it is given. *)
Theorem templates_are_team_scoped user db :
  (forall id,
      (forall t, In t (templates db) -> t_id t = id -> t_team t <> u_team user) ->
      getTemplate user (Fits id) db = T404 "Survey template not found"
      /\ deleteTemplate user (Fits id) db = (T404 "Survey template not found", db))
  /\ (forall value error,
         getTemplate user (Misfit value error) db = TNext error
         /\ deleteTemplate user (Misfit value error) db = (TNext error, db))
  /\ (NoDup (map t_id (templates db)) ->
      forall id t, In t (templates db) -> t_team t <> u_team user ->
                   In t (templates (snd (deleteTemplate user id db)))).
Proof.
  split; [|split].
  - intros id H. unfold getTemplate, deleteTemplate.
    now rewrite (@findTeamTemplate_none id (u_team user) db H).
  - intros value error. split; reflexivity.
  - intros N id t Hin Hne. unfold deleteTemplate.
    destruct (findTeamTemplate id (u_team user) db) as [[t0|]|error] eqn:F;
      [|assumption|assumption].
    destruct (findTeamTemplate_some _ _ _ F) as (_ & Hin0 & Ht0).
    destruct (0 <? countResponses (t_id t0) db)%nat; [assumption|].
    cbn [snd templates].
    apply remove_by_id_keeps; [assumption|]. intro E.
    assert (X : t = t0) by (apply (@unique_id_same_template (templates db)); auto).
    subst t0. contradiction.
Qed.

Lemma templates_are_team_scoped_witness :
  (getTemplate other_user (Fits "6650a1b2c3d4e5f6a7b8e001") db_teams
   = T404 "Survey template not found"
   /\ deleteTemplate other_user (Fits "6650a1b2c3d4e5f6a7b8e001") db_teams
      = (T404 "Survey template not found", db_teams))
  /\ In {| t_id := "6650a1b2c3d4e5f6a7b8e002"; t_team := "6650a1b2c3d4e5f6a7b8d002";
           t_status := "active" |}
        (templates (snd (deleteTemplate Sample.user0 (Fits "6650a1b2c3d4e5f6a7b8e001")
                           db_teams))).
Proof.
  split.
  - apply (proj1 (templates_are_team_scoped other_user db_teams)).
    intros t [<-|[<-|[]]] E; [discriminate|discriminate E].
  - apply (proj2 (proj2 (templates_are_team_scoped Sample.user0 db_teams))).
    + repeat constructor; simpl; intuition discriminate.
    + right. now left.
    + discriminate.
Defined.

Section NewestFirst.

Variable A : Type.
Variable key : A -> Z.




End NewestFirst.


(* ================================================================== *)
(** ** Further properties of the client *)
(* ================================================================== *)

Lemma apiRequest_success env endpoint method body s :
  apiRequest env endpoint method (FetchResponse true body) s = (Return body, s).
Proof. reflexivity. Qed.

(** Whatever the network does, [apiRequest] leaves storage and
    notifications alone. *)
Lemma apiRequest_storage env endpoint method net s :
  storage (snd (apiRequest env endpoint method net s)) = storage s
  /\ notifications (snd (apiRequest env endpoint method net s)) = notifications s.
Proof.
  destruct net as [e|[|] body].
  - destruct (@apiRequest_failure env endpoint method (FetchRejected e) s I)
      as (s' & E & H1 & H2). now rewrite E.
  - rewrite apiRequest_success. auto.
  - destruct (@apiRequest_failure env endpoint method (FetchResponse false body) s eq_refl)
      as (s' & E & H1 & H2). now rewrite E.
Qed.

Lemma syncOffline_noop env1 net env2 s :
  queue_of s = [] \/ onLine env1 = false ->
  syncOfflineResponses env1 net env2 s = (Return no_pending, s).
Proof.
  intro H. unfold syncOfflineResponses.
  rewrite (bind_return _ _ s (getPendingSyncQueue_run s)).
  destruct H as [H|H]; rewrite H; [reflexivity|].
  now rewrite orb_true_r.
Qed.

(** With an empty queue, or offline, a sync does nothing at all: no
    request outcome is looked at, nothing is stored or announced, and the
    call returns the "No pending responses to sync" success. *)
Theorem syncOffline_nothing_to_do env1 net env2 s :
  queue_of s = [] \/ onLine env1 = false ->
  syncOfflineResponses env1 net env2 s = (Return no_pending, s).
Proof.
  intros [H|H]; apply syncOffline_noop; [now left|now right].
Qed.

Lemma syncOffline_nothing_to_do_witness :
  syncOfflineResponses env_offline (FetchRejected "unreachable") env_offline browser1
  = (Return no_pending, browser1).
Proof.
  apply syncOffline_nothing_to_do. right. reflexivity.
Defined.

Lemma try_catch_return {A} (m : M A) (h : string -> M A) s a s' :
  m s = (Return a, s') -> try_catch m h s = (Return a, s').
Proof. intro E. unfold try_catch. now rewrite E. Qed.

Lemma clearSyncQueue_run s :
  exists s',
    clearSyncQueue s = (Return tt, s')
    /\ queue_of s' = [] /\ surveys_of s' = surveys_of s
    /\ ls_deviceId (storage s') = ls_deviceId (storage s)
    /\ notifications s' = notifications s.
Proof. eexists. split; [reflexivity|]. simpl. auto. Qed.

Lemma syncOffline_ok_run env1 env2 body s :
  queue_of s <> [] -> onLine env1 = true ->
  let run := syncOfflineResponses env1 (FetchResponse true body) env2 s in
  surveys_of (snd run) = surveys_of s
  /\ queue_of (snd run) = (if success body then [] else queue_of s)
  /\ (success body = false -> run = (Return body, s))
  /\ (forall ok_ids failures,
         success body = true -> syncResults body = Some (ok_ids, failures) ->
         fst run = Return body
         /\ notifications (snd run)
            = notifications s
              ++ [(("Synced " ++ Js.of_nat (List.length ok_ids) ++ " responses")%string,
                   "success")]).
Proof.
  intros Q O run.
  assert (E : run =
    try_catch
      (bind (apiRequest env2 "/survey-responses/sync" "POST" (FetchResponse true body))
         (fun result =>
            bind (if success result then
                    bind clearSyncQueue (fun _ =>
                      match syncResults result with
                      | Some (ok_ids, _) =>
                          showNotification
                            ("Synced " ++ Js.of_nat (List.length ok_ids) ++ " responses")
                            "success"
                      | None =>
                          throw "Cannot read properties of undefined (reading 'syncResults')"
                      end)
                  else ret tt)
              (fun _ => ret result)))
      (fun error => bind (console_log ("Sync failed: " ++ error)) (fun _ => throw error))
      s).
  { unfold run, syncOfflineResponses.
    rewrite (bind_return _ _ s (getPendingSyncQueue_run s)).
    destruct (queue_of s); [now contradiction Q|]. rewrite O. reflexivity. }
  rewrite E. clear E run.
  match goal with
  | |- context [try_catch ?m0 ?h0 s] => set (m := m0); set (h := h0)
  end.
  destruct (success body) eqn:S.
  - destruct (clearSyncQueue_run s) as (s1 & EC & Q1 & L1 & D1 & N1).
    destruct (syncResults body) as [[ok_ids failures]|] eqn:R.
    + set (s2 := {| storage := storage s1;
                    notifications :=
                      notifications s1
                      ++ [(("Synced " ++ Js.of_nat (List.length ok_ids)
                            ++ " responses")%string, "success")];
                    console := console s1; drawn := drawn s1 |}).
      assert (M : m s = (Return body, s2)).
      { unfold m. rewrite (bind_return _ _ s (apiRequest_success _ _ _ body s)).
        rewrite S, R.
        assert (I1 : bind clearSyncQueue
                       (fun _ => showNotification
                                   ("Synced " ++ Js.of_nat (List.length ok_ids)
                                    ++ " responses") "success") s
                     = (Return tt, s2))
          by (rewrite (bind_return _ _ s EC); reflexivity).
        rewrite (bind_return _ _ s I1). reflexivity. }
      rewrite (try_catch_return m h s M). cbn [fst snd].
      split; [exact L1|]. split; [exact Q1|]. split; [discriminate|].
      intros ok' f' _ X. inversion X. subst.
      split; [reflexivity|]. unfold s2. cbn [notifications]. now rewrite N1.
    + assert (M : m s = (Throw "Cannot read properties of undefined (reading 'syncResults')", s1)).
      { unfold m. rewrite (bind_return _ _ s (apiRequest_success _ _ _ body s)).
        rewrite S, R.
        assert (I1 : bind clearSyncQueue
                       (fun _ => @throw unit
                          "Cannot read properties of undefined (reading 'syncResults')") s
                     = (Throw "Cannot read properties of undefined (reading 'syncResults')", s1))
          by (rewrite (bind_return _ _ s EC); reflexivity).
        now rewrite (bind_throw _ _ s I1). }
      rewrite (try_catch_throw m h s M). unfold h, bind, console_log, throw.
      cbn [fst snd].
      split; [exact L1|]. split; [exact Q1|]. split; discriminate.
  - assert (M : m s = (Return body, s)).
    { unfold m. rewrite (bind_return _ _ s (apiRequest_success _ _ _ body s)).
      rewrite S. reflexivity. }
    rewrite (try_catch_return m h s M). cbn [fst snd].
    split; [reflexivity|]. split; [reflexivity|]. split; [reflexivity|]. discriminate.
Qed.

(** When the request of a sync is answered, the queue is emptied exactly
    when the answer says [success]; the failed list of the answer plays
    no part. The stored surveys are never touched, so a survey stored as
    'pending' stays 'pending' locally after it was synced. An answer
    without success is handed back as it is; a successful one with its
    results is handed back after "Synced N responses" is shown, N being
    the number of created records. *)
Theorem syncOffline_answered env1 env2 body s :
  queue_of s <> [] -> onLine env1 = true ->
  let run := syncOfflineResponses env1 (FetchResponse true body) env2 s in
  surveys_of (snd run) = surveys_of s
  /\ queue_of (snd run) = (if success body then [] else queue_of s)
  /\ (success body = false -> run = (Return body, s))
  /\ (forall ok_ids failures,
         success body = true -> syncResults body = Some (ok_ids, failures) ->
         fst run = Return body
         /\ notifications (snd run)
            = notifications s
              ++ [(("Synced " ++ Js.of_nat (List.length ok_ids) ++ " responses")%string,
                   "success")]).
Proof.
  intros Q O run.
  destruct (@syncOffline_ok_run env1 env2 body s Q O) as (H1 & H2 & H3).
  split; [exact H1|]. split; [exact H2|exact H3].
Qed.

Lemma syncOffline_answered_witness :
  let run := syncOfflineResponses env_online (sync_ok ["r-1"] []) env_online browser1 in
  queue_of (snd run) = []
  /\ surveys_of (snd run) = [queued_survey]
  /\ notifications (snd run) = [("Synced 1 responses", "success")].
Proof.
  destruct (@syncOffline_answered env_online env_online
              {| success := true; DataManager.message := Some "Sync completed";
                 syncResults := Some (["r-1"], []); response_syncStatus := None |}
              browser1 ltac:(discriminate) eq_refl) as (H1 & H2 & _ & H4).
  destruct (H4 ["r-1"] [] eq_refl eq_refl) as [_ H5].
  split; [exact H2 | split; [exact H1 | exact H5]].
Defined.

Lemma net_cases (net : FetchOutcome) :
  (exists body, net = FetchResponse true body) \/ no_success net.
Proof.
  destruct net as [e|[|] body]; simpl; eauto.
Qed.

(** [saveSurveyLocal] in full: what is stored and where. *)
Lemma saveSurveyLocal_stores env response s :
  exists completeSurvey s',
    saveSurveyLocal env response s = (Return completeSurvey, s')
    /\ data completeSurvey = response
    /\ syncStatus completeSurvey = (if onLine env then "synced" else "pending")
    /\ surveys_of s' = surveys_of s ++ [completeSurvey]
    /\ queue_of s' = (if onLine env then queue_of s else queue_of s ++ [completeSurvey])
    /\ notifications s' = notifications s.
Proof.
  unfold saveSurveyLocal.
  rewrite (bind_return _ _ s (eq_refl : getAllSurveys s = (Return (surveys_of s), s))).
  rewrite (bind_return _ _ s (eq_refl : generateId env s = (Return _, _))).
  set (s1 := {| storage := storage s; notifications := notifications s;
                console := console s; drawn := S (drawn s) |}).
  destruct (getDeviceId_effect env s1) as (d & s2 & E & H1 & H2 & H3).
  rewrite (bind_return _ _ s1 E).
  rewrite (bind_return _ _ s2 (eq_refl : get_storage s2 = (Return (storage s2), s2))).
  unfold bind at 1. unfold put_storage at 1.
  set (completeSurvey := {| data := response; id := _; timestamp := _; deviceId := d;
                            syncStatus := _; date := _ |}).
  exists completeSurvey.
  assert (S1 : surveys_of s2 = surveys_of s)
    by (unfold surveys_of; now rewrite H1).
  assert (Q1 : queue_of s2 = queue_of s)
    by (unfold queue_of; now rewrite H2).
  destruct (onLine env) eqn:O; cbn [negb].
  - eexists. split; [reflexivity|]. cbn [snd fst notifications storage].
    unfold surveys_of, queue_of in *. cbn [storage survey_responses pending_sync_queue].
    split; [reflexivity|]. split; [reflexivity|]. split; [reflexivity|].
    split; [exact Q1 | exact H3].
  - eexists. split; [reflexivity|]. cbn.
    unfold surveys_of, queue_of in *. cbn.
    rewrite Q1. auto.
Qed.

Lemma submitSurvey_stores response env1 net env2 s :
  let env := if onLine env1 then env2 else env1 in
  let run := submitSurvey response env1 net env2 s in
  exists completeSurvey result,
    fst run = Return result
    /\ data completeSurvey = response
    /\ syncStatus completeSurvey = (if onLine env then "synced" else "pending")
    /\ surveys_of (snd run) = surveys_of s ++ [completeSurvey]
    /\ queue_of (snd run)
       = (if onLine env then queue_of s else queue_of s ++ [completeSurvey])
    /\ notifications (snd run) = notifications s
    /\ match result with
       | ServerResult body => onLine env1 = true /\ net = FetchResponse true body
       | LocalResult stored => stored = completeSurvey
       end.
Proof.
  intros env run.
  destruct (getDeviceId_effect env1 s) as (d & s1 & E & H1 & H2 & H3).
  assert (Q1 : queue_of s1 = queue_of s) by (unfold queue_of; now rewrite H2).
  assert (L1 : surveys_of s1 = surveys_of s) by (unfold surveys_of; now rewrite H1).
  destruct (onLine env1) eqn:O.
  - destruct (net_cases net) as [[body ->]|Hnet].
    + destruct (saveSurveyLocal_stores env2 response s1)
        as (cs & s2 & ES & HD & HS & HL & HQ & HN).
      assert (Erun : run = (Return (ServerResult body), s2)).
      { unfold run, submitSurvey. rewrite (bind_return _ _ s E), O.
        apply try_catch_return.
        rewrite (bind_return _ _ s1 (apiRequest_success _ _ _ body s1)).
        rewrite (bind_return _ _ s1 ES). reflexivity. }
      rewrite Erun. exists cs, (ServerResult body). unfold env. cbn [fst snd].
      rewrite HL, HQ, HN, L1, Q1, H3. auto 10.
    + destruct (@apiRequest_failure env2 "/survey-responses" "POST" net s1 Hnet)
        as (s2 & R & St & N).
      set (line := ("Failed to submit to backend, saving locally: "
                    ++ failure_of net)%string).
      set (s3 := {| storage := storage s2; notifications := notifications s2;
                    console := console s2 ++ [line]; drawn := drawn s2 |}).
      destruct (saveSurveyLocal_stores env2 response s3)
        as (cs & s4 & ES & HD & HS & HL & HQ & HN).
      assert (Erun : run = (Return (LocalResult cs), s4)).
      { unfold run, submitSurvey. rewrite (bind_return _ _ s E), O.
        rewrite (try_catch_throw _ _ s1 (bind_throw _ _ s1 R)).
        rewrite (bind_return _ _ s2 (eq_refl : console_log line s2 = (Return tt, s3))).
        rewrite (bind_return _ _ s3 ES). reflexivity. }
      assert (Q3 : queue_of s3 = queue_of s)
        by (unfold queue_of, s3; cbn [storage]; now rewrite St, H2).
      assert (L3 : surveys_of s3 = surveys_of s)
        by (unfold surveys_of, s3; cbn [storage]; now rewrite St, H1).
      assert (N3 : notifications s3 = notifications s)
        by (unfold s3; cbn [notifications]; now rewrite N, H3).
      rewrite Erun. exists cs, (LocalResult cs). unfold env. cbn [fst snd].
      rewrite HL, HQ, HN, L3, Q3, N3. auto 10.
  - destruct (saveSurveyLocal_stores env1 response s1)
      as (cs & s2 & ES & HD & HS & HL & HQ & HN).
    assert (Erun : run = (Return (LocalResult cs), s2)).
    { unfold run, submitSurvey. rewrite (bind_return _ _ s E), O.
      rewrite (bind_return _ _ s1 ES). reflexivity. }
    rewrite Erun. exists cs, (LocalResult cs). unfold env. cbn [fst snd].
    rewrite HL, HQ, HN, L1, Q1, H3. auto 10.
Qed.

(** A submitted survey is never lost and never raises an error: whatever
    the network does, [submitSurvey] returns and appends exactly one
    stored survey holding the response. Its label follows
    [navigator.onLine] at the time it is stored (on resumption after a
    request, at the start otherwise): 'synced' and not queued when
    online, 'pending' and appended to the queue when offline. The
    server's answer is returned only when the request succeeded. *)
Theorem submitSurvey_always_stores response env1 net env2 s :
  let env := if onLine env1 then env2 else env1 in
  let run := submitSurvey response env1 net env2 s in
  exists completeSurvey result,
    fst run = Return result
    /\ data completeSurvey = response
    /\ syncStatus completeSurvey = (if onLine env then "synced" else "pending")
    /\ surveys_of (snd run) = surveys_of s ++ [completeSurvey]
    /\ queue_of (snd run)
       = (if onLine env then queue_of s else queue_of s ++ [completeSurvey])
    /\ notifications (snd run) = notifications s
    /\ match result with
       | ServerResult body => onLine env1 = true /\ net = FetchResponse true body
       | LocalResult stored => stored = completeSurvey
       end.
Proof.
  intros env run.
  destruct (submitSurvey_stores response env1 net env2 s) as (cs & result & H).
  exists cs, result. exact H.
Qed.

Lemma syncOffline_failure_run env1 env2 net s :
  no_success net -> queue_of s <> [] -> onLine env1 = true ->
  exists s',
    syncOfflineResponses env1 net env2 s = (Throw (failure_of net), s')
    /\ storage s' = storage s /\ notifications s' = notifications s.
Proof.
  intros H Q O. unfold syncOfflineResponses.
  rewrite (bind_return _ _ s (getPendingSyncQueue_run s)).
  destruct (queue_of s); [now contradiction Q|]. rewrite O. cbn [List.length Nat.eqb orb negb].
  destruct (@apiRequest_failure env2 "/survey-responses/sync" "POST" net s H)
    as (s' & E & St & N).
  rewrite (try_catch_throw _ _ s (bind_throw _ _ s E)).
  eexists. split; [reflexivity|]. cbn [storage notifications]. auto.
Qed.

(** What a sync can do to local data, whatever happens. *)
Lemma syncOffline_shape env1 net env2 s :
  surveys_of (snd (syncOfflineResponses env1 net env2 s)) = surveys_of s
  /\ (queue_of (snd (syncOfflineResponses env1 net env2 s)) = queue_of s
      \/ queue_of (snd (syncOfflineResponses env1 net env2 s)) = []).
Proof.
  destruct (queue_of s) as [|q qs] eqn:Q.
  - rewrite (@syncOffline_noop env1 net env2 s (or_introl Q)). simpl. rewrite Q. auto.
  - destruct (onLine env1) eqn:O.
    + assert (Qne : queue_of s <> []) by (rewrite Q; discriminate).
      destruct (net_cases net) as [[body ->]|Hnet].
      * destruct (@syncOffline_ok_run env1 env2 body s Qne O) as (H1 & H2 & _).
        split; [exact H1|]. rewrite H2, Q. destruct (success body); auto.
      * destruct (@syncOffline_failure_run env1 env2 net s Hnet Qne O)
          as (s' & E & St & N).
        rewrite E. unfold surveys_of, queue_of in *. cbn [snd]. rewrite St. auto.
    + rewrite (@syncOffline_noop env1 net env2 s (or_intror O)). simpl. rewrite Q. auto.
Qed.

(** The pending queue stays honest: if every queued survey is among the
    stored surveys and labelled 'pending', this is still so after a
    submission, a local save, a sync attempt or a wipe, whatever the
    network and the connectivity are. *)
Theorem queue_stays_consistent s :
  queue_consistent s ->
  (forall response env1 net env2,
      queue_consistent (snd (submitSurvey response env1 net env2 s)))
  /\ (forall env response, queue_consistent (snd (saveSurveyLocal env response s)))
  /\ (forall env1 net env2,
         queue_consistent (snd (syncOfflineResponses env1 net env2 s)))
  /\ (forall confirmed,
         queue_consistent (snd (DataManagerRest.clearData confirmed s))).
Proof.
  intro H.
  assert (Grow : forall s' cs (online : bool),
             surveys_of s' = surveys_of s ++ [cs] ->
             syncStatus cs = (if online then "synced" else "pending") ->
             queue_of s' = (if online then queue_of s else queue_of s ++ [cs]) ->
             queue_consistent s').
  { intros s' cs online HL HS HQ q Hq. rewrite HL.
    destruct online.
    - rewrite HQ in Hq. destruct (H q Hq) as [H1 H2].
      split; [apply in_or_app; now left|exact H2].
    - rewrite HQ in Hq. apply in_app_or in Hq. destruct Hq as [Hq|[<-|[]]].
      + destruct (H q Hq) as [H1 H2]. split; [apply in_or_app; now left|exact H2].
      + split; [apply in_or_app; right; now left|exact HS]. }
  split; [|split; [|split]].
  - intros response env1 net env2.
    destruct (submitSurvey_stores response env1 net env2 s)
      as (cs & r & _ & _ & HS & HL & HQ & _).
    exact (Grow _ cs _ HL HS HQ).
  - intros env response.
    destruct (saveSurveyLocal_stores env response s)
      as (cs & s' & E & _ & HS & HL & HQ & _).
    rewrite E. exact (Grow s' cs _ HL HS HQ).
  - intros env1 net env2 q Hq.
    destruct (syncOffline_shape env1 net env2 s) as [HL [HQ|HQ]];
      rewrite HQ in Hq; [|destruct Hq].
    rewrite HL. now apply H.
  - intros [|] q Hq; [destruct Hq|now apply H].
Qed.

Lemma queue_stays_consistent_witness :
  queue_consistent
    (snd (submitSurvey transport_response env_offline (FetchRejected "unreachable")
            env_offline browser1))
  /\ queue_consistent
       (snd (syncOfflineResponses env_online (sync_ok ["r-1"] []) env_online browser1)).
Proof.
  assert (H : queue_consistent browser1).
  { intros q [<-|[]]. split; [now left|reflexivity]. }
  destruct (queue_stays_consistent H) as (H1 & _ & H3 & _).
  split; [apply H1|apply H3].
Defined.

Lemma submit_offline_grows env net responses :
  onLine env = false ->
  forall s,
  exists stored,
    List.length stored = List.length responses
    /\ map data stored = responses
    /\ Forall (fun cs => syncStatus cs = "pending") stored
    /\ surveys_of (submit_offline env net responses s) = surveys_of s ++ stored
    /\ queue_of (submit_offline env net responses s) = queue_of s ++ stored.
Proof.
  intro O. induction responses as [|r rest IH]; intro s.
  - exists []. simpl. rewrite !app_nil_r. auto.
  - simpl submit_offline.
    destruct (submitSurvey_stores r env net env s)
      as (cs & res & _ & HD & HS & HL & HQ & _).
    rewrite O in HS, HQ. cbv iota in HS, HQ. rewrite O in HS, HQ.
    destruct (IH (snd (submitSurvey r env net env s)))
      as (stored & E1 & E2 & E3 & E4 & E5).
    exists (cs :: stored). rewrite E4, E5, HL, HQ, <- !app_assoc. simpl.
    rewrite E1, E2, HD. repeat split; auto.
Qed.

(** Offline capture and replay. Surveys submitted while offline are all
    stored as 'pending' and queued in order, so the pending count grows
    by their number; one answered sync once the browser is online
    empties the queue, while the stored surveys, the new ones included,
    stay as they are. *)
Theorem offline_capture_then_replay env net responses env1 env2 ok_ids failures s :
  onLine env = false -> onLine env1 = true ->
  let captured := submit_offline env net responses s in
  let replayed := snd (syncOfflineResponses env1 (sync_ok ok_ids failures) env2 captured) in
  fst (getPendingSyncCount captured)
  = Return (List.length (queue_of s) + List.length responses)%nat
  /\ (exists stored,
         map data stored = responses
         /\ Forall (fun cs => syncStatus cs = "pending") stored
         /\ surveys_of captured = surveys_of s ++ stored
         /\ queue_of captured = queue_of s ++ stored)
  /\ queue_of replayed = []
  /\ fst (getPendingSyncCount replayed) = Return 0%nat
  /\ surveys_of replayed = surveys_of captured.
Proof.
  intros O O1 captured replayed.
  assert (Hcount : forall st, fst (getPendingSyncCount st) = Return (List.length (queue_of st)))
    by reflexivity.
  assert (Q : queue_of replayed = [] /\ surveys_of replayed = surveys_of captured).
  { unfold replayed. destruct (queue_of captured) as [|q qs] eqn:QC.
    - rewrite (@syncOffline_noop env1 (sync_ok ok_ids failures) env2 captured (or_introl QC)).
      cbn [snd]. auto.
    - assert (Qne : queue_of captured <> []) by (rewrite QC; discriminate).
      unfold sync_ok.
      match goal with
      | |- context [FetchResponse true ?b] =>
          destruct (@syncOffline_ok_run env1 env2 b captured Qne O1) as (H1 & H2 & _)
      end.
      rewrite H2, H1. cbn [success]. auto. }
  destruct Q as [Q1 Q2].
  destruct (@submit_offline_grows env net responses O s) as (stored & E1 & E2 & E3 & E4 & E5).
  fold captured in E4, E5.
  rewrite !Hcount, Q1, E5, length_app, E1.
  split; [reflexivity|]. split; [exists stored; auto|]. auto.
Qed.

Lemma offline_capture_then_replay_witness :
  let captured := submit_offline env_offline (FetchRejected "unreachable")
                    [transport_response; blank_response] browser1 in
  fst (getPendingSyncCount captured) = Return 3%nat
  /\ queue_of (snd (syncOfflineResponses env_online (sync_ok ["r-1"; "r-2"; "r-3"] [])
                      env_online captured)) = [].
Proof.
  destruct (@offline_capture_then_replay env_offline (FetchRejected "unreachable")
              [transport_response; blank_response] env_online env_online
              ["r-1"; "r-2"; "r-3"] [] browser1 eq_refl eq_refl)
    as (H1 & _ & H3 & _).
  split; [exact H1 | exact H3].
Defined.

(** The device identifier is stable: once [getDeviceId] has returned a
    non-empty identifier, it is the stored one, and every later call,
    in whatever environment, returns it again and changes nothing. It
    is freshly generated only when none was stored. *)
Theorem getDeviceId_is_stable env env' s d s1 :
  getDeviceId env s = (Return d, s1) -> d <> EmptyString ->
  getDeviceId env' s1 = (Return d, s1)
  /\ ls_deviceId (storage s1) = Some d
  /\ (ls_deviceId (storage s) = Some d /\ s1 = s
      \/ Js.truthy (ls_deviceId (storage s)) = false /\ d = idGen env (drawn s)).
Proof.
  unfold getDeviceId, bind, get_storage, generateId, put_storage, ret. simpl.
  destruct (ls_deviceId (storage s)) as [d0|] eqn:D; simpl.
  - destruct (String.eqb d0 EmptyString) eqn:E0; simpl; intros H Hne;
      inversion H; subst; clear H; simpl.
    + rewrite (proj2 (String.eqb_neq _ _) Hne). simpl. auto.
    + rewrite D. simpl. rewrite E0. simpl. auto.
  - intros H Hne. inversion H; subst; clear H. simpl.
    rewrite (proj2 (String.eqb_neq _ _) Hne). simpl. auto.
Qed.

Lemma getDeviceId_is_stable_witness :
  getDeviceId env_offline browser1 = (Return "device-a", browser1)
  /\ ls_deviceId (storage browser1) = Some "device-a".
Proof.
  destruct (@getDeviceId_is_stable env_online env_offline browser1 "device-a" browser1
              eq_refl ltac:(discriminate)) as (H1 & H2 & _).
  split; [exact H1 | exact H2].
Defined.

Lemma showNotification_run message type s :
  exists s',
    showNotification message type s = (Return tt, s')
    /\ storage s' = storage s
    /\ notifications s' = notifications s ++ [(message, type)].
Proof. eexists. split; [reflexivity|]. auto. Qed.

Lemma manualSync_run env1 net env2 s :
  exists s',
    TeamApp.manualSync env1 net env2 s = (Return tt, s')
    /\ surveys_of s' = surveys_of s
    /\ (queue_of s' = queue_of s \/ queue_of s' = [])
    /\ (onLine env1 = false ->
        storage s' = storage s
        /\ notifications s'
           = notifications s ++ [("Cannot sync - no internet connection", "error")])
    /\ (no_success net -> queue_of s <> [] -> onLine env1 = true ->
        storage s' = storage s
        /\ notifications s'
           = notifications s
             ++ [("Syncing data with team...", "info");
                 (("Sync failed: " ++ failure_of net)%string, "error")]).
Proof.
  unfold TeamApp.manualSync.
  rewrite (bind_return _ _ s
             (eq_refl : getPendingSyncCount s = (Return (List.length (queue_of s)), s))).
  destruct (onLine env1) eqn:O.
  - destruct (queue_of s) as [|q qs] eqn:Q.
    + cbn [List.length Nat.eqb andb].
      eexists. split; [reflexivity|]. cbn [surveys_of queue_of storage].
      split; [reflexivity|]. split; [left; exact Q|].
      split; [discriminate|]. intros _ X. now contradiction X.
    + cbn [List.length Nat.eqb andb negb].
      destruct (showNotification_run "Syncing data with team..." "info" s)
        as (s1 & E1 & St1 & N1).
      rewrite (bind_return _ _ s E1).
      assert (Q1 : queue_of s1 = q :: qs) by (unfold queue_of in *; now rewrite St1).
      assert (L1 : surveys_of s1 = surveys_of s) by (unfold surveys_of; now rewrite St1).
      destruct (syncOffline_shape env1 net env2 s1) as [HL HQ].
      destruct (syncOfflineResponses env1 net env2 s1) as [[results|error] s2] eqn:ES.
      * cbn [snd] in HL, HQ.
        rewrite (try_catch_return _ _ s1
                   (eq_trans (bind_return _ _ s1 ES) eq_refl)).
        eexists. split; [reflexivity|]. cbn [surveys_of queue_of storage].
        split; [now rewrite <- L1|].
        split; [rewrite <- Q1; exact HQ|].
        split; [discriminate|].
        intros Hnet _ _. exfalso.
        assert (Qne : queue_of s1 <> []) by (rewrite Q1; discriminate).
        destruct (@syncOffline_failure_run env1 env2 net s1 Hnet Qne O) as (s' & E' & _).
        congruence.
      * cbn [snd] in HL, HQ.
        rewrite (try_catch_throw _ _ s1 (bind_throw _ _ s1 ES)).
        eexists. split; [reflexivity|]. cbn [surveys_of queue_of storage notifications].
        split; [now rewrite <- L1|].
        split; [rewrite <- Q1; exact HQ|].
        split; [discriminate|].
        intros Hnet _ _.
        assert (Qne : queue_of s1 <> []) by (rewrite Q1; discriminate).
        destruct (@syncOffline_failure_run env1 env2 net s1 Hnet Qne O)
          as (s' & E' & St' & N').
        rewrite E' in ES. inversion ES. subst.
        rewrite St', St1, N', N1, <- app_assoc. auto.
  - rewrite andb_false_r. cbn [negb].
    eexists. split; [reflexivity|]. cbn [surveys_of queue_of storage notifications].
    split; [reflexivity|]. split; [now left|]. split; [auto|discriminate].
Qed.

(** A manual sync never raises an error: it always returns, reports the
    outcome as a notification, and leaves the stored surveys alone.
    Offline it only says "Cannot sync - no internet connection". When
    the request gets no successful response it announces the start and
    then "Sync failed: ..." with the error, and storage, the queue
    included, is what it was. *)
Theorem manualSync_reports_instead_of_throwing env1 net env2 s :
  exists s',
    TeamApp.manualSync env1 net env2 s = (Return tt, s')
    /\ surveys_of s' = surveys_of s
    /\ (queue_of s' = queue_of s \/ queue_of s' = [])
    /\ (onLine env1 = false ->
        storage s' = storage s
        /\ notifications s'
           = notifications s ++ [("Cannot sync - no internet connection", "error")])
    /\ (no_success net -> queue_of s <> [] -> onLine env1 = true ->
        storage s' = storage s
        /\ notifications s'
           = notifications s
             ++ [("Syncing data with team...", "info");
                 (("Sync failed: " ++ failure_of net)%string, "error")]).
Proof.
  destruct (manualSync_run env1 net env2 s) as (s' & H1 & H2).
  exists s'. split; [exact H1 | exact H2].
Qed.

Lemma manualSync_reports_instead_of_throwing_witness :
  exists s',
    TeamApp.manualSync env_online (FetchRejected "Failed to fetch") env_online browser1
    = (Return tt, s')
    /\ storage s' = storage browser1
    /\ notifications s'
       = [("Syncing data with team...", "info");
          ("Sync failed: Failed to fetch", "error")].
Proof.
  destruct (manualSync_reports_instead_of_throwing env_online
              (FetchRejected "Failed to fetch") env_online browser1)
    as (s' & H1 & _ & _ & _ & H5).
  exists s'. split; [exact H1|].
  apply (H5 I); [discriminate | reflexivity].
Defined.

(** The periodic sync is silent and safe: the 30-second tick and
    [autoSync] always return, never touch the stored surveys, and when
    the request gets no successful response they leave storage and the
    notifications exactly as they were. The tick does nothing at all
    when the browser is offline or the queue is empty. *)
Theorem autoSync_absorbs_failures env1 net env2 s :
  (exists s',
      TeamApp.autoSync env1 net env2 s = (Return tt, s')
      /\ surveys_of s' = surveys_of s
      /\ (queue_of s' = queue_of s \/ queue_of s' = [])
      /\ (no_success net -> storage s' = storage s /\ notifications s' = notifications s))
  /\ (exists s',
         TeamApp.syncTick env1 net env2 s = (Return tt, s')
         /\ surveys_of s' = surveys_of s
         /\ (no_success net -> storage s' = storage s /\ notifications s' = notifications s)
         /\ (onLine env1 = false \/ queue_of s = [] -> s' = s)).
Proof.
  assert (A : exists s',
      TeamApp.autoSync env1 net env2 s = (Return tt, s')
      /\ surveys_of s' = surveys_of s
      /\ (queue_of s' = queue_of s \/ queue_of s' = [])
      /\ (no_success net -> storage s' = storage s /\ notifications s' = notifications s)).
  { unfold TeamApp.autoSync.
    destruct (syncOffline_shape env1 net env2 s) as [HL HQ].
    assert (F : no_success net ->
                storage (snd (syncOfflineResponses env1 net env2 s)) = storage s
                /\ notifications (snd (syncOfflineResponses env1 net env2 s))
                   = notifications s).
    { intro Hnet. destruct (queue_of s) as [|q qs] eqn:Q.
      - rewrite (@syncOffline_noop env1 net env2 s (or_introl Q)). auto.
      - destruct (onLine env1) eqn:O.
        + assert (Qne : queue_of s <> []) by (rewrite Q; discriminate).
          destruct (@syncOffline_failure_run env1 env2 net s Hnet Qne O)
            as (s' & E & St & N). rewrite E. auto.
        + rewrite (@syncOffline_noop env1 net env2 s (or_intror O)). auto. }
    destruct (syncOfflineResponses env1 net env2 s) as [[results|error] s2] eqn:ES;
      cbn [snd] in HL, HQ, F.
    - rewrite (try_catch_return _ _ s (eq_trans (bind_return _ _ s ES) eq_refl)).
      eexists. split; [reflexivity|]. cbn [surveys_of queue_of storage notifications].
      auto.
    - rewrite (try_catch_throw _ _ s (bind_throw _ _ s ES)).
      eexists. split; [reflexivity|]. cbn [surveys_of queue_of storage notifications].
      auto. }
  split; [exact A|].
  unfold TeamApp.syncTick.
  rewrite (bind_return _ _ s
             (eq_refl : getPendingSyncCount s = (Return (List.length (queue_of s)), s))).
  destruct (onLine env1) eqn:O; cbn [andb].
  - destruct (queue_of s) as [|q qs] eqn:Q; cbn [List.length Nat.ltb Nat.leb].
    + exists s. unfold ret. auto.
    + destruct A as (s' & E & HL & _ & F).
      exists s'. split; [exact E|]. split; [exact HL|]. split; [exact F|].
      intros [X|X]; discriminate.
  - exists s. unfold ret. auto.
Qed.

Lemma autoSync_absorbs_failures_witness :
  exists s',
    TeamApp.syncTick env_online (FetchRejected "Failed to fetch") env_online browser1
    = (Return tt, s')
    /\ storage s' = storage browser1 /\ notifications s' = notifications browser1.
Proof.
  destruct (autoSync_absorbs_failures env_online (FetchRejected "Failed to fetch")
              env_online browser1) as (_ & s' & E & _ & F & _).
  exists s'. split; [exact E|]. exact (F I).
Defined.

(* ================================================================== *)
(** ** Team members *)
(* ================================================================== *)

Import DataManagerRest.

Lemma same_device_spec d m : same_device d m = true <-> m_deviceId m = d.
Proof. unfold same_device. apply opt_eqb_string_spec. Qed.

Lemma find_same_device_none d team :
  find (same_device d) team = None <-> ~ In d (map m_deviceId team).
Proof.
  induction team as [|m team IH]; simpl; [tauto|].
  destruct (same_device d m) eqn:E.
  - apply same_device_spec in E. split; [discriminate|]. intro H. exfalso. auto.
  - rewrite IH. split.
    + intros H [X|X]; [|auto]. apply same_device_spec in X. congruence.
    + intros H X. apply H. now right.
Qed.

(** [addTeamMember] registers a device at most once: the members already
    there stay where they are, a device that is already a member changes
    nothing (so adding twice is adding once), a new one is appended with
    its join time, and device identifiers that were pairwise distinct
    stay so. *)
Theorem addTeamMember_registers_device_once now now' member team :
  (exists added, addTeamMember now member team = team ++ added
                 /\ (List.length added <= 1)%nat)
  /\ In (m_deviceId member) (map m_deviceId (addTeamMember now member team))
  /\ addTeamMember now' member (addTeamMember now member team)
     = addTeamMember now member team
  /\ (In (m_deviceId member) (map m_deviceId team) ->
      addTeamMember now member team = team)
  /\ (NoDup (map m_deviceId team) ->
      NoDup (map m_deviceId (addTeamMember now member team))).
Proof.
  destruct (find (same_device (m_deviceId member)) team) as [m|] eqn:F.
  - assert (Hin : In (m_deviceId member) (map m_deviceId team)).
    { apply find_some in F. destruct F as [Hin E]. apply same_device_spec in E.
      rewrite <- E. now apply in_map. }
    assert (E : addTeamMember now member team = team)
      by (unfold addTeamMember; now rewrite F).
    rewrite E.
    split; [exists []; rewrite app_nil_r; simpl; auto|].
    split; [exact Hin|].
    split; [unfold addTeamMember; now rewrite F|].
    split; [reflexivity|auto].
  - pose proof (proj1 (find_same_device_none _ _) F) as Hnot.
    set (new := {| m_id := m_id member; m_deviceId := m_deviceId member;
                   m_name := m_name member; m_role := m_role member;
                   m_isOnline := m_isOnline member;
                   m_joined := Some now; m_lastSeen := Some now |}).
    assert (E : addTeamMember now member team = team ++ [new])
      by (unfold addTeamMember; now rewrite F).
    rewrite E.
    assert (Hin : In (m_deviceId member) (map m_deviceId (team ++ [new])))
      by (rewrite map_app; apply in_or_app; right; now left).
    split; [exists [new]; split; [reflexivity|simpl; lia]|].
    split; [exact Hin|].
    split.
    + unfold addTeamMember.
      destruct (find (same_device (m_deviceId member)) (team ++ [new])) eqn:F2;
        [reflexivity|].
      exfalso. exact (proj1 (find_same_device_none _ _) F2 Hin).
    + split; [intro X; contradiction|].
      intro N. rewrite map_app. simpl.
      apply NoDup_app; [exact N | repeat constructor; auto |].
      intros d Hd [<-|[]]. contradiction.
Qed.

Lemma addTeamMember_registers_device_once_witness :
  addTeamMember "2024-01-02T00:00:00.000Z" member_a
    (addTeamMember "2024-01-01T00:00:00.000Z" member_a [])
  = addTeamMember "2024-01-01T00:00:00.000Z" member_a []
  /\ NoDup (map m_deviceId (addTeamMember "2024-01-01T00:00:00.000Z" member_a [])).
Proof.
  destruct (addTeamMember_registers_device_once
              "2024-01-01T00:00:00.000Z" "2024-01-02T00:00:00.000Z" member_a [])
    as (_ & _ & H3 & _ & H5).
  split; [exact H3 | apply H5; constructor].
Defined.

(** A presence update never adds, removes or reorders members and never
    changes a device identifier; a device that is not a member changes
    nothing; members of other devices are left exactly as they were. *)
Theorem presence_update_keeps_the_team now deviceId isOnline team :
  map m_deviceId (updateTeamMemberPresence now deviceId isOnline team)
  = map m_deviceId team
  /\ List.length (updateTeamMemberPresence now deviceId isOnline team)
     = List.length team
  /\ (~ In deviceId (map m_deviceId team) ->
      updateTeamMemberPresence now deviceId isOnline team = team)
  /\ (forall m, In m team -> m_deviceId m <> deviceId ->
                In m (updateTeamMemberPresence now deviceId isOnline team))
  /\ (In deviceId (map m_deviceId team) ->
      exists m, In m (updateTeamMemberPresence now deviceId isOnline team)
                /\ m_deviceId m = deviceId
                /\ m_isOnline m = Some isOnline /\ m_lastSeen m = Some now).
Proof.
  induction team as [|m team (IH1 & IH2 & IH3 & IH4 & IH5)]; simpl.
  - split; [reflexivity|]. split; [reflexivity|]. split; [reflexivity|].
    split; [intros m []|intros []].
  - destruct (same_device deviceId m) eqn:E.
    + apply same_device_spec in E. simpl.
      split; [reflexivity|]. split; [reflexivity|].
      split; [intro H; exfalso; auto|].
      split.
      * intros m' [<-|Hin] Hne; [contradiction|now right].
      * intros _. eexists. split; [now left|]. simpl. auto.
    + assert (Hne : m_deviceId m <> deviceId)
        by (intro X; apply same_device_spec in X; congruence).
      simpl. split; [now rewrite IH1|]. split; [now rewrite IH2|].
      split; [intro H; rewrite IH3; auto|].
      split.
      * intros m' [<-|Hin] Hne'; [now left|right; now apply IH4].
      * intros [X|X]; [contradiction|].
        destruct (IH5 X) as (m' & Hin & H). exists m'. split; [now right|exact H].
Qed.

Lemma presence_update_keeps_the_team_witness :
  exists m,
    In m (updateTeamMemberPresence "2024-01-03T00:00:00.000Z" (Some "device-a") false
            [member_a])
    /\ m_isOnline m = Some false.
Proof.
  destruct (presence_update_keeps_the_team "2024-01-03T00:00:00.000Z"
              (Some "device-a") false [member_a]) as (_ & _ & _ & _ & H).
  destruct (H (or_introl eq_refl)) as (m & Hin & _ & Ho & _).
  exists m. split; [exact Hin | exact Ho].
Defined.

(* ================================================================== *)
(** ** Ratings and click sequences *)
(* ================================================================== *)

Lemma get_set_same {V} (o : Js.obj V) k v : Js.get (Js.set o k v) k = Some v.
Proof.
  induction o as [|[k' v'] o IH]; simpl.
  - now rewrite String.eqb_refl.
  - destruct (String.eqb k' k) eqn:E; simpl; rewrite E; [reflexivity|exact IH].
Qed.

Lemma get_set_other {V} (o : Js.obj V) k v c :
  c <> k -> Js.get (Js.set o k v) c = Js.get o c.
Proof.
  intro H. induction o as [|[k' v'] o IH]; simpl.
  - destruct (String.eqb k c) eqn:E; [|reflexivity].
    apply String.eqb_eq in E. congruence.
  - destruct (String.eqb k' k) eqn:E; simpl.
    + apply String.eqb_eq in E. subst k'.
      destruct (String.eqb k c) eqn:E2; [|reflexivity].
      apply String.eqb_eq in E2. congruence.
    + destruct (String.eqb k' c); [reflexivity|exact IH].
Qed.

Lemma get_none_keys {V} (o : Js.obj V) k :
  Js.get o k = None <-> ~ In k (Js.keys o).
Proof.
  induction o as [|[k' v'] o IH]; simpl; [tauto|].
  destruct (String.eqb k' k) eqn:E.
  - apply String.eqb_eq in E. split; [discriminate|]. intro H. exfalso. auto.
  - apply String.eqb_neq in E. rewrite IH. tauto.
Qed.

Lemma keys_set {V} (o : Js.obj V) k v :
  Js.keys (Js.set o k v)
  = match Js.get o k with
    | Some _ => Js.keys o
    | None => Js.keys o ++ [k]
    end.
Proof.
  induction o as [|[k' v'] o IH]; simpl; [reflexivity|].
  destruct (String.eqb k' k) eqn:E; simpl; [reflexivity|].
  unfold Js.keys in *. rewrite IH. now destruct (Js.get o k).
Qed.

Lemma keys_set_nodup {V} (o : Js.obj V) k v :
  NoDup (Js.keys o) -> NoDup (Js.keys (Js.set o k v)).
Proof.
  intro N. rewrite keys_set. destruct (Js.get o k) eqn:G; [exact N|].
  apply get_none_keys in G.
  apply NoDup_app; [exact N | repeat constructor; auto |].
  intros c Hc [<-|[]]. contradiction.
Qed.

(** Selecting a rating stores it under its category and nowhere else: the
    category then reads back the selected value, every other category
    keeps its rating, a category rated before keeps its place in the
    object, a new one goes last, and the categories stay distinct. *)
Theorem handleRatingSelect_stores_rating category value currentRatings :
  let after := handleRatingSelect category value currentRatings in
  Js.get after category = Some value
  /\ (forall c, c <> category -> Js.get after c = Js.get currentRatings c)
  /\ (In category (Js.keys currentRatings) -> Js.keys after = Js.keys currentRatings)
  /\ (~ In category (Js.keys currentRatings) ->
      Js.keys after = Js.keys currentRatings ++ [category])
  /\ (NoDup (Js.keys currentRatings) -> NoDup (Js.keys after)).
Proof.
  cbv zeta. unfold handleRatingSelect.
  split; [apply get_set_same|].
  split; [intros c H; now apply get_set_other|].
  split; [|split].
  - intro H. rewrite keys_set.
    destruct (Js.get currentRatings category) eqn:G; [reflexivity|].
    apply get_none_keys in G. contradiction.
  - intro H. rewrite keys_set. apply get_none_keys in H. now rewrite H.
  - intro N. now apply keys_set_nodup.
Qed.

Lemma handleRatingSelect_stores_rating_witness :
  Js.keys (handleRatingSelect "A" 2 ratings_ABCD) = ["A"; "B"; "C"; "D"]
  /\ Js.keys (handleRatingSelect "E" 1 ratings_ABCD) = ["A"; "B"; "C"; "D"; "E"]
  /\ NoDup (Js.keys (handleRatingSelect "A" 2 ratings_ABCD)).
Proof.
  destruct (handleRatingSelect_stores_rating "A" 2 ratings_ABCD) as (_ & _ & H3 & _ & H5).
  destruct (handleRatingSelect_stores_rating "E" 1 ratings_ABCD) as (_ & _ & _ & H4 & _).
  assert (N : NoDup (Js.keys ratings_ABCD))
    by (repeat constructor; simpl; intuition discriminate).
  split; [apply H3; now left|].
  split; [apply H4; simpl; intuition discriminate|].
  exact (H5 N).
Defined.

Lemma ratings_after_get clicks :
  forall r c,
    Js.get (fold_left (fun r click => handleRatingSelect (fst click) (snd click) r)
                      clicks r) c
    = match last_click clicks c with
      | Some v => Some v
      | None => Js.get r c
      end.
Proof.
  induction clicks as [|[k v] clicks IH]; intros r c; [reflexivity|].
  simpl fold_left. rewrite IH. simpl last_click.
  destruct (last_click clicks c); [reflexivity|].
  unfold handleRatingSelect. simpl fst. simpl snd.
  destruct (String.eqb k c) eqn:E.
  - apply String.eqb_eq in E. subst. apply get_set_same.
  - apply String.eqb_neq in E. apply get_set_other. congruence.
Qed.

Lemma ratings_after_nodup clicks :
  forall r, NoDup (Js.keys r) ->
    NoDup (Js.keys (fold_left (fun r click =>
                                 handleRatingSelect (fst click) (snd click) r)
                              clicks r)).
Proof.
  induction clicks as [|[k v] clicks IH]; intros r N; [exact N|].
  simpl fold_left. apply IH. now apply keys_set_nodup.
Qed.

Lemma get_of_entry {V} (o : Js.obj V) k v :
  NoDup (Js.keys o) -> In (k, v) o -> Js.get o k = Some v.
Proof.
  induction o as [|[k' v'] o IH]; simpl; [tauto|].
  intros N [H|H].
  - inversion H. subst. now rewrite String.eqb_refl.
  - inversion N as [|? ? Hnot N']; subst.
    destruct (String.eqb k' k) eqn:E; [|now apply IH].
    apply String.eqb_eq in E. subst. exfalso. apply Hnot.
    change k with (fst (k, v)). now apply in_map.
Qed.

Lemma nodup_map_filter {A B} (f : A -> B) (p : A -> bool) l :
  NoDup (map f l) -> NoDup (map f (filter p l)).
Proof.
  induction l as [|x l IH]; simpl; [auto|].
  intro N. inversion N as [|? ? Hnot N']; subst.
  destruct (p x); simpl; [|now apply IH].
  constructor; [|now apply IH].
  intro H. apply Hnot. apply in_map_iff in H. destruct H as (y & E & Hy).
  apply filter_In in Hy. rewrite <- E. apply in_map. tauto.
Qed.

(** Whatever ratings the respondent clicks, in whatever order and however
    often, the derived top problems name each category at most once, and
    each with the rating clicked last for it. *)
Theorem top_problems_follow_last_clicks clicks :
  let top := getTopProblems (ratings_after clicks) in
  NoDup (map category top)
  /\ Forall (fun p => last_click clicks (category p) = Some (rating p)) top.
Proof.
  intro top.
  set (r := ratings_after clicks).
  assert (N : NoDup (Js.keys r)) by (apply ratings_after_nodup; constructor).
  set (candidates := map as_problem (Js.entries r)).
  set (sorted := Js.sort by_rating_desc (filter (fun p => (rating p >? 0)%Z) candidates)).
  assert (Etop : top = firstn 3 sorted) by reflexivity.
  assert (Nc : NoDup (map category candidates)).
  { unfold candidates. rewrite map_map. exact N. }
  assert (Ns : NoDup (map category sorted)).
  { apply (Permutation_NoDup
             (Permutation_map category
                (Permutation_sym
                   (sort_perm by_rating_desc
                      (filter (fun p => (rating p >? 0)%Z) candidates))))).
    now apply nodup_map_filter. }
  assert (Hsub : forall p, In p top -> In p candidates).
  { intros p Hp. rewrite Etop in Hp.
    assert (Hs : In p sorted)
      by (rewrite <- (firstn_skipn 3 sorted); apply in_or_app; now left).
    apply (Permutation_in _ (sort_perm by_rating_desc _)) in Hs.
    apply filter_In in Hs. tauto. }
  split.
  - rewrite Etop. rewrite <- (firstn_skipn 3 sorted), map_app in Ns.
    now apply NoDup_app_remove_r in Ns.
  - apply Forall_forall. intros p Hp. apply Hsub in Hp.
    unfold candidates in Hp. apply in_map_iff in Hp.
    destruct Hp as ([k v] & <- & Hin). simpl.
    pose proof (@get_of_entry Z r k v N Hin) as G.
    unfold r, ratings_after in G. rewrite ratings_after_get in G.
    simpl in G. destruct (last_click clicks k); [exact G|discriminate].
Qed.

(* ================================================================== *)
(** ** Further properties of the aggregation *)
(* ================================================================== *)

Lemma total_set o k v :
  total (Js.set o k v) = (total o - or0 o k + v)%Z.
Proof.
  unfold or0. induction o as [|[k' v'] o IH]; simpl.
  - lia.
  - destruct (String.eqb k' k) eqn:E; simpl; [lia|]. rewrite IH. lia.
Qed.

(** Each of the inner loops touches only its own containers. *)
Lemma rateOne_frame l :
  forall a,
    a_satisfaction (fold_left rateOne l a) = a_satisfaction a
    /\ a_adoptionLikelihood (fold_left rateOne l a) = a_adoptionLikelihood a
    /\ a_willingnessToPay (fold_left rateOne l a) = a_willingnessToPay a
    /\ a_topProblems (fold_left rateOne l a) = a_topProblems a.
Proof.
  induction l as [|[category r] l IH]; intro a; [auto|].
  cbn [fold_left]. destruct (IH (rateOne a (category, r))) as (H1 & H2 & H3 & H4).
  rewrite H1, H2, H3, H4. unfold rateOne. destruct (r >? 0)%Z; auto.
Qed.

Lemma topOne_frame l :
  forall a,
    a_satisfaction (fold_left topOne l a) = a_satisfaction a
    /\ a_adoptionLikelihood (fold_left topOne l a) = a_adoptionLikelihood a
    /\ a_willingnessToPay (fold_left topOne l a) = a_willingnessToPay a
    /\ totalSeverity (fold_left topOne l a) = totalSeverity a
    /\ severityCount (fold_left topOne l a) = severityCount a.
Proof.
  induction l as [|p l IH]; intro a; [auto 6|].
  cbn [fold_left]. destruct (IH (topOne a p)) as (H1 & H2 & H3 & H4 & H5).
  rewrite H1, H2, H3, H4, H5. auto 6.
Qed.

Lemma processOne_frame a r :
  a_satisfaction (processOne a r) = histogram (a_satisfaction a) (satisfactionRating r)
  /\ a_adoptionLikelihood (processOne a r)
     = histogram (a_adoptionLikelihood a) (likelihoodRating r)
  /\ a_willingnessToPay (processOne a r)
     = payOne (a_willingnessToPay a) (Survey.willingnessToPay r).
Proof.
  unfold processOne.
  cbn [a_satisfaction a_adoptionLikelihood a_willingnessToPay].
  set (a1 := match problemRatings r with
             | Some ratings => fold_left rateOne (Js.entries ratings) a
             | None => a
             end).
  assert (H1 : a_satisfaction a1 = a_satisfaction a
               /\ a_adoptionLikelihood a1 = a_adoptionLikelihood a
               /\ a_willingnessToPay a1 = a_willingnessToPay a).
  { unfold a1. destruct (problemRatings r) as [ratings|]; [|auto].
    destruct (rateOne_frame (Js.entries ratings) a) as (X1 & X2 & X3 & _). auto. }
  set (a2 := match Survey.topProblems r with
             | Some tops => if (0 <? List.length tops)%nat
                            then fold_left topOne tops a1 else a1
             | None => a1
             end).
  assert (H2 : a_satisfaction a2 = a_satisfaction a1
               /\ a_adoptionLikelihood a2 = a_adoptionLikelihood a1
               /\ a_willingnessToPay a2 = a_willingnessToPay a1).
  { unfold a2. destruct (Survey.topProblems r) as [tops|]; [|auto].
    destruct (0 <? List.length tops)%nat; [|auto].
    destruct (topOne_frame tops a1) as (X1 & X2 & X3 & _). auto. }
  destruct H1 as (A1 & A2 & A3), H2 as (B1 & B2 & B3).
  rewrite B1, B2, B3, A1, A2, A3. auto.
Qed.

Lemma histogram_keeps_buckets hist v :
  Js.keys hist = bucket_keys ->
  Js.keys (histogram hist v) = bucket_keys
  /\ total (histogram hist v) = (total hist + if in_buckets v then 1 else 0)%Z.
Proof.
  intro K. unfold histogram, in_buckets.
  destruct (Js.truthy v); [|split; [exact K|lia]].
  destruct (Js.parseInt _) as [rating|]; [|split; [exact K|lia]].
  destruct ((1 <=? rating)%Z && (rating <=? 5)%Z) eqn:B; [|split; [exact K|lia]].
  apply andb_true_iff in B. destruct B as [B1 B2].
  apply Z.leb_le in B1, B2.
  split; [|rewrite total_set; lia].
  rewrite keys_set.
  assert (Hin : In (Js.of_nat (Z.to_nat rating)) bucket_keys).
  { assert (C : (rating = 1 \/ rating = 2 \/ rating = 3 \/ rating = 4 \/ rating = 5)%Z)
      by lia.
    destruct C as [->|[->|[->|[->| ->]]]]; simpl; auto 6. }
  destruct (Js.get hist (Js.of_nat (Z.to_nat rating))) eqn:G; [exact K|].
  apply get_none_keys in G. rewrite K in G. contradiction.
Qed.

Lemma fold_histograms responses :
  forall a,
    Js.keys (a_satisfaction a) = bucket_keys ->
    Js.keys (a_adoptionLikelihood a) = bucket_keys ->
    let out := fold_left processOne responses a in
    Js.keys (a_satisfaction out) = bucket_keys
    /\ Js.keys (a_adoptionLikelihood out) = bucket_keys
    /\ total (a_satisfaction out)
       = (total (a_satisfaction a)
          + count (fun r => in_buckets (satisfactionRating r)) responses)%Z
    /\ total (a_adoptionLikelihood out)
       = (total (a_adoptionLikelihood a)
          + count (fun r => in_buckets (likelihoodRating r)) responses)%Z.
Proof.
  induction responses as [|r l IH]; intros a K1 K2.
  - unfold count. simpl. repeat split; auto; lia.
  - cbv zeta. cbn [fold_left].
    destruct (processOne_frame a r) as (P1 & P2 & _).
    destruct (@histogram_keeps_buckets _ (satisfactionRating r) K1) as [S1 S2].
    destruct (@histogram_keeps_buckets _ (likelihoodRating r) K2) as [L1 L2].
    rewrite <- P1 in S1, S2. rewrite <- P2 in L1, L2.
    destruct (IH (processOne a r) S1 L1) as (H1 & H2 & H3 & H4).
    cbv zeta in H1, H2, H3, H4.
    rewrite H3, H4, S2, L2, !count_cons. repeat split; auto; lia.
Qed.

(** Histogram completeness. For every non-empty response set both the
    satisfaction and the adoption-likelihood histogram have exactly the
    five buckets 1 to 5, in that order, and the buckets of each add up to
    the number of responses whose rating parses to a value from 1 to 5;
    the other responses are ignored. *)
Theorem histograms_have_five_buckets responses processedData :
  processSurveyData responses = Some processedData ->
  Js.keys (satisfaction processedData) = ["1"; "2"; "3"; "4"; "5"]
  /\ Js.keys (adoptionLikelihood processedData) = ["1"; "2"; "3"; "4"; "5"]
  /\ total (satisfaction processedData)
     = count (fun r => in_buckets (satisfactionRating r)) responses
  /\ total (adoptionLikelihood processedData)
     = count (fun r => in_buckets (likelihoodRating r)) responses.
Proof.
  unfold processSurveyData.
  destruct (List.length responses =? 0)%nat; [discriminate|].
  intro H. inversion H. subst. clear H.
  cbn [satisfaction adoptionLikelihood].
  destruct (@fold_histograms responses initial eq_refl eq_refl) as (H1 & H2 & H3 & H4).
  cbv zeta in H1, H2, H3, H4. rewrite H3, H4. simpl total. auto.
Qed.

Lemma histograms_have_five_buckets_witness :
  exists processedData,
    processSurveyData [transport_response; interest_only "yes"] = Some processedData
    /\ Js.keys (satisfaction processedData) = ["1"; "2"; "3"; "4"; "5"]
    /\ total (satisfaction processedData) = 1%Z.
Proof.
  eexists. split; [reflexivity|].
  destruct (@histograms_have_five_buckets [transport_response; interest_only "yes"]
              _ eq_refl) as (H1 & _ & H3 & _).
  split; [exact H1 | exact H3].
Defined.

Lemma rateOne_totals l :
  forall a,
    totalSeverity (fold_left rateOne l a)
    = (totalSeverity a + sumZ (filter (fun v => (v >? 0)%Z) (map snd l)))%Z
    /\ severityCount (fold_left rateOne l a)
       = (severityCount a
          + Z.of_nat (List.length (filter (fun v => (v >? 0)%Z) (map snd l))))%Z.
Proof.
  induction l as [|[category r] l IH]; intro a.
  - simpl. lia.
  - cbn [fold_left]. destruct (IH (rateOne a (category, r))) as [H1 H2].
    rewrite H1, H2. cbn [map snd filter]. unfold rateOne.
    destruct (r >? 0)%Z; cbn [totalSeverity severityCount sumZ fold_right List.length];
      fold (sumZ (filter (fun v => (v >? 0)%Z) (map snd l))); lia.
Qed.

Lemma processOne_totals a r :
  totalSeverity (processOne a r) = (totalSeverity a + sumZ (positive_ratings r))%Z
  /\ severityCount (processOne a r)
     = (severityCount a + Z.of_nat (List.length (positive_ratings r)))%Z.
Proof.
  unfold processOne, positive_ratings. cbn [totalSeverity severityCount].
  set (a1 := match problemRatings r with
             | Some ratings => fold_left rateOne (Js.entries ratings) a
             | None => a
             end).
  assert (H1 : totalSeverity a1
               = (totalSeverity a
                  + sumZ match problemRatings r with
                         | Some ratings =>
                             filter (fun v => (v >? 0)%Z) (map snd (Js.entries ratings))
                         | None => []
                         end)%Z
               /\ severityCount a1
                  = (severityCount a
                     + Z.of_nat (List.length
                          match problemRatings r with
                          | Some ratings =>
                              filter (fun v => (v >? 0)%Z) (map snd (Js.entries ratings))
                          | None => []
                          end))%Z).
  { unfold a1. destruct (problemRatings r) as [ratings|].
    - apply rateOne_totals.
    - simpl. lia. }
  destruct H1 as [T1 T2]. rewrite <- T1, <- T2.
  destruct (Survey.topProblems r) as [tops|]; [|auto].
  destruct (0 <? List.length tops)%nat; [|auto].
  destruct (topOne_frame tops a1) as (_ & _ & _ & X4 & X5). auto.
Qed.

Lemma sumZ_app l1 l2 : sumZ (l1 ++ l2) = (sumZ l1 + sumZ l2)%Z.
Proof. induction l1 as [|x l1 IH]; simpl; [reflexivity|]. rewrite IH. lia. Qed.

Lemma fold_totals responses :
  forall a,
    totalSeverity (fold_left processOne responses a)
    = (totalSeverity a + sumZ (flat_map positive_ratings responses))%Z
    /\ severityCount (fold_left processOne responses a)
       = (severityCount a
          + Z.of_nat (List.length (flat_map positive_ratings responses)))%Z.
Proof.
  induction responses as [|r l IH]; intro a.
  - simpl. lia.
  - cbn [fold_left flat_map]. destruct (IH (processOne a r)) as [H1 H2].
    destruct (processOne_totals a r) as [P1 P2].
    rewrite H1, H2, P1, P2, sumZ_app, length_app. lia.
Qed.

(** The average severity is taken over the ratings above zero, of all
    categories and all responses together: it is the text "0.0" exactly
    when there is no such rating, and otherwise the one-decimal rendering
    of their sum divided by their number. Unrated categories and top
    problem lists play no part. *)
Theorem average_severity_over_positive_ratings responses processedData :
  processSurveyData responses = Some processedData ->
  let rated := flat_map positive_ratings responses in
  Forall (fun v => (0 < v)%Z) rated
  /\ avgProblemSeverity processedData
     = match rated with
       | [] => Js.Lit "0.0"
       | _ :: _ => Js.ToFixed1 (sumZ rated) (Z.of_nat (List.length rated))
       end.
Proof.
  unfold processSurveyData.
  destruct (List.length responses =? 0)%nat; [discriminate|].
  intro H. inversion H. subst. clear H. cbv zeta. cbn [avgProblemSeverity].
  destruct (fold_totals responses initial) as [H1 H2].
  cbn [initial totalSeverity severityCount] in H1, H2.
  rewrite H1, H2. split.
  - apply Forall_forall. intros v Hv. apply in_flat_map in Hv.
    destruct Hv as (r & _ & Hv). unfold positive_ratings in Hv.
    destruct (problemRatings r); [|destruct Hv].
    apply filter_In in Hv. destruct Hv as [_ Hv]. apply Z.gtb_lt in Hv. lia.
  - destruct (flat_map positive_ratings responses) as [|v rest]; [reflexivity|].
    assert (P : (0 + Z.of_nat (List.length (v :: rest)) >? 0)%Z = true)
      by (apply Z.gtb_lt; simpl List.length; lia).
    rewrite P. f_equal; lia.
Qed.

Lemma average_severity_over_positive_ratings_witness :
  exists processedData,
    processSurveyData [transport_response; blank_response] = Some processedData
    /\ avgProblemSeverity processedData = Js.ToFixed1 4 1.
Proof.
  eexists. split; [reflexivity|].
  exact (proj2 (@average_severity_over_positive_ratings
                  [transport_response; blank_response] _ eq_refl)).
Defined.













Lemma pickMax_below c l :
  forall m t,
    (m < c)%Z -> Forall (fun e => (snd e < c)%Z) l ->
    (fst (fold_left pickMax l (m, t)) < c)%Z.
Proof.
  induction l as [|[k v] l IH]; intros m t Hm H; [exact Hm|].
  inversion H as [|? ? Hv Hl]; subst. cbn [fold_left]. unfold pickMax at 2.
  simpl in Hv. destruct (v >? m)%Z; now apply IH.
Qed.

Lemma pickMax_stays c k l :
  Forall (fun e => (snd e <= c)%Z) l -> fold_left pickMax l (c, k) = (c, k).
Proof.
  induction l as [|[k' v] l IH]; intro H; [reflexivity|].
  inversion H as [|? ? Hv Hl]; subst. cbn [fold_left]. unfold pickMax at 2.
  simpl in Hv. destruct (v >? c)%Z eqn:E; [|now apply IH].
  apply Z.gtb_lt in E. lia.
Qed.

(** The top problem is the category counted most often among the top
    problems, and of several with the same count the one that was
    counted first; with no data at all it is the text "No data". *)
Theorem topProblem_is_first_most_frequent responses processedData :
  processSurveyData responses = Some processedData ->
  (forall before k c after,
      topProblems processedData = before ++ (k, c) :: after ->
      Forall (fun e => (snd e < c)%Z) before ->
      Forall (fun e => (snd e <= c)%Z) after ->
      (0 < c)%Z -> k <> EmptyString ->
      topProblem processedData = k)
  /\ (topProblems processedData = [] -> problemDistribution processedData = [] ->
      topProblem processedData = "No data").
Proof.
  unfold processSurveyData.
  destruct (List.length responses =? 0)%nat; [discriminate|].
  intro H. inversion H. subst. clear H.
  cbn [topProblems topProblem problemDistribution]. unfold findTopProblem.
  split.
  - intros before k c after E Hb Ha Hc Hk. rewrite E. unfold Js.entries.
    rewrite fold_left_app. cbn [fold_left].
    pose proof (@pickMax_below c before 0%Z EmptyString Hc Hb) as Hlt.
    destruct (fold_left pickMax before (0%Z, EmptyString)) as [m t]. simpl in Hlt.
    unfold pickMax at 2.
    assert (G : (c >? m)%Z = true) by (apply Z.gtb_lt; lia).
    rewrite G, (pickMax_stays k Ha).
    apply String.eqb_neq in Hk. rewrite Hk. cbv beta iota. now rewrite Hk.
  - intros E1 E2. rewrite E1, E2. reflexivity.
Qed.

Lemma topProblem_is_first_most_frequent_witness :
  exists processedData,
    processSurveyData [transport_response; transport_response] = Some processedData
    /\ topProblem processedData = "Transport".
Proof.
  eexists. split; [reflexivity|].
  apply (proj1 (@topProblem_is_first_most_frequent
                  [transport_response; transport_response] _ eq_refl)
               [] "Transport" 2%Z []);
    [reflexivity | constructor | constructor | lia | discriminate].
Defined.
